(** * Authentication and session core of life_quest_backend

    A shallow embedding of
    - [app/core/security.py]   (password check, JWT issuance and decoding),
    - [app/core/oauth.py]      (Google id-token check),
    - [app/repositories/user_repo.py], [app/repositories/profile_repo.py]
      (the SQL tables as lists of rows, queries as filters),
    - [app/services/auth_service.py], [app/services/profile_service.py].

    Python exceptions are the [inl] side of a sum; the database session is
    threaded as explicit state through a small state-and-exception monad.
    Time is a [Z] number of microseconds since the epoch (the precision of
    [datetime]); [timegm(dt.utctimetuple())], used by python-jose for the
    [exp] claim, is the floor division by one million. *)

From Stdlib Require Import String Ascii ZArith List Bool Lia.
Import ListNotations.
Open Scope Z_scope.

(* ================================================================== *)
(** ** Strings as Python handles them *)

Definition ascii_lower (c : ascii) : ascii :=
  let n := nat_of_ascii c in
  if andb (Nat.leb 65 n) (Nat.leb n 90) then ascii_of_nat (n + 32) else c.

(** [str.lower()] on the ASCII range. *)
Fixpoint py_lower (s : string) : string :=
  match s with
  | EmptyString => EmptyString
  | String c s' => String (ascii_lower c) (py_lower s')
  end.

(** [s.replace(pat, rep)]: left to right, non-overlapping ([pat] non-empty). *)
Fixpoint str_replace_fuel (fuel : nat) (pat rep s : string) : string :=
  match fuel with
  | O => s
  | S f =>
      match s with
      | EmptyString => EmptyString
      | String c s' =>
          if prefix pat s
          then rep ++ str_replace_fuel f pat rep
                        (substring (String.length pat)
                           (String.length s - String.length pat) s)
          else String c (str_replace_fuel f pat rep s')
      end
  end.

Definition str_replace (pat rep s : string) : string :=
  str_replace_fuel (S (String.length s)) pat rep s.

Definition in_chars (cs : string) (c : ascii) : bool :=
  existsb (fun d => Ascii.eqb c d) (list_ascii_of_string cs).

Fixpoint drop_while_in (cs : string) (l : list ascii) : list ascii :=
  match l with
  | [] => []
  | c :: l' => if in_chars cs c then drop_while_in cs l' else l
  end.

(** [s.strip(cs)]. *)
Definition str_strip (cs s : string) : string :=
  string_of_list_ascii
    (rev (drop_while_in cs (rev (drop_while_in cs (list_ascii_of_string s))))).

(** [s.split(sep)] on one separator character. *)
Fixpoint split_on (sep : ascii) (s : string) : list string :=
  match s with
  | EmptyString => [EmptyString]
  | String c s' =>
      if Ascii.eqb c sep then EmptyString :: split_on sep s'
      else match split_on sep s' with
           | w :: ws => String c w :: ws
           | [] => [String c EmptyString]
           end
  end.

(* ================================================================== *)
(** ** UUIDs ([uuid.UUID]): a 128-bit integer *)

Definition hex_digit (n : Z) : ascii :=
  if n <? 10 then ascii_of_nat (48 + Z.to_nat n)
  else ascii_of_nat (87 + Z.to_nat n).

(** The 32 lowercase hex digits of [u], most significant first. *)
Fixpoint hex_digits (k : nat) (u : Z) : list ascii :=
  match k with
  | O => []
  | S k' => hex_digit (Z.land (Z.shiftr u (4 * Z.of_nat k')) 15) :: hex_digits k' u
  end.

Fixpoint insert_hyphens (i : nat) (l : list ascii) : list ascii :=
  match l with
  | [] => []
  | c :: l' =>
      let rest := c :: insert_hyphens (S i) l' in
      if orb (orb (Nat.eqb i 8) (Nat.eqb i 12)) (orb (Nat.eqb i 16) (Nat.eqb i 20))
      then "-"%char :: rest else rest
  end.

(** [str(uuid)]: ['%032x'] split 8-4-4-4-12 by hyphens. *)
Definition uuid_str (u : Z) : string :=
  string_of_list_ascii (insert_hyphens 0 (hex_digits 32 u)).

Definition hex_value (c : ascii) : option Z :=
  let n := nat_of_ascii c in
  if andb (Nat.leb 48 n) (Nat.leb n 57) then Some (Z.of_nat n - 48)
  else if andb (Nat.leb 97 n) (Nat.leb n 102) then Some (Z.of_nat n - 87)
  else if andb (Nat.leb 65 n) (Nat.leb n 70) then Some (Z.of_nat n - 55)
  else None.

Fixpoint hex_to_Z (acc : Z) (l : list ascii) : option Z :=
  match l with
  | [] => Some acc
  | c :: l' => match hex_value c with
               | Some d => hex_to_Z (acc * 16 + d) l'
               | None => None
               end
  end.

(* ================================================================== *)
(** ** JSON values and Python dicts of claims *)

Inductive jvalue : Type :=
| JStr (s : string)
| JInt (z : Z)
| JBool (b : bool)
| JNull
| JDatetime (us : Z).  (* a [datetime] not yet turned into JSON *)

(** A dict with string keys, in insertion order, each key once. *)
Definition dict := list (string * jvalue).

(** [d.get(k)] *)
Fixpoint dict_get (d : dict) (k : string) : option jvalue :=
  match d with
  | [] => None
  | (k', v) :: d' => if String.eqb k k' then Some v else dict_get d' k
  end.

(** [d.get(k)] with [None] read as JSON null. *)
Definition dict_get_null (d : dict) (k : string) : jvalue :=
  match dict_get d k with Some v => v | None => JNull end.

(** [d[k] = v]: an existing key keeps its place, a new key goes last. *)
Fixpoint dict_set (d : dict) (k : string) (v : jvalue) : dict :=
  match d with
  | [] => [(k, v)]
  | (k', v') :: d' =>
      if String.eqb k k' then (k', v) :: d' else (k', v') :: dict_set d' k v
  end.

(** [d.update(e)] *)
Definition dict_update (d e : dict) : dict :=
  fold_left (fun acc kv => dict_set acc (fst kv) (snd kv)) e d.

(** Python truthiness of a value. *)
Definition py_truthy (v : jvalue) : bool :=
  match v with
  | JStr s => negb (String.eqb s EmptyString)
  | JInt z => negb (Z.eqb z 0)
  | JBool b => b
  | JNull => false
  | JDatetime _ => true
  end.

Definition jvalue_eq_dec (a b : jvalue) : {a = b} + {a <> b}.
Proof. decide equality; auto using string_dec, Z.eq_dec, bool_dec. Defined.

Definition dict_eq_dec (a b : dict) : {a = b} + {a <> b}.
Proof.
  apply list_eq_dec. intros [k v] [k' v'].
  destruct (string_dec k k'), (jvalue_eq_dec v v'); subst;
    [left; reflexivity | right; congruence ..].
Defined.

(** [d.get(k) != v] for a string [v]. *)
Definition get_ne_str (d : dict) (k v : string) : bool :=
  match dict_get d k with
  | Some (JStr s) => negb (String.eqb s v)
  | _ => true
  end.

(* ================================================================== *)
(** ** Exceptions raised along the flows ([app/core/exceptions.py] and the
    library errors that reach the services) *)

Inductive exn : Type :=
| InvalidTokenError (message : string)
| InvalidCredentialsError (message : string)
| UserAlreadyExistsError
| UserNotFoundError
| ValidationError (message : string)
| PlayerNameTakenError
| GoogleOAuthError
| ValueError (message : string)          (* [uuid.UUID], [bcrypt.checkpw] *)
| TypeError                              (* a non-string where a string is used *)
| AttributeError                         (* a [str] method called on a non-string *)
| MultipleResultsFound                   (* [scalar_one_or_none] on 2+ rows *)
| IntegrityError.                        (* a UNIQUE column violated at flush *)

Definition invalid_token := InvalidTokenError "Invalid token".
Definition invalid_credentials := InvalidCredentialsError "Invalid email or password".

(* ================================================================== *)
(** ** Configuration and the cryptographic primitives *)

(** Modelled from the spec: [app/config.py] (the [settings] object) is not
    among the sources; §6 of the spec lists the configuration it provides
    (signing secret, signing algorithm, access TTL in minutes, refresh TTL
    in days, OAuth client id). The remaining fields are the primitives
    the code delegates to libraries: the JWS signature of python-jose
    (key, header, payload); what bcrypt raises for the password itself
    before it reads the salt (bcrypt 5 refuses a password over 72 bytes,
    bcrypt 4 checks nothing there); bcrypt's cost/salt decoding and hashing
    (password, version, cost, rest of the hash), which returns the hash or
    the exception bcrypt raises; [hashpw(pw, gensalt())]; and Google's
    [id_token.verify_oauth2_token] ([None] when it raises). *)
Record Env : Type := {
  JWT_SECRET_KEY : string;
  JWT_ALGORITHM : string;
  ACCESS_TOKEN_EXPIRE_MINUTES : Z;
  REFRESH_TOKEN_EXPIRE_DAYS : Z;
  GOOGLE_CLIENT_ID : string;
  jws_sign : string -> dict -> dict -> string;
  bcrypt_password_check : string -> option exn;
  bcrypt_core : string -> string -> string -> string -> exn + string;
  bcrypt_hash_with_fresh_salt : string -> string;
  verify_oauth2_token : string -> string -> option dict;
}.

Definition usec_per_sec : Z := 1000000.
Definition minutes (m : Z) : Z := m * 60 * usec_per_sec.
Definition days (d : Z) : Z := d * 86400 * usec_per_sec.

(** [timegm(dt.utctimetuple())]: whole seconds. *)
Definition timegm (us : Z) : Z := us / usec_per_sec.

(* ================================================================== *)
(** ** python-jose *)

(** A token as python-jose reads it: the compact form
    [b64(header).b64(payload).b64(signature)] of a JWS, or a string that
    does not split into three base64 JSON parts. *)
Inductive Token : Type :=
| JWS (header payload : dict) (signature : string)
| Unparsable (text : string).

Definition Token_eq_dec (a b : Token) : {a = b} + {a <> b}.
Proof. decide equality; auto using string_dec, dict_eq_dec. Defined.

Definition token_eqb (a b : Token) : bool :=
  if Token_eq_dec a b then true else false.

(** [jwt.encode]: datetimes in [exp], [iat], [nbf] become integers. *)
Definition encode_time_claim (claims : dict) (k : string) : dict :=
  match dict_get claims k with
  | Some (JDatetime t) => dict_set claims k (JInt (timegm t))
  | _ => claims
  end.

Definition jwt_encode (env : Env) (claims : dict) (key algorithm : string) : Token :=
  let claims := fold_left encode_time_claim ["exp"; "iat"; "nbf"]%string claims in
  let header := [("alg", JStr algorithm); ("typ", JStr "JWT")]%string in
  JWS header claims (jws_sign env key header claims).

(** [jwt._validate_claims] with no audience, issuer or subject asked for
    ([now] is [timegm(datetime.now(tz=utc).utctimetuple())]). *)
Definition int_or_absent (v : option jvalue) : bool :=
  match v with None | Some (JInt _) => true | _ => false end.

Definition str_or_absent (v : option jvalue) : bool :=
  match v with None | Some (JStr _) => true | _ => false end.

Definition validate_claims (now_s : Z) (claims : dict) : bool :=
  int_or_absent (dict_get claims "iat")
  && match dict_get claims "nbf" with
     | None => true | Some (JInt n) => n <=? now_s | Some _ => false end
  && match dict_get claims "exp" with
     | None => true | Some (JInt e) => now_s <=? e | Some _ => false end
  && match dict_get claims "aud" with None => true | Some _ => false end
  && str_or_absent (dict_get claims "sub")
  && str_or_absent (dict_get claims "jti").

(** [jwt.decode(token, key, algorithms=...)]; [None] is a [JWTError]. *)
Definition jwt_decode (env : Env) (now : Z) (token : Token) (key : string)
    (algorithms : list string) : option dict :=
  match token with
  | Unparsable _ => None
  | JWS header claims sig =>
      match dict_get header "alg" with
      | Some (JStr alg) =>
          if existsb (String.eqb alg) algorithms
             && String.eqb sig (jws_sign env key header claims)
             && validate_claims (timegm now) claims
          then Some claims else None
      | _ => None
      end
  end.

(* ================================================================== *)
(** ** [app/core/security.py] *)

(** [bcrypt.hashpw(password, salt)] (bcrypt 4 and later): after bcrypt's
    check of the password, the salt is split on ['$'], empty pieces
    dropped; anything but [version, cost, rest] with a known version is
    [ValueError("Invalid salt")]; the rest is bcrypt's own work, which
    returns the hash or raises. *)
Definition bcrypt_versions := ["2y"; "2b"; "2a"; "2x"]%string.

Definition bcrypt_parts (salt : string) : option (string * string * string) :=
  match filter (fun p => negb (String.eqb p EmptyString)) (split_on "$" salt) with
  | [version; cost; rest] =>
      if existsb (String.eqb version) bcrypt_versions
      then Some (version, cost, rest) else None
  | _ => None
  end.

Definition bcrypt_hashpw (env : Env) (password salt : string) : exn + string :=
  match bcrypt_password_check env password with
  | Some e => inl e
  | None =>
      match bcrypt_parts salt with
      | Some (version, cost, rest) => bcrypt_core env password version cost rest
      | None => inl (ValueError "Invalid salt")
      end
  end.

(** [bcrypt.checkpw]: hash again with the stored salt, compare. *)
Definition checkpw (env : Env) (password hashed : string) : exn + bool :=
  match bcrypt_hashpw env password hashed with
  | inl e => inl e
  | inr h => inr (String.eqb h hashed)
  end.

Definition verify_password (env : Env) (plain_password hashed_password : string)
    : exn + bool :=
  checkpw env plain_password hashed_password.

Definition hash_password (env : Env) (password : string) : string :=
  bcrypt_hash_with_fresh_salt env password.

(** [if expires_delta:] -- a zero [timedelta] is false. *)
Definition expiry (now : Z) (expires_delta : option Z) (default : Z) : Z :=
  match expires_delta with
  | Some d => if Z.eqb d 0 then now + default else now + d
  | None => now + default
  end.

Definition create_access_token (env : Env) (now : Z) (subject : Z)
    (expires_delta : option Z) (extra_claims : option dict) : Token :=
  let expire := expiry now expires_delta (minutes (ACCESS_TOKEN_EXPIRE_MINUTES env)) in
  let to_encode := [("sub", JStr (uuid_str subject)); ("exp", JDatetime expire);
                    ("type", JStr "access")]%string in
  let to_encode := match extra_claims with
                   | Some ((_ :: _) as e) => dict_update to_encode e
                   | _ => to_encode
                   end in
  jwt_encode env to_encode (JWT_SECRET_KEY env) (JWT_ALGORITHM env).

Definition create_refresh_token (env : Env) (now : Z) (subject : Z)
    (expires_delta : option Z) : Token :=
  let expire := expiry now expires_delta (days (REFRESH_TOKEN_EXPIRE_DAYS env)) in
  let to_encode := [("sub", JStr (uuid_str subject)); ("exp", JDatetime expire);
                    ("type", JStr "refresh")]%string in
  jwt_encode env to_encode (JWT_SECRET_KEY env) (JWT_ALGORITHM env).

Definition decode_token (env : Env) (now : Z) (token : Token) : option dict :=
  jwt_decode env now token (JWT_SECRET_KEY env) [JWT_ALGORITHM env].

(* ================================================================== *)
(** ** [app/core/oauth.py] *)

Definition google_issuers := ["accounts.google.com"; "https://accounts.google.com"]%string.

Definition verify_google_token (env : Env) (token : string) : exn + dict :=
  match verify_oauth2_token env token (GOOGLE_CLIENT_ID env) with
  | None => inl GoogleOAuthError
  | Some idinfo =>
      match dict_get idinfo "iss" with
      | Some (JStr iss) =>
          if existsb (String.eqb iss) google_issuers then
            inr [("email", dict_get_null idinfo "email");
                 ("sub", dict_get_null idinfo "sub");
                 ("name", dict_get_null idinfo "name");
                 ("picture", dict_get_null idinfo "picture");
                 ("given_name", dict_get_null idinfo "given_name");
                 ("family_name", dict_get_null idinfo "family_name");
                 ("email_verified", match dict_get idinfo "email_verified" with
                                    | Some v => v | None => JBool false end);
                 ("locale", dict_get_null idinfo "locale")]%string
          else inl GoogleOAuthError
      | _ => inl GoogleOAuthError   (* not in the list, or [KeyError] *)
      end
  end.

(* ================================================================== *)
(** ** Tables ([app/models]) *)

(** [User] ([users]): [email] UNIQUE. *)
Record User : Type := mkUser {
  uid : Z;
  email : string;
  password_hash : option string;
  email_verified : bool;
  is_active : bool;
  last_login_at : option Z;
}.

(** [AuthProvider] ([auth_providers]): the UNIQUE constraint on
    [(provider, provider_user_id)] is commented out in the model. *)
Record AuthProvider : Type := mkAuthProvider {
  ap_id : Z;
  ap_user_id : Z;
  provider : string;
  provider_user_id : string;
  provider_data : dict;
}.

(** [UserSession] ([user_sessions]): [session_token] UNIQUE. *)
Record UserSession : Type := mkSession {
  sess_id : Z;
  sess_user_id : Z;
  session_token : Token;
  device_info : option string;
  ip_address : option string;
  expires_at : Z;
  created_at : Z;
}.

(** [UserProfile] ([user_profiles]): [user_id] and [player_name] UNIQUE. *)
Record UserProfile : Type := mkProfile {
  prof_id : Z;
  prof_user_id : Z;
  player_name : string;
  archetype_id : option Z;
  life_mode_id : option Z;
  avatar_url : option string;
  bio : option string;
  timezone : string;
  level : Z;
  total_core_xp : Z;
  identity_locked_until : option Z;
  onboarding_completed : bool;
}.

(** [UserLifeArea] ([user_life_areas]). *)
Record UserLifeArea : Type := mkUserLifeArea {
  ula_id : Z;
  ula_user_id : Z;
  ula_life_area_id : Z;
  priority : Z;
  selected_at : Z;
}.

(** The database as seen through one [AsyncSession]. [archetypes],
    [life_modes] and [life_areas] keep only the ids the flows look up.
    [clock] is [datetime.now(timezone.utc)] during the request; [uuid_pool]
    supplies the ids [uuid4()] draws for new rows (each id is fresh). *)
Record DB : Type := mkDB {
  users : list User;
  auth_providers : list AuthProvider;
  user_sessions : list UserSession;
  user_profiles : list UserProfile;
  archetypes : list Z;
  life_modes : list Z;
  life_areas : list Z;
  user_life_areas : list UserLifeArea;
  clock : Z;
  uuid_pool : Z;
}.

Definition set_users (db : DB) (l : list User) : DB :=
  mkDB l (auth_providers db) (user_sessions db) (user_profiles db) (archetypes db)
    (life_modes db) (life_areas db) (user_life_areas db) (clock db) (uuid_pool db).
Definition set_auth_providers (db : DB) (l : list AuthProvider) : DB :=
  mkDB (users db) l (user_sessions db) (user_profiles db) (archetypes db)
    (life_modes db) (life_areas db) (user_life_areas db) (clock db) (uuid_pool db).
Definition set_user_sessions (db : DB) (l : list UserSession) : DB :=
  mkDB (users db) (auth_providers db) l (user_profiles db) (archetypes db)
    (life_modes db) (life_areas db) (user_life_areas db) (clock db) (uuid_pool db).
Definition set_user_profiles (db : DB) (l : list UserProfile) : DB :=
  mkDB (users db) (auth_providers db) (user_sessions db) l (archetypes db)
    (life_modes db) (life_areas db) (user_life_areas db) (clock db) (uuid_pool db).
Definition set_user_life_areas_table (db : DB) (l : list UserLifeArea) : DB :=
  mkDB (users db) (auth_providers db) (user_sessions db) (user_profiles db)
    (archetypes db) (life_modes db) (life_areas db) l (clock db) (uuid_pool db).
Definition set_uuid_pool (db : DB) (n : Z) : DB :=
  mkDB (users db) (auth_providers db) (user_sessions db) (user_profiles db)
    (archetypes db) (life_modes db) (life_areas db) (user_life_areas db) (clock db) n.

(* ================================================================== *)
(** ** The session monad: state plus Python exceptions *)

Definition M (A : Type) : Type := DB -> (exn + A) * DB.

Definition ret {A} (a : A) : M A := fun db => (inr a, db).

Definition bind {A B} (m : M A) (k : A -> M B) : M B :=
  fun db => match m db with
            | (inl e, db') => (inl e, db')
            | (inr a, db') => k a db'
            end.

Definition raise {A} (e : exn) : M A := fun db => (inl e, db).

Notation "x <- m ;; k" := (bind m (fun x => k))
  (at level 61, m at next level, right associativity).
Notation "m ;;; k" := (bind m (fun _ => k))
  (at level 61, right associativity).

(** A read of the state that may raise. *)
Definition query {A} (f : DB -> exn + A) : M A := fun db => (f db, db).

Definition modify (f : DB -> DB) : M unit := fun db => (inr tt, f db).

Definition when (b : bool) (e : exn) : M unit :=
  if b then raise e else ret tt.

(** [datetime.now(timezone.utc)] *)
Definition now : M Z := query (fun db => inr (clock db)).

(** [uuid4()] for a new row's primary key. *)
Definition fresh_uuid : M Z :=
  fun db => (inr (uuid_pool db), set_uuid_pool db (uuid_pool db + 1)).

(** [result.scalar_one_or_none()] *)
Definition scalar_one_or_none {A} (rows : list A) : exn + option A :=
  match rows with
  | [] => inr None
  | [r] => inr (Some r)
  | _ => inl MultipleResultsFound
  end.

(** A step that leaves [datetime.now()] where it was. *)
Definition keeps_clock {A} (m : M A) : Prop :=
  forall db r db', m db = (r, db') -> clock db' = clock db.

(** A step that only reads (a query, a check that may raise). *)
Definition read_only {A} (m : M A) : Prop :=
  forall db r db', m db = (r, db') -> db' = db.

Fixpoint mapM_ {A} (f : A -> M unit) (l : list A) : M unit :=
  match l with
  | [] => ret tt
  | x :: l' => f x ;;; mapM_ f l'
  end.

(* ================================================================== *)
(** ** [app/repositories/user_repo.py] *)

Module UserRepository.

Definition get_by_id (user_id : Z) : M (option User) :=
  query (fun db => scalar_one_or_none (filter (fun u => Z.eqb (uid u) user_id) (users db))).

Definition get_by_email (e : string) : M (option User) :=
  query (fun db => scalar_one_or_none
                     (filter (fun u => String.eqb (email u) (py_lower e)) (users db))).

(** [db.add(user); await db.flush()]: the INSERT fails on a taken email. *)
Definition create (e : string) (ph : option string) (ev : bool) : M User :=
  i <- fresh_uuid ;;
  let user := mkUser i (py_lower e) ph ev true None in
  fun db =>
    if existsb (fun u => String.eqb (email u) (email user)) (users db)
    then (inl IntegrityError, db)
    else (inr user, set_users db (users db ++ [user])).

Definition update_last_login (user : User) : M unit :=
  t <- now ;;
  modify (fun db => set_users db
    (map (fun u => if Z.eqb (uid u) (uid user)
                   then mkUser (uid u) (email u) (password_hash u) (email_verified u)
                               (is_active u) (Some t)
                   else u) (users db))).

Definition get_auth_provider (prov pid : string) : M (option AuthProvider) :=
  query (fun db => scalar_one_or_none
    (filter (fun a => String.eqb (provider a) prov && String.eqb (provider_user_id a) pid)
            (auth_providers db))).

Definition create_auth_provider (user_id : Z) (prov pid : string) (data : dict)
    : M AuthProvider :=
  i <- fresh_uuid ;;
  let ap := mkAuthProvider i user_id prov pid data in
  modify (fun db => set_auth_providers db (auth_providers db ++ [ap])) ;;;
  ret ap.

(** The INSERT fails when the token is already a [session_token]. *)
Definition create_session (user_id : Z) (tok : Token) (exp : Z)
    (dev ip : option string) : M UserSession :=
  i <- fresh_uuid ;;
  t <- now ;;
  let s := mkSession i user_id tok dev ip exp t in
  fun db =>
    if existsb (fun r => token_eqb (session_token r) tok) (user_sessions db)
    then (inl IntegrityError, db)
    else (inr s, set_user_sessions db (user_sessions db ++ [s])).

Definition get_session_by_token (tok : Token) : M (option UserSession) :=
  query (fun db => scalar_one_or_none
    (filter (fun r => token_eqb (session_token r) tok) (user_sessions db))).

(** [db.delete(session)]: DELETE by primary key. *)
Definition delete_session (s : UserSession) : M unit :=
  modify (fun db => set_user_sessions db
    (filter (fun r => negb (Z.eqb (sess_id r) (sess_id s))) (user_sessions db))).

Definition delete_all_user_sessions (user_id : Z) : M unit :=
  modify (fun db => set_user_sessions db
    (filter (fun r => negb (Z.eqb (sess_user_id r) user_id)) (user_sessions db))).

End UserRepository.

(* ================================================================== *)
(** ** [int(s, 16)] and [repr(s)], as [uuid.UUID] uses them *)

(** The whitespace [int()] skips around the digits: the ASCII whitespace,
    and the two other code points below 256 that are whitespace for
    [str.isspace] (U+0085 and U+00A0), which CPython turns into a space
    before parsing. Any other code point from 127 on is turned into a
    character no parse accepts. *)
Definition int_isspace (c : ascii) : bool :=
  let n := nat_of_ascii c in
  ((9 <=? n) && (n <=? 13))%nat || Nat.eqb n 32 || Nat.eqb n 133 || Nat.eqb n 160.

Fixpoint skip_int_space (l : list ascii) : list ascii :=
  match l with
  | c :: l' => if int_isspace c then skip_int_space l' else l
  | [] => []
  end.

(** An optional sign. *)
Definition take_sign (l : list ascii) : Z * list ascii :=
  match l with
  | c :: l' => if Ascii.eqb c "+" then (1, l')
               else if Ascii.eqb c "-" then (-1, l') else (1, l)
  | [] => (1, [])
  end.

(** An optional [0x] or [0X] prefix, then at most one underscore. *)
Definition drop_hex_prefix (l : list ascii) : list ascii :=
  match l with
  | c1 :: c2 :: l' =>
      if Ascii.eqb c1 "0" && (Ascii.eqb c2 "x" || Ascii.eqb c2 "X") then
        match l' with
        | c3 :: l'' => if Ascii.eqb c3 "_" then l'' else l'
        | [] => []
        end
      else l
  | _ => l
  end.

Definition is_hex_or_us (c : ascii) : bool :=
  match hex_value c with Some _ => true | None => Ascii.eqb c "_" end.

(** The longest prefix of hex digits and underscores, and what follows. *)
Fixpoint span_hex (l : list ascii) : list ascii * list ascii :=
  match l with
  | c :: l' => if is_hex_or_us c then let (a, b) := span_hex l' in (c :: a, b)
               else ([], l)
  | [] => ([], [])
  end.

(** No two underscores in a row and none at the end. *)
Fixpoint underscores_ok (prev_us : bool) (l : list ascii) : bool :=
  match l with
  | [] => negb prev_us
  | c :: l' => if Ascii.eqb c "_" then negb prev_us && underscores_ok true l'
               else underscores_ok false l'
  end.

(** [int(s, 16)] ([PyLong_FromUnicodeObject], [PyLong_FromString]):
    whitespace, a sign, the prefix, digits with single underscores between
    them (not first), whitespace, the end. [None] is its [ValueError]. *)
Definition py_int16 (s : string) : option Z :=
  let (sign, l) := take_sign (skip_int_space (list_ascii_of_string s)) in
  let l := drop_hex_prefix l in
  if match l with c :: _ => Ascii.eqb c "_" | [] => false end then None
  else
    let (run, rest) := span_hex l in
    match run with
    | [] => None
    | _ => if underscores_ok false run && forallb int_isspace rest
           then option_map (Z.mul sign)
                  (hex_to_Z 0 (filter (fun c => negb (Ascii.eqb c "_")) run))
           else None
    end.

Definition dquote : ascii := ascii_of_nat 34.
Definition squote : ascii := ascii_of_nat 39.
Definition backslash : ascii := ascii_of_nat 92.

(** [str.isprintable()] on code points below 256: not the controls, not
    U+00A0 and not U+00AD. *)
Definition py_isprintable (c : ascii) : bool :=
  let n := nat_of_ascii c in
  ((32 <=? n) && (n <=? 126))%nat || ((161 <=? n) && negb (Nat.eqb n 173))%nat.

Definition hex2 (n : nat) : string :=
  String (hex_digit (Z.of_nat (n / 16))) (String (hex_digit (Z.of_nat (n mod 16))) EmptyString).

(** One code point of [repr(s)] with the quote [q]. *)
Definition repr_char (q c : ascii) : string :=
  let n := nat_of_ascii c in
  if Ascii.eqb c q || Ascii.eqb c backslash then String backslash (String c EmptyString)
  else if Nat.eqb n 9 then String backslash (String "t" EmptyString)
  else if Nat.eqb n 10 then String backslash (String "n" EmptyString)
  else if Nat.eqb n 13 then String backslash (String "r" EmptyString)
  else if py_isprintable c then String c EmptyString
  else String backslash (String "x" (hex2 n)).

(** [repr(s)]: double quotes when [s] has a single quote and no double
    quote, single quotes otherwise. *)
Definition py_repr (s : string) : string :=
  let l := list_ascii_of_string s in
  let q := if existsb (Ascii.eqb squote) l && negb (existsb (Ascii.eqb dquote) l)
           then dquote else squote in
  String q (fold_right (fun c acc => append (repr_char q c) acc) (String q EmptyString) l).

(** [uuid.UUID(hex)]:
<<
    hex = hex.replace('urn:', '').replace('uuid:', '')
    hex = hex.strip('{}').replace('-', '')
    if len(hex) != 32:
        raise ValueError('badly formed hexadecimal UUID string')
    int = int_(hex, 16)
    ...
    if int is not None and not 0 <= int < 1 << 128:
        raise ValueError('int is out of range (need a 128-bit value)')
>>
    [int_(hex, 16)] raises [ValueError] with the [repr] of [hex] after
    [invalid literal for int() with base 16: ]. *)
Definition UUID_parse (s : string) : exn + Z :=
  let h := str_replace "uuid:" EmptyString (str_replace "urn:" EmptyString s) in
  let h := str_replace "-" EmptyString (str_strip "{}" h) in
  if negb (Nat.eqb (String.length h) 32)
  then inl (ValueError "badly formed hexadecimal UUID string")
  else match py_int16 h with
       | None => inl (ValueError ("invalid literal for int() with base 16: " ++ py_repr h)%string)
       | Some n => if (0 <=? n) && (n <? 2 ^ 128) then inr n
                   else inl (ValueError "int is out of range (need a 128-bit value)")
       end.

(* ================================================================== *)
(** ** [app/services/auth_service.py] *)

(** [TokenResponse] ([token_type] is always ["bearer"]). *)
Record TokenResponse : Type := mkTokenResponse {
  access_token : Token;
  refresh_token : Token;
  is_new_user : bool;
}.

Definition lift {A} (r : exn + A) : M A := query (fun _ => r).

(** A value used as a [str] ([email.lower()], a string column). *)
Definition as_str (v : jvalue) : exn + string :=
  match v with JStr s => inr s | _ => inl TypeError end.

(** [UUID(user_id)] on the decoded subject: [None] is refused by the
    argument check, any other non-string fails at [hex.replace]. *)
Definition UUID_of (v : jvalue) : exn + Z :=
  match v with
  | JStr s => UUID_parse s
  | JNull => inl TypeError
  | _ => inl AttributeError
  end.


Module AuthService.

(** [_create_tokens_and_session] *)
Definition create_tokens_and_session (env : Env) (user : User) (dev ip : option string)
    : M (Token * Token) :=
  t <- now ;;
  let access := create_access_token env t (uid user) None None in
  let refresh := create_refresh_token env t (uid user) None in
  UserRepository.create_session (uid user) refresh
    (t + days (REFRESH_TOKEN_EXPIRE_DAYS env)) dev ip ;;;
  ret (access, refresh).

Definition register (env : Env) (e pw : string) (dev ip : option string)
    : M TokenResponse :=
  existing_user <- UserRepository.get_by_email e ;;
  match existing_user with
  | Some _ => raise UserAlreadyExistsError
  | None =>
      user <- UserRepository.create e (Some (hash_password env pw)) false ;;
      toks <- create_tokens_and_session env user dev ip ;;
      ret (mkTokenResponse (fst toks) (snd toks) true)
  end.

Definition login (env : Env) (e pw : string) (dev ip : option string)
    : M TokenResponse :=
  user <- UserRepository.get_by_email e ;;
  match user with
  | None => raise invalid_credentials
  | Some u =>
      ok <- match password_hash u with
            | None => ret false
            | Some h => if String.eqb h EmptyString then ret false
                        else lift (verify_password env pw h)
            end ;;
      if negb ok then raise invalid_credentials
      else if negb (is_active u) then raise (InvalidCredentialsError "Account is deactivated")
      else
        UserRepository.update_last_login u ;;;
        toks <- create_tokens_and_session env u dev ip ;;
        ret (mkTokenResponse (fst toks) (snd toks) false)
  end.

Definition refresh_tokens (env : Env) (tok : Token) (dev ip : option string)
    : M TokenResponse :=
  t <- now ;;
  match decode_token env t tok with
  | None => raise invalid_token
  | Some [] => raise invalid_token          (* [if not payload] *)
  | Some payload =>
      if get_ne_str payload "type" "refresh"
      then raise (InvalidTokenError "Invalid token type")
      else
        let user_id := dict_get_null payload "sub" in
        if negb (py_truthy user_id) then raise invalid_token
        else
          u <- lift (UUID_of user_id) ;;
          user <- UserRepository.get_by_id u ;;
          match user with
          | Some usr =>
              if is_active usr then
                toks <- create_tokens_and_session env usr dev ip ;;
                ret (mkTokenResponse (fst toks) (snd toks) false)
              else raise invalid_token
          | None => raise invalid_token
          end
  end.

Definition logout (session_token : Token) : M unit :=
  session <- UserRepository.get_session_by_token session_token ;;
  match session with
  | Some s => UserRepository.delete_session s
  | None => ret tt
  end.

Definition logout_all (user_id : Z) : M unit :=
  UserRepository.delete_all_user_sessions user_id.

Definition get_current_user (env : Env) (tok : Token) : M User :=
  t <- now ;;
  match decode_token env t tok with
  | None => raise invalid_token
  | Some [] => raise invalid_token          (* [if not payload] *)
  | Some payload =>
      if get_ne_str payload "type" "access"
      then raise (InvalidTokenError "Invalid token type")
      else
        let user_id := dict_get_null payload "sub" in
        if negb (py_truthy user_id) then raise invalid_token
        else
          u <- lift (UUID_of user_id) ;;
          user <- UserRepository.get_by_id u ;;
          match user with
          | None => raise UserNotFoundError
          | Some usr =>
              if negb (is_active usr)
              then raise (InvalidTokenError "Account is deactivated")
              else ret usr
          end
  end.

Definition google_provider_data (google_user : dict) : dict :=
  [("picture", dict_get_null google_user "picture");
   ("given_name", dict_get_null google_user "given_name");
   ("family_name", dict_get_null google_user "family_name");
   ("locale", dict_get_null google_user "locale")]%string.

Definition google_login (env : Env) (id_token : string) (dev ip : option string)
    : M TokenResponse :=
  google_user <- lift (verify_google_token env id_token) ;;
  let e := dict_get_null google_user "email" in
  let google_user_id := dict_get_null google_user "sub" in
  if negb (py_truthy e) || negb (py_truthy google_user_id)
  then raise (InvalidCredentialsError "Invalid Google token: missing email or user ID")
  else
    es <- lift (as_str e) ;;
    user <- UserRepository.get_by_email es ;;
    gid <- lift (as_str google_user_id) ;;
    res <- match user with
           | Some u =>
               auth_provider <- UserRepository.get_auth_provider "google" gid ;;
               match auth_provider with
               | None =>
                   UserRepository.create_auth_provider (uid u) "google" gid
                     (google_provider_data google_user) ;;;
                   ret (u, false)
               | Some _ => ret (u, false)
               end
           | None =>
               u <- UserRepository.create es None
                      (py_truthy (dict_get_null google_user "email_verified")) ;;
               UserRepository.create_auth_provider (uid u) "google" gid
                 (google_provider_data google_user) ;;;
               ret (u, true)
           end ;;
    let '(u, is_new) := res in
    UserRepository.update_last_login u ;;;
    toks <- create_tokens_and_session env u dev ip ;;
    ret (mkTokenResponse (fst toks) (snd toks) is_new).

End AuthService.

(* ================================================================== *)
(** ** [app/repositories/profile_repo.py] *)

Definition identity_lock_days : Z := 30.

(** [if x is not None: field = x] *)
Definition if_not_none {A} (n : option A) (o : A) : A :=
  match n with Some x => x | None => o end.

Module ProfileRepository.

Definition get_by_user_id (user_id : Z) : M (option UserProfile) :=
  query (fun db => scalar_one_or_none
    (filter (fun p => Z.eqb (prof_user_id p) user_id) (user_profiles db))).

Definition get_by_player_name (name : string) : M (option UserProfile) :=
  query (fun db => scalar_one_or_none
    (filter (fun p => String.eqb (player_name p) name) (user_profiles db))).

(** A foreign key column written by a flush: PostgreSQL checks it on
    INSERT ([old] is [None]) and on UPDATE when the value changes; [None]
    (SQL NULL) is not checked. *)
Definition fk_ok (old new : option Z) (table : list Z) : bool :=
  match new with
  | None => true
  | Some v => match old with Some o => Z.eqb o v | None => false end
              || existsb (Z.eqb v) table
  end.

(** The foreign keys of [user_profiles]: [user_id] to [users],
    [archetype_id] to [archetypes], [life_mode_id] to [life_modes]. *)
Definition profile_fk_ok (db : DB) (old : option UserProfile) (p : UserProfile) : bool :=
  fk_ok (option_map prof_user_id old) (Some (prof_user_id p)) (map uid (users db))
  && fk_ok (match old with Some q => archetype_id q | None => None end)
       (archetype_id p) (archetypes db)
  && fk_ok (match old with Some q => life_mode_id q | None => None end)
       (life_mode_id p) (life_modes db).

(** [await db.flush()] of the profile [p], as last flushed [old] ([None]
    for a new row): it fails when another row holds the same [user_id] or
    [player_name], or when a foreign key it writes names no row. *)
Definition flush_profile (old : option UserProfile) (p : UserProfile) : M UserProfile :=
  fun db =>
    let others := filter (fun q => negb (Z.eqb (prof_id q) (prof_id p))) (user_profiles db) in
    if existsb (fun q => Z.eqb (prof_user_id q) (prof_user_id p)
                         || String.eqb (player_name q) (player_name p)) others
       || negb (profile_fk_ok db old p)
    then (inl IntegrityError, db)
    else (inr p, set_user_profiles db
                   (if existsb (fun q => Z.eqb (prof_id q) (prof_id p)) (user_profiles db)
                    then map (fun q => if Z.eqb (prof_id q) (prof_id p) then p else q)
                             (user_profiles db)
                    else user_profiles db ++ [p])).

Definition create (user_id : Z) (name : string) (arch lm : option Z)
    (avatar b : option string) (tz : string) : M UserProfile :=
  i <- fresh_uuid ;;
  flush_profile None (mkProfile i user_id name arch lm avatar b tz 1 0 None false).

Definition update (p : UserProfile) (name avatar b tz : option string)
    : M UserProfile :=
  flush_profile (Some p)
    (mkProfile (prof_id p) (prof_user_id p) (if_not_none name (player_name p))
       (archetype_id p) (life_mode_id p)
       (match avatar with Some _ => avatar | None => avatar_url p end)
       (match b with Some _ => b | None => bio p end)
       (if_not_none tz (timezone p)) (level p) (total_core_xp p)
       (identity_locked_until p) (onboarding_completed p)).

Definition mark_onboarding_complete (p : UserProfile) : M unit :=
  t <- now ;;
  flush_profile (Some p)
    (mkProfile (prof_id p) (prof_user_id p) (player_name p) (archetype_id p)
       (life_mode_id p) (avatar_url p) (bio p) (timezone p) (level p)
       (total_core_xp p) (Some (t + days identity_lock_days)) true) ;;;
  ret tt.

Definition get_archetype_by_id (i : Z) : M (option Z) :=
  query (fun db => scalar_one_or_none (filter (Z.eqb i) (archetypes db))).

Definition get_life_mode_by_id (i : Z) : M (option Z) :=
  query (fun db => scalar_one_or_none (filter (Z.eqb i) (life_modes db))).

Definition get_life_area_by_id (i : Z) : M (option Z) :=
  query (fun db => scalar_one_or_none (filter (Z.eqb i) (life_areas db))).

(** [ORDER BY priority]: a stable insertion sort (rows of equal priority,
    whose order SQL leaves open, keep their table order). *)
Fixpoint insert_by_priority (a : UserLifeArea) (l : list UserLifeArea) : list UserLifeArea :=
  match l with
  | [] => [a]
  | b :: l' => if priority a <=? priority b then a :: l else b :: insert_by_priority a l'
  end.

Definition sort_by_priority (l : list UserLifeArea) : list UserLifeArea :=
  fold_right insert_by_priority [] l.

Definition get_user_life_areas (user_id : Z) : M (list UserLifeArea) :=
  query (fun db => inr (sort_by_priority
                         (filter (fun a => Z.eqb (ula_user_id a) user_id) (user_life_areas db)))).

(** The new rows, priorities from [prio] on ([enumerate(..., start=1)]):
    [datetime.now()] for [selected_at], a [uuid4()] id each. *)
Fixpoint new_life_areas (user_id : Z) (prio : Z) (ids : list Z) : M (list UserLifeArea) :=
  match ids with
  | [] => ret []
  | i :: ids' =>
      k <- fresh_uuid ;;
      t <- now ;;
      rest <- new_life_areas user_id (prio + 1) ids' ;;
      ret (mkUserLifeArea k user_id i prio t :: rest)
  end.

(** The foreign keys of [user_life_areas]: [user_id] to [users],
    [life_area_id] to [life_areas]. *)
Definition life_area_fk_ok (db : DB) (a : UserLifeArea) : bool :=
  existsb (Z.eqb (ula_user_id a)) (map uid (users db))
  && existsb (Z.eqb (ula_life_area_id a)) (life_areas db).

(** [db.delete] of the rows found, [db.add] of the new ones, then one
    [await db.flush()], which fails when a new row names an unknown account
    or life area. *)
Definition set_user_life_areas (user_id : Z) (ids : list Z) : M (list UserLifeArea) :=
  existing <- get_user_life_areas user_id ;;
  rows <- new_life_areas user_id 1 ids ;;
  fun db =>
    if forallb (life_area_fk_ok db) rows
    then (inr rows, set_user_life_areas_table db
            (filter (fun a => negb (existsb (fun x => Z.eqb (ula_id x) (ula_id a)) existing))
                    (user_life_areas db) ++ rows))
    else (inl IntegrityError, db).

End ProfileRepository.

(* ================================================================== *)
(** ** [app/services/profile_service.py] *)

Record OnboardingRequest : Type := mkOnboardingRequest {
  ob_player_name : string;
  ob_archetype_id : Z;
  ob_life_mode_id : Z;
  ob_life_area_ids : list Z;
  ob_avatar_url : option string;
  ob_bio : option string;
  ob_timezone : string;
}.

Record OnboardingResponse : Type := mkOnboardingResponse {
  ob_profile : UserProfile;
  ob_message : string;
}.

Module ProfileService.

Definition set_identity (p : UserProfile) (arch lm : Z) : UserProfile :=
  mkProfile (prof_id p) (prof_user_id p) (player_name p) (Some arch) (Some lm)
    (avatar_url p) (bio p) (timezone p) (level p) (total_core_xp p)
    (identity_locked_until p) (onboarding_completed p).

Definition complete_onboarding (user_id : Z) (data : OnboardingRequest)
    : M OnboardingResponse :=
  existing_profile <- ProfileRepository.get_by_user_id user_id ;;
  when (match existing_profile with
        | Some p => onboarding_completed p | None => false end)
       (ValidationError "Onboarding already completed") ;;;
  existing_name <- ProfileRepository.get_by_player_name (ob_player_name data) ;;
  when (match existing_name with
        | Some n => negb (Z.eqb (prof_user_id n) user_id) | None => false end)
       PlayerNameTakenError ;;;
  archetype <- ProfileRepository.get_archetype_by_id (ob_archetype_id data) ;;
  when (match archetype with None => true | Some _ => false end)
       (ValidationError "Invalid archetype ID") ;;;
  life_mode <- ProfileRepository.get_life_mode_by_id (ob_life_mode_id data) ;;
  when (match life_mode with None => true | Some _ => false end)
       (ValidationError "Invalid life mode ID") ;;;
  mapM_ (fun i =>
           la <- ProfileRepository.get_life_area_by_id i ;;
           when (match la with None => true | Some _ => false end)
                (ValidationError ("Invalid life area ID: " ++ uuid_str i)))
        (ob_life_area_ids data) ;;;
  profile <- match existing_profile with
             | Some p =>
                 p' <- ProfileRepository.update p (Some (ob_player_name data))
                         (ob_avatar_url data) (ob_bio data) (Some (ob_timezone data)) ;;
                 (* [profile.archetype_id = ...; profile.life_mode_id = ...] *)
                 ProfileRepository.flush_profile (Some p')
                   (set_identity p' (ob_archetype_id data) (ob_life_mode_id data))
             | None =>
                 ProfileRepository.create user_id (ob_player_name data)
                   (Some (ob_archetype_id data)) (Some (ob_life_mode_id data))
                   (ob_avatar_url data) (ob_bio data) (ob_timezone data)
             end ;;
  ProfileRepository.set_user_life_areas user_id (ob_life_area_ids data) ;;;
  ProfileRepository.mark_onboarding_complete profile ;;;
  reloaded <- ProfileRepository.get_by_user_id user_id ;;
  match reloaded with
  | Some p => ret (mkOnboardingResponse p
      "Onboarding completed successfully! Your identity is locked for 30 days.")
  | None => raise (ValidationError "profile")   (* [ProfileResponse.model_validate(None)] *)
  end.

End ProfileService.

(* ================================================================== *)
(** ** [validate_password] and [PASSWORD_PATTERN] ([app/core/security.py]) *)

(** The constructs of Python's [re] that [PASSWORD_PATTERN] uses. A password
    is read as its sequence of code points, one [ascii] each (code points
    below 256). *)
Inductive re_atom : Type :=
| AnyButNewline                  (* [.] without DOTALL *)
| OneOf (cs : list ascii).       (* a character class [[...]] *)

Inductive regex : Type :=
| RBegin                         (* [^] without MULTILINE *)
| REnd                           (* [$] without MULTILINE *)
| RAtom (a : re_atom)
| RStar (a : re_atom)            (* [a*] *)
| RAtLeast (n : nat) (a : re_atom)   (* [a{n,}] *)
| RLookahead (r : regex)         (* [(?=r)] *)
| RSeq (r1 r2 : regex).

Definition newline : ascii := ascii_of_nat 10.

Definition atom_matches (a : re_atom) (c : ascii) : bool :=
  match a with
  | AnyButNewline => negb (Ascii.eqb c newline)
  | OneOf cs => existsb (Ascii.eqb c) cs
  end.

(** How many characters from the start of [l] the atom matches in a row. *)
Fixpoint atom_run (a : re_atom) (l : list ascii) : nat :=
  match l with
  | [] => O
  | c :: l' => if atom_matches a c then S (atom_run a l') else O
  end.

(** Every position at which a match of [r] begun at [i] can end
    (backtracking explores all of them; the order does not matter for
    whether [re.match] succeeds). *)
Fixpoint re_ends (r : regex) (s : list ascii) (i : nat) : list nat :=
  match r with
  | RBegin => if Nat.eqb i 0 then [i] else []
  | REnd =>
      if Nat.eqb i (length s)
         || (Nat.eqb (S i) (length s) && Ascii.eqb (nth i s newline) newline)
      then [i] else []
  | RAtom a =>
      match nth_error s i with
      | Some c => if atom_matches a c then [S i] else []
      | None => []
      end
  | RStar a => map (fun k => (i + k)%nat) (seq 0 (S (atom_run a (skipn i s))))
  | RAtLeast n a =>
      map (fun k => (i + k)%nat) (seq n (S (atom_run a (skipn i s)) - n))
  | RLookahead r' => match re_ends r' s i with [] => [] | _ => [i] end
  | RSeq r1 r2 => flat_map (re_ends r2 s) (re_ends r1 s i)
  end.

(** [pattern.match(s)] is not [None]. *)
Definition re_match (r : regex) (s : string) : bool :=
  match re_ends r (list_ascii_of_string s) 0 with [] => false | _ => true end.

Definition quote : ascii := ascii_of_nat 34.

(** The class of [PASSWORD_PATTERN]: the 20 characters
    [!@#$%^&*(),.?], the double quote, and [:{}|<>]. *)
Definition special_chars : list ascii :=
  list_ascii_of_string "!@#$%^&*(),.?" ++ [quote] ++ list_ascii_of_string ":{}|<>".

(** [re.compile(r'^(?=.*[SPECIALS]).{8,}$')], [SPECIALS] being the class
    [special_chars]. *)
Definition PASSWORD_PATTERN : regex :=
  RSeq RBegin
    (RSeq (RLookahead (RSeq (RStar AnyButNewline) (RAtom (OneOf special_chars))))
          (RSeq (RAtLeast 8 AnyButNewline) REnd)).

Definition msg_too_short : string := "Password must be at least 8 characters long".

Definition msg_no_special : string :=
  "Password must contain at least one special character (!@#$%^&*(),.?"
  ++ String quote ":{}|<>)".

Definition validate_password (password : string) : bool * option string :=
  if (String.length password <? 8)%nat then (false, Some msg_too_short)
  else if negb (re_match PASSWORD_PATTERN password) then (false, Some msg_no_special)
  else (true, None).

(** [get_token_subject(token)]: [payload.get("sub")] of the decoded token. *)
Definition get_token_subject (env : Env) (now : Z) (token : Token) : option jvalue :=
  match decode_token env now token with
  | None => None
  | Some payload => dict_get payload "sub"
  end.

(* ================================================================== *)
(** ** [app/api/deps.py]: [get_current_user] *)

(** [str.isspace()] on code points below 256. *)
Definition py_isspace (c : ascii) : bool :=
  let n := nat_of_ascii c in
  ((9 <=? n) && (n <=? 13))%nat || ((28 <=? n) && (n <=? 32))%nat
  || Nat.eqb n 133 || Nat.eqb n 160.

Fixpoint py_split_aux (cur : list ascii) (l : list ascii) : list string :=
  match l with
  | [] => match cur with [] => [] | _ => [string_of_list_ascii (rev cur)] end
  | c :: l' =>
      if py_isspace c
      then match cur with
           | [] => py_split_aux [] l'
           | _ => string_of_list_ascii (rev cur) :: py_split_aux [] l'
           end
      else py_split_aux (c :: cur) l'
  end.

(** [s.split()]: the runs of non-whitespace. *)
Definition py_split (s : string) : list string :=
  py_split_aux [] (list_ascii_of_string s).

(** [e.message] of the two exceptions the dependency catches. *)
Definition exn_message (e : exn) : string :=
  match e with
  | InvalidTokenError m => m
  | InvalidCredentialsError m => m
  | UserNotFoundError => "User not found"
  | _ => EmptyString
  end.

(** What a request dependency ends in: an [HTTPException], or an exception
    it does not catch (which FastAPI answers with a 500). *)
Inductive http_error : Type :=
| HTTPException (status_code : Z) (detail : string)
| Unhandled (e : exn).

Section Deps.

(** python-jose's reading of the compact token string. *)
Variable token_of_string : string -> Token.

Definition deps_get_current_user (env : Env) (authorization : option string) (db : DB)
    : (http_error + User) * DB :=
  match authorization with
  | None => (inl (HTTPException 401 "Missing authorization header"), db)
  | Some a =>
      if String.eqb a EmptyString
      then (inl (HTTPException 401 "Missing authorization header"), db)
      else
        match py_split a with
        | [scheme; token] =>
            if String.eqb (py_lower scheme) "bearer" then
              match AuthService.get_current_user env (token_of_string token) db with
              | (inr u, db') => (inr u, db')
              | (inl (InvalidTokenError m as e), db') => (inl (HTTPException 401 (exn_message e)), db')
              | (inl (UserNotFoundError as e), db') => (inl (HTTPException 401 (exn_message e)), db')
              | (inl e, db') => (inl (Unhandled e), db')
              end
            else (inl (HTTPException 401 "Invalid authorization header format"), db)
        | _ => (inl (HTTPException 401 "Invalid authorization header format"), db)
        end
  end.

End Deps.

(* ================================================================== *)
(** ** The rest of [app/services/profile_service.py] *)

Record ProfileCreateRequest : Type := mkProfileCreateRequest {
  pc_player_name : string;
  pc_archetype_id : Z;
  pc_life_mode_id : Z;
  pc_avatar_url : option string;
  pc_bio : option string;
  pc_timezone : string;
}.

Record ProfileUpdateRequest : Type := mkProfileUpdateRequest {
  pu_player_name : option string;
  pu_avatar_url : option string;
  pu_bio : option string;
  pu_timezone : option string;
}.

(** The exceptions of the profile service: those of the repositories, and
    [ProfileNotFoundError]. *)
Inductive profile_exn : Type :=
| PExn (e : exn)
| ProfileNotFoundError.

Definition MX (A : Type) : Type := DB -> (profile_exn + A) * DB.

Definition liftX {A} (m : M A) : MX A :=
  fun db => match m db with
            | (inl e, db') => (inl (PExn e), db')
            | (inr a, db') => (inr a, db')
            end.

Definition retX {A} (a : A) : MX A := fun db => (inr a, db).

Definition raiseX {A} (e : profile_exn) : MX A := fun db => (inl e, db).

Definition bindX {A B} (m : MX A) (k : A -> MX B) : MX B :=
  fun db => match m db with
            | (inl e, db') => (inl e, db')
            | (inr a, db') => k a db'
            end.

Module ProfileService2.

Definition create_profile (user_id : Z) (data : ProfileCreateRequest) : M UserProfile :=
  existing <- ProfileRepository.get_by_player_name (pc_player_name data) ;;
  when (match existing with Some _ => true | None => false end) PlayerNameTakenError ;;;
  archetype <- ProfileRepository.get_archetype_by_id (pc_archetype_id data) ;;
  when (match archetype with None => true | Some _ => false end)
       (ValidationError "Invalid archetype ID") ;;;
  life_mode <- ProfileRepository.get_life_mode_by_id (pc_life_mode_id data) ;;
  when (match life_mode with None => true | Some _ => false end)
       (ValidationError "Invalid life mode ID") ;;;
  ProfileRepository.create user_id (pc_player_name data)
    (Some (pc_archetype_id data)) (Some (pc_life_mode_id data))
    (pc_avatar_url data) (pc_bio data) (pc_timezone data).

Definition get_profile (user_id : Z) : MX UserProfile :=
  bindX (liftX (ProfileRepository.get_by_user_id user_id)) (fun profile =>
  match profile with
  | None => raiseX ProfileNotFoundError
  | Some p => retX p
  end).

Definition update_profile (user_id : Z) (data : ProfileUpdateRequest) : MX UserProfile :=
  bindX (get_profile user_id) (fun profile =>
  bindX (match pu_player_name data with
         | Some n =>
             if negb (String.eqb n EmptyString) && negb (String.eqb n (player_name profile))
             then bindX (liftX (ProfileRepository.get_by_player_name n)) (fun existing =>
                    match existing with
                    | Some _ => raiseX (PExn PlayerNameTakenError)
                    | None => retX tt
                    end)
             else retX tt
         | None => retX tt
         end) (fun _ =>
  liftX (ProfileRepository.update profile (pu_player_name data) (pu_avatar_url data)
           (pu_bio data) (pu_timezone data)))).

End ProfileService2.

(* ================================================================== *)
(** ** A concrete configuration and database, for evaluating the flows *)

Definition sample_env : Env := {|
  JWT_SECRET_KEY := "secret";
  JWT_ALGORITHM := "HS256";
  ACCESS_TOKEN_EXPIRE_MINUTES := 30;
  REFRESH_TOKEN_EXPIRE_DAYS := 7;
  GOOGLE_CLIENT_ID := "client";
  jws_sign := fun key _ _ => key;
  bcrypt_password_check := fun _ => None;
  bcrypt_core := fun pw v c _ => inr ("$" ++ v ++ "$" ++ c ++ "$" ++ pw)%string;
  bcrypt_hash_with_fresh_salt := fun pw => ("$2b$12$" ++ pw)%string;
  verify_oauth2_token := fun tok _ =>
    Some [("iss", JStr "accounts.google.com"); ("email", JStr "a@x.com");
          ("sub", JStr tok)]%string;
|}.

Definition t_sample : Z := 1700000000000000.

Definition empty_db : DB := mkDB [] [] [] [] [] [] [] [] t_sample 1.

(** An active password account, id 1, and an inactive one, id 2. *)
Definition sample_user : User := mkUser 1 "a@x.com"%string (Some "$2b$12$pw"%string) false true None.
Definition inactive_user : User := mkUser 2 "b@x.com"%string (Some "$2b$12$pw"%string) false false None.

Definition db_accounts : DB :=
  mkDB [sample_user; inactive_user] [] [] [] [] [] [] [] t_sample 10.

(** An access token from [create_access_token] whose [extra_claims] put a
    subject that is not a UUID. *)
Definition non_uuid_access_token : Token :=
  create_access_token sample_env t_sample 1 None (Some [("sub", JStr "abc")]%string).

Definition set_clock (db : DB) (t : Z) : DB :=
  mkDB (users db) (auth_providers db) (user_sessions db) (user_profiles db)
    (archetypes db) (life_modes db) (life_areas db) (user_life_areas db) t (uuid_pool db).

(** [register("a@x.com", ...)] on an empty database at [t_sample]. *)
Definition registered : (exn + TokenResponse) * DB :=
  AuthService.register sample_env "a@x.com" "pw" None None empty_db.

Definition registered_refresh_token : Token :=
  match fst registered with
  | inr r => refresh_token r
  | inl _ => Unparsable EmptyString
  end.

(** Onboarding data: archetype 100, life mode 200, life area 300. *)
Definition sample_onboarding : OnboardingRequest :=
  mkOnboardingRequest "hero" 100 200 [300] None None "UTC".

Definition db_onboarding : DB :=
  mkDB [sample_user] [] [] [] [100] [200] [300] [] t_sample 10.

(** [complete_onboarding] for account 1 on [db_onboarding]. *)
Definition onboarding_run : (exn + OnboardingResponse) * DB :=
  ProfileService.complete_onboarding 1 sample_onboarding db_onboarding.

(** The profile row that run leaves. *)
Definition onboarded_profile : UserProfile :=
  mkProfile 10 1 "hero" (Some 100) (Some 200) None None "UTC" 1 0
    (Some (t_sample + days identity_lock_days)) true.

(** The same database one microsecond later. *)
Definition registered_db_same_second : DB :=
  set_clock (snd registered) (t_sample + 1).

(** The filter of [get_auth_provider("google", sub)]. *)
Definition google_key (sub : string) (a : AuthProvider) : bool :=
  String.eqb (provider a) "google" && String.eqb (provider_user_id a) sub.

(** How many [provider = "google"] rows belong to account [user_id]. *)
Definition google_links (user_id : Z) (l : list AuthProvider) : nat :=
  length (filter (fun a => Z.eqb (ap_user_id a) user_id && String.eqb (provider a) "google") l).

(** Account 1 ("a@x.com") already linked to the Google subject "g1". *)
Definition db_google_linked : DB :=
  mkDB [sample_user] [mkAuthProvider 5 1 "google" "g1" []] [] [] [] [] [] [] t_sample 10.

(** A Google sign-in for "a@x.com" whose verified subject is "g2". *)
Definition google_second_run : (exn + TokenResponse) * DB :=
  AuthService.google_login sample_env "g2" None None db_google_linked.

(** [update_last_login] stamps [now] on the account's row. *)
Definition stamp_login (t : Z) (user : User) (l : list User) : list User :=
  map (fun u => if Z.eqb (uid u) (uid user)
                then mkUser (uid u) (email u) (password_hash u) (email_verified u)
                            (is_active u) (Some t)
                else u) l.

(** A deactivated password account, id 2, with the email "a@x.com" that
    [sample_env]'s Google tokens carry. *)
Definition deactivated_user : User :=
  mkUser 2 "a@x.com"%string (Some "$2b$12$pw"%string) false false None.

Definition db_deactivated : DB :=
  mkDB [deactivated_user] [] [] [] [] [] [] [] t_sample 10.

(** The identity [verify_google_token] returns for the token "g1". *)
Definition google_user_g1 : dict :=
  match verify_google_token sample_env "g1" with inr d => d | inl _ => [] end.

(* ================================================================== *)
(** ** Predicates on characters and words used in the statements *)

(** The digits [str(UUID)] writes. *)
Definition hex_chars : list ascii := list_ascii_of_string "0123456789abcdef".

Definition not_hyphen (c : ascii) : bool := negb (Ascii.eqb c "-"%char).

(** A word that [str.split()] keeps whole: non-empty, without whitespace. *)
Definition no_space (s : string) : Prop :=
  s <> EmptyString /\ forall c, In c (list_ascii_of_string s) -> py_isspace c = false.

(** The database of [registered] one second later, and a refresh with the
    token [register] issued. *)
Definition db_registered_later : DB :=
  set_clock (snd registered) (t_sample + 1000000).

Definition refresh_later : (exn + TokenResponse) * DB :=
  AuthService.refresh_tokens sample_env registered_refresh_token None None db_registered_later.

Definition no_tokens : TokenResponse :=
  mkTokenResponse (Unparsable EmptyString) (Unparsable EmptyString) false.

Definition result_or {A} (d : A) (r : (exn + A) * DB) : A :=
  match fst r with inr a => a | inl _ => d end.

(** The payload of [non_uuid_access_token] once decoded. *)
Definition non_uuid_payload : dict :=
  match decode_token sample_env t_sample non_uuid_access_token with
  | Some p => p
  | None => []
  end.

(** A password login of account 1 on [db_accounts]. *)
Definition login_run : (exn + TokenResponse) * DB :=
  AuthService.login sample_env "a@x.com" "pw" None None db_accounts.

(** A first Google sign-in, subject "g9", on the empty database. *)
Definition google_new_run : (exn + TokenResponse) * DB :=
  AuthService.google_login sample_env "g9" None None empty_db.

Definition google_user_g9 : dict :=
  match verify_google_token sample_env "g9" with inr d => d | inl _ => [] end.

(** Life-area selections of accounts 1 and 2. *)
Definition db_life_areas : DB :=
  mkDB [sample_user] [] [] [] [] [] [300; 301; 302]
    [mkUserLifeArea 20 1 300 1 t_sample; mkUserLifeArea 21 2 301 1 t_sample] t_sample 22.

(** A second profile, of account 2, named "rival". *)
Definition rival_profile : UserProfile :=
  mkProfile 12 2 "rival" (Some 100) (Some 200) None None "UTC" 1 0 None false.

Definition db_profiles : DB :=
  mkDB [sample_user; inactive_user] [] [] [onboarded_profile; rival_profile]
    [100] [200] [300] [] t_sample 13.

(* ================================================================== *)
(** * Proofs *)

(** ** Monad reasoning *)

Lemma bind_ok {A B} (m : M A) (k : A -> M B) db r db'' :
  bind m k db = (inr r, db'') ->
  exists a db', m db = (inr a, db') /\ k a db' = (inr r, db'').
Proof.
  unfold bind. destruct (m db) as [[e|a] db']; [discriminate | eauto].
Qed.

Lemma bind_inr {A B} (m : M A) (k : A -> M B) db a db' :
  m db = (inr a, db') -> bind m k db = k a db'.
Proof. unfold bind. intros ->. reflexivity. Qed.

Lemma bind_inl {A B} (m : M A) (k : A -> M B) db e db' :
  m db = (inl e, db') -> bind m k db = (inl e, db').
Proof. unfold bind. intros ->. reflexivity. Qed.

Lemma set_user_sessions_same db : set_user_sessions db (user_sessions db) = db.
Proof. destruct db; reflexivity. Qed.

(** ** Dicts and strings *)



Lemma UUID_of_truthy (v : jvalue) (u : Z) : UUID_of v = inr u -> py_truthy v = true.
Proof.
  destruct v as [s| | | |]; simpl; try discriminate.
  destruct s; [discriminate | reflexivity].
Qed.

(** ** C1: the [type] claim keeps refresh and access tokens apart *)



(** ** C2: issuing then decoding *)

Lemma existsb_eqb_self (a : string) : existsb (String.eqb a) [a] = true.
Proof. simpl. rewrite String.eqb_refl. reflexivity. Qed.

Lemma timegm_mono (t1 t2 : Z) : t1 <= t2 -> timegm t1 <= timegm t2.
Proof. intros H. unfold timegm, usec_per_sec. apply Z.div_le_mono; lia. Qed.

(** [jwt.decode] gives back the claims [jwt.encode] signed, for claims of
    the shape the service issues, while [exp] is not past. *)
Lemma decode_issued (env : Env) (t1 expire : Z) (sub typ : string) :
  t1 < expire ->
  decode_token env t1
    (jwt_encode env [("sub", JStr sub); ("exp", JDatetime expire); ("type", JStr typ)]%string
       (JWT_SECRET_KEY env) (JWT_ALGORITHM env))
  = Some [("sub", JStr sub); ("exp", JInt (timegm expire)); ("type", JStr typ)]%string.
Proof.
  intros Hlt. unfold decode_token, jwt_decode, jwt_encode. cbn.
  rewrite String.eqb_refl, String.eqb_refl. cbn.
  unfold validate_claims. cbn.
  assert (Hle : (timegm t1 <=? timegm expire) = true).
  { apply Z.leb_le, timegm_mono. lia. }
  rewrite Hle. reflexivity.
Qed.

(** C2. For every account id, a token from [create_access_token(id)]
    decodes, before the access TTL has elapsed, to claims whose [sub] is
    [str(id)] and whose [type] is ["access"]; a token from
    [create_refresh_token(id)] decodes, before the refresh TTL has elapsed,
    to [sub = str(id)] and [type = "refresh"]. *)
Theorem issue_decode_roundtrip (env : Env) (id t0 t1 : Z) :
  (t1 < t0 + minutes (ACCESS_TOKEN_EXPIRE_MINUTES env) ->
   exists payload,
     decode_token env t1 (create_access_token env t0 id None None) = Some payload /\
     dict_get payload "sub" = Some (JStr (uuid_str id)) /\
     dict_get payload "type" = Some (JStr "access")) /\
  (t1 < t0 + days (REFRESH_TOKEN_EXPIRE_DAYS env) ->
   exists payload,
     decode_token env t1 (create_refresh_token env t0 id None) = Some payload /\
     dict_get payload "sub" = Some (JStr (uuid_str id)) /\
     dict_get payload "type" = Some (JStr "refresh")).
Proof.
  split; intros Hlt; eexists; split.
  - unfold create_access_token, expiry. apply decode_issued. exact Hlt.
  - split; reflexivity.
  - unfold create_refresh_token, expiry. apply decode_issued. exact Hlt.
  - split; reflexivity.
Qed.

Lemma issue_decode_roundtrip_witness :
  t_sample + 1000000 < t_sample + minutes (ACCESS_TOKEN_EXPIRE_MINUTES sample_env) /\
  exists payload,
    decode_token sample_env (t_sample + 1000000)
      (create_access_token sample_env t_sample 42 None None) = Some payload /\
    dict_get payload "sub" = Some (JStr (uuid_str 42)) /\
    dict_get payload "type" = Some (JStr "access").
Proof.
  assert (H : t_sample + 1000000 < t_sample + minutes (ACCESS_TOKEN_EXPIRE_MINUTES sample_env))
    by (vm_compute; reflexivity).
  split; [exact H |].
  exact (proj1 (issue_decode_roundtrip sample_env 42 t_sample (t_sample + 1000000)) H).
Defined.

(** ** C3: the outcomes of [get_current_user] *)

(** C3 fails at a concrete input, against the function's own contract: an
    access token that verifies, with [type] access and the non-empty
    subject [abc], which names no account, makes [get_current_user] raise
    the [ValueError] of [UUID(user_id)]. That is neither [InvalidTokenError]
    nor [UserNotFoundError], the two errors its docstring lists, and the
    route dependency, which turns only those two into a 401, lets it
    escape. *)
Theorem get_current_user_non_uuid_subject :
  decode_token sample_env t_sample non_uuid_access_token = Some non_uuid_payload /\
  dict_get non_uuid_payload "type" = Some (JStr "access") /\
  dict_get non_uuid_payload "sub" = Some (JStr "abc") /\
  AuthService.get_current_user sample_env non_uuid_access_token db_accounts
  = (inl (ValueError "badly formed hexadecimal UUID string"), db_accounts) /\
  deps_get_current_user (fun _ => non_uuid_access_token) sample_env
    (Some ("Bearer" ++ String " " "tok")%string) db_accounts
  = (inl (Unhandled (ValueError "badly formed hexadecimal UUID string")), db_accounts).
Proof. repeat split; vm_compute; reflexivity. Qed.

(** ** Lists as tables *)

Lemma filter_none {A} (f : A -> bool) (l : list A) :
  (forall x, In x l -> f x = false) -> filter f l = [].
Proof.
  induction l as [|a l IH]; intros H; [reflexivity |]. cbn.
  rewrite (H a (or_introl eq_refl)). apply IH. intros x Hx. apply H. right. exact Hx.
Qed.

Lemma existsb_none {A} (f : A -> bool) (l : list A) :
  (forall x, In x l -> f x = false) -> existsb f l = false.
Proof.
  intros H. apply Bool.not_true_iff_false. intros Hex.
  apply existsb_exists in Hex as [x [Hx Hfx]]. rewrite (H x Hx) in Hfx. discriminate.
Qed.


(** ** C4: [register] *)



(** ** C5: [verify_password] *)

(** The claim as stated fails: a stored hash bcrypt cannot parse makes
    [bcrypt.checkpw] raise [ValueError("Invalid salt")]; no boolean comes back. *)
Lemma verify_password_malformed_hash_raises :
  verify_password sample_env "pw" "not-a-bcrypt-hash" = inl (ValueError "Invalid salt").
Proof. vm_compute. reflexivity. Qed.

(** C5 (amended). [verify_password] returns a boolean exactly when
    [bcrypt.hashpw(password, stored hash)] returns a hash, and the boolean
    says whether that hash equals the stored hash; otherwise it raises what
    [hashpw] raises, and it never answers false for a hash bcrypt cannot
    read. Once bcrypt accepts the password, a stored hash whose non-empty
    pieces between ['$'] signs are not three, the first one [2a], [2b],
    [2x] or [2y], raises [ValueError] with [Invalid salt]; any other is
    read, also without the leading ['$'], and the outcome is that of
    bcrypt's hashing with those pieces. *)
Theorem verify_password_outcomes (env : Env) (pw h : string) :
  (forall b, verify_password env pw h = inr b <->
             exists h', bcrypt_hashpw env pw h = inr h' /\ b = String.eqb h' h) /\
  (forall e, verify_password env pw h = inl e <-> bcrypt_hashpw env pw h = inl e) /\
  (bcrypt_password_check env pw = None ->
   (match filter (fun p => negb (String.eqb p EmptyString)) (split_on "$" h) with
    | [v; _; _] => ~ In v bcrypt_versions
    | _ => True
    end ->
    verify_password env pw h = inl (ValueError "Invalid salt")) /\
   (forall v c r,
      filter (fun p => negb (String.eqb p EmptyString)) (split_on "$" h) = [v; c; r] ->
      In v bcrypt_versions ->
      verify_password env pw h
      = match bcrypt_core env pw v c r with
        | inl e => inl e
        | inr h' => inr (String.eqb h' h)
        end)).
Proof.
  split; [| split].
  - intros b. unfold verify_password, checkpw. destruct (bcrypt_hashpw env pw h) as [e|h'].
    + split; [discriminate | intros [h'' [Hh _]]; discriminate].
    + split.
      * intros Hb. injection Hb as <-. eauto.
      * intros [h'' [Hh ->]]. injection Hh as ->. reflexivity.
  - intros e. unfold verify_password, checkpw. destruct (bcrypt_hashpw env pw h) as [e'|h'].
    + split; intros H; injection H as ->; reflexivity.
    + split; discriminate.
  - intros Hc. unfold verify_password, checkpw, bcrypt_hashpw. rewrite Hc.
    unfold bcrypt_parts. split.
    + destruct (filter _ (split_on "$" h)) as [|v [|c [|r [|x l]]]]; intros Hm;
        try reflexivity.
      destruct (existsb (String.eqb v) bcrypt_versions) eqn:E; [| reflexivity].
      exfalso. apply Hm. apply existsb_exists in E as [v' [Hin Heq]].
      apply String.eqb_eq in Heq. subst v'. exact Hin.
    + intros v c r Hf Hv. rewrite Hf.
      replace (existsb (String.eqb v) bcrypt_versions) with true; [reflexivity |].
      symmetry. apply existsb_exists. exists v. split; [exact Hv | apply String.eqb_refl].
Qed.

(** A hash with no ['$'] at all, the same hash without its leading ['$'],
    and the hash itself, for the password it was made from. *)
Lemma verify_password_outcomes_witness :
  verify_password sample_env "pw" "plain" = inl (ValueError "Invalid salt") /\
  verify_password sample_env "pw" "2b$12$pw" = inr false /\
  verify_password sample_env "pw" "$2b$12$pw" = inr true.
Proof.
  split; [| split].
  - apply (proj1 (proj2 (proj2 (verify_password_outcomes sample_env "pw" "plain"))
                   eq_refl)).
    vm_compute. exact I.
  - apply (proj2 (proj2 (proj2 (verify_password_outcomes sample_env "pw" "2b$12$pw"))
                   eq_refl) "2b"%string "12"%string "pw"%string); vm_compute; [reflexivity | ].
    right; left; reflexivity.
  - apply (proj2 (proj2 (proj2 (verify_password_outcomes sample_env "pw" "$2b$12$pw"))
                   eq_refl) "2b"%string "12"%string "pw"%string); vm_compute; [reflexivity | ].
    right; left; reflexivity.
Defined.

(** ** C6: [refresh_tokens] and the session table *)

(** C6 fails at a concrete input: refreshing in the same second as the
    registration mints a refresh token byte-identical to the presented one
    (same [sub], [exp] in whole seconds and [type], no [jti] or [iat]), so the
    INSERT of the new session row violates UNIQUE [session_token] and the
    flow raises instead of adding a row. *)
Theorem refresh_same_second_adds_no_session :
  fst registered = inr (mkTokenResponse
                          (create_access_token sample_env t_sample 1 None None)
                          (create_refresh_token sample_env t_sample 1 None) true) /\
  create_refresh_token sample_env (t_sample + 1) 1 None = registered_refresh_token /\
  AuthService.refresh_tokens sample_env registered_refresh_token None None
    registered_db_same_second
  = (inl IntegrityError, set_uuid_pool registered_db_same_second 4) /\
  length (user_sessions registered_db_same_second) = 1%nat.
Proof. repeat split; vm_compute; reflexivity. Qed.

(** ** C7: [logout] *)

Lemma NoDup_map_inj {A K} (f : A -> K) (l : list A) (x y : A) :
  NoDup (map f l) -> In x l -> In y l -> f x = f y -> x = y.
Proof.
  induction l as [|a l IH]; intros Hnd Hx Hy Hf; [destruct Hx |].
  cbn in Hnd. inversion Hnd as [|? ? Hnotin Hnd']; subst.
  destruct Hx as [<- | Hx], Hy as [<- | Hy]; auto.
  - exfalso. apply Hnotin. rewrite Hf. apply in_map. exact Hy.
  - exfalso. apply Hnotin. rewrite <- Hf. apply in_map. exact Hx.
Qed.

Lemma token_eqb_spec (a b : Token) : token_eqb a b = true <-> a = b.
Proof.
  unfold token_eqb. destruct (Token_eq_dec a b); split; congruence.
Qed.

Lemma filter_singleton_in {A} (f : A -> bool) (l : list A) (x : A) :
  filter f l = [x] -> In x l /\ f x = true.
Proof.
  intros H. assert (Hx : In x (filter f l)) by (rewrite H; left; reflexivity).
  apply filter_In in Hx. exact Hx.
Qed.

(** The row [logout] finds, deleted by primary key, is every row holding
    the token, when ids and tokens are unique. *)
Lemma delete_by_id_is_delete_by_token (l : list UserSession) (s : UserSession) (tok : Token) :
  NoDup (map sess_id l) -> NoDup (map session_token l) ->
  In s l -> session_token s = tok ->
  filter (fun r => negb (Z.eqb (sess_id r) (sess_id s))) l
  = filter (fun r => negb (token_eqb (session_token r) tok)) l.
Proof.
  intros Hid Htok Hs Hst. apply filter_ext_in. intros r Hr. f_equal.
  destruct (Z.eqb_spec (sess_id r) (sess_id s)) as [Heq | Hne].
  - assert (r = s) by (apply (NoDup_map_inj sess_id l); auto). subst.
    symmetry. apply token_eqb_spec. reflexivity.
  - symmetry. apply Bool.not_true_iff_false. intros Ht.
    apply token_eqb_spec in Ht. apply Hne.
    assert (r = s) by (eapply NoDup_map_inj; [exact Htok | exact Hr | exact Hs | congruence]).
    subst. reflexivity.
Qed.

Lemma logout_absent (tok : Token) (db : DB) :
  (forall r, In r (user_sessions db) -> session_token r <> tok) ->
  AuthService.logout tok db = (inr tt, db).
Proof.
  intros H. unfold AuthService.logout, UserRepository.get_session_by_token, bind, query.
  rewrite filter_none; [reflexivity |].
  intros r Hr. apply Bool.not_true_iff_false. intros Ht.
  apply token_eqb_spec in Ht. exact (H r Hr Ht).
Qed.

Lemma NoDup_map_filter {A K} (f : A -> K) (p : A -> bool) (l : list A) :
  NoDup (map f l) -> NoDup (map f (filter p l)).
Proof.
  induction l as [|a l IH]; intros Hnd; [constructor |].
  cbn in Hnd. inversion Hnd as [|? ? Hnotin Hnd']; subst. cbn.
  destruct (p a); [| auto]. cbn. constructor; [| auto].
  intros Hin. apply Hnotin. apply in_map_iff in Hin as [y [Hy Hyin]].
  apply filter_In in Hyin as [Hyin _]. rewrite <- Hy. apply in_map. exact Hyin.
Qed.

Lemma set_user_sessions_twice db l l' :
  set_user_sessions (set_user_sessions db l) l' = set_user_sessions db l'.
Proof. destruct db; reflexivity. Qed.

(** C7. With the [user_sessions] table as the database keeps it (ids and
    session tokens unique), [logout] never raises: it deletes the row
    holding the token if there is one, changes nothing if there is none,
    and running it a second time with the same token returns normally and
    changes nothing more. *)
Theorem logout_never_fails_idempotent (tok : Token) (db : DB) :
  NoDup (map sess_id (user_sessions db)) ->
  NoDup (map session_token (user_sessions db)) ->
  AuthService.logout tok db
  = (inr tt, set_user_sessions db
               (filter (fun r => negb (token_eqb (session_token r) tok)) (user_sessions db))) /\
  ((forall r, In r (user_sessions db) -> session_token r <> tok) ->
   AuthService.logout tok db = (inr tt, db)) /\
  AuthService.logout tok (snd (AuthService.logout tok db))
  = (inr tt, snd (AuthService.logout tok db)).
Proof.
  intros Hid Htok.
  assert (Hone : AuthService.logout tok db
    = (inr tt, set_user_sessions db
                 (filter (fun r => negb (token_eqb (session_token r) tok)) (user_sessions db)))).
  { destruct (filter (fun r => token_eqb (session_token r) tok) (user_sessions db))
      as [|s [|s' rest]] eqn:Hf.
    - assert (Hno : forall r, In r (user_sessions db) -> session_token r <> tok).
      { intros r Hr Heq. assert (Hin : In r (filter (fun r => token_eqb (session_token r) tok)
                                                 (user_sessions db))).
        { apply filter_In. split; [exact Hr | apply token_eqb_spec; exact Heq]. }
        rewrite Hf in Hin. destruct Hin. }
      rewrite (logout_absent tok db Hno). f_equal.
      rewrite filter_ext_in with (g := fun _ => true).
      + rewrite filter_true. symmetry. apply set_user_sessions_same.
      + intros r Hr. apply negb_true_iff, Bool.not_true_iff_false.
        intros Ht. apply token_eqb_spec in Ht. exact (Hno r Hr Ht).
    - destruct (filter_singleton_in _ _ _ Hf) as [Hs Hst].
      apply token_eqb_spec in Hst.
      unfold AuthService.logout, UserRepository.get_session_by_token,
        UserRepository.delete_session, bind, query, modify. rewrite Hf. cbn.
      rewrite (delete_by_id_is_delete_by_token _ s tok Hid Htok Hs Hst). reflexivity.
    - exfalso.
      pose proof (NoDup_map_filter session_token
                    (fun r => token_eqb (session_token r) tok) _ Htok) as Hnd.
      rewrite Hf in Hnd. cbn in Hnd. inversion Hnd as [|? ? Hnotin _]; subst.
      assert (Hs : In s (s :: s' :: rest)) by (left; reflexivity).
      assert (Hs' : In s' (s :: s' :: rest)) by (right; left; reflexivity).
      rewrite <- Hf in Hs, Hs'. apply filter_In in Hs as [_ Hs], Hs' as [_ Hs'].
      apply token_eqb_spec in Hs, Hs'. apply Hnotin. left. congruence. }
  split; [exact Hone | split].
  - apply logout_absent.
  - rewrite Hone. cbn [snd]. apply logout_absent.
    intros r Hr Heq. destruct db; cbn in Hr.
    apply filter_In in Hr as [_ Hr]. apply negb_true_iff in Hr.
    rewrite (proj2 (token_eqb_spec _ _) Heq) in Hr. discriminate.
Qed.

(** Logging out of the session [register] opened, then again. *)
Lemma logout_never_fails_idempotent_witness :
  AuthService.logout registered_refresh_token (snd registered)
  = (inr tt, set_user_sessions (snd registered) []) /\
  AuthService.logout registered_refresh_token
    (snd (AuthService.logout registered_refresh_token (snd registered)))
  = (inr tt, set_user_sessions (snd registered) []).
Proof.
  destruct (logout_never_fails_idempotent registered_refresh_token (snd registered))
    as [H1 [_ H3]].
  - vm_compute. repeat constructor; intros H; inversion H.
  - vm_compute. repeat constructor; intros H; inversion H.
  - rewrite H3, H1. split; vm_compute; reflexivity.
Defined.

(** ** C8: onboarding completion and the identity lock *)

Lemma keeps_clock_bind {A B} (m : M A) (k : A -> M B) :
  keeps_clock m -> (forall a, keeps_clock (k a)) -> keeps_clock (bind m k).
Proof.
  intros Hm Hk db r db'. unfold bind.
  destruct (m db) as [[e|a] db1] eqn:E.
  - intros H. injection H as _ <-. exact (Hm _ _ _ E).
  - intros H. rewrite (Hk a _ _ _ H). exact (Hm _ _ _ E).
Qed.

Lemma keeps_clock_ret {A} (a : A) : keeps_clock (ret a).
Proof. intros db r db' H. injection H as _ <-. reflexivity. Qed.

Lemma keeps_clock_raise {A} (e : exn) : keeps_clock (@raise A e).
Proof. intros db r db' H. injection H as _ <-. reflexivity. Qed.

Lemma keeps_clock_query {A} (f : DB -> exn + A) : keeps_clock (query f).
Proof. intros db r db' H. injection H as _ <-. reflexivity. Qed.

Lemma keeps_clock_modify (f : DB -> DB) :
  (forall db, clock (f db) = clock db) -> keeps_clock (modify f).
Proof. intros Hf db r db' H. injection H as _ <-. apply Hf. Qed.

Lemma keeps_clock_fresh_uuid : keeps_clock fresh_uuid.
Proof. intros db r db' H. injection H as _ <-. destruct db; reflexivity. Qed.

Lemma keeps_clock_flush_profile (old : option UserProfile) (p : UserProfile) :
  keeps_clock (ProfileRepository.flush_profile old p).
Proof.
  intros db r db'. unfold ProfileRepository.flush_profile.
  destruct (_ || _); intros H; injection H as _ <-; [| destruct db]; reflexivity.
Qed.

Lemma keeps_clock_new_life_areas (user_id prio : Z) (ids : list Z) :
  keeps_clock (ProfileRepository.new_life_areas user_id prio ids).
Proof.
  revert prio. induction ids as [|i ids IH]; intros prio; cbn.
  - apply keeps_clock_ret.
  - apply keeps_clock_bind; [apply keeps_clock_fresh_uuid | intros k].
    apply keeps_clock_bind; [apply keeps_clock_query | intros t].
    apply keeps_clock_bind; [apply IH | intros rest; apply keeps_clock_ret].
Qed.

Lemma keeps_clock_set_user_life_areas (user_id : Z) (ids : list Z) :
  keeps_clock (ProfileRepository.set_user_life_areas user_id ids).
Proof.
  apply keeps_clock_bind; [apply keeps_clock_query | intros existing].
  apply keeps_clock_bind; [apply keeps_clock_new_life_areas | intros rows].
  intros db r db'. destruct (forallb _ rows); intros H; injection H as _ <-;
    [destruct db |]; reflexivity.
Qed.

Lemma read_only_bind {A B} (m : M A) (k : A -> M B) :
  read_only m -> (forall a, read_only (k a)) -> read_only (bind m k).
Proof.
  intros Hm Hk db r db'. unfold bind.
  destruct (m db) as [[e|a] db1] eqn:E.
  - intros H. injection H as _ <-. exact (Hm _ _ _ E).
  - intros H. rewrite (Hk a _ _ _ H). exact (Hm _ _ _ E).
Qed.

Lemma read_only_query {A} (f : DB -> exn + A) : read_only (query f).
Proof. intros db r db' H. injection H as _ <-. reflexivity. Qed.

Lemma read_only_when (b : bool) (e : exn) : read_only (when b e).
Proof. intros db r db'. unfold when, raise, ret. destruct b; intros H; injection H as _ <-; reflexivity. Qed.

Lemma read_only_mapM_ {A} (f : A -> M unit) (l : list A) :
  (forall a, read_only (f a)) -> read_only (mapM_ f l).
Proof.
  intros Hf. induction l as [|a l IH]; cbn.
  - intros db r db' H. injection H as _ <-. reflexivity.
  - apply read_only_bind; [apply Hf | intros _; exact IH].
Qed.

Lemma when_ok (b : bool) (e : exn) db u db' :
  when b e db = (inr u, db') -> b = false /\ db' = db.
Proof. unfold when, raise, ret. destruct b; intros H; [discriminate | injection H as <-]; auto. Qed.

Lemma query_ok {A} (f : DB -> exn + A) db a db' :
  query f db = (inr a, db') -> f db = inr a /\ db' = db.
Proof. unfold query. intros H. injection H as -> <-. auto. Qed.

Lemma scalar_some {A} (l : list A) (x : A) :
  scalar_one_or_none l = inr (Some x) -> l = [x].
Proof.
  destruct l as [|a [|b l]]; cbn; intros H; try discriminate. injection H as ->. reflexivity.
Qed.

Lemma scalar_none {A} (l : list A) :
  scalar_one_or_none l = inr None -> l = [].
Proof. destruct l as [|a [|b l]]; cbn; intros H; try discriminate; reflexivity. Qed.

(** A successful flush of [p] leaves [p] the only row with its [user_id]. *)
Lemma flush_profile_ok (old : option UserProfile) (p : UserProfile) db x db' :
  ProfileRepository.flush_profile old p db = (inr x, db') ->
  x = p /\ In p (user_profiles db') /\
  (forall q, In q (user_profiles db') -> prof_user_id q = prof_user_id p -> q = p).
Proof.
  unfold ProfileRepository.flush_profile.
  destruct (existsb _ (filter _ (user_profiles db))) eqn:Hclash; [discriminate |].
  destruct (ProfileRepository.profile_fk_ok db old p); [| discriminate].
  intros H. injection H as <- <-. split; [reflexivity |].
  assert (Hothers : forall q, In q (user_profiles db) -> prof_id q <> prof_id p ->
                    prof_user_id q <> prof_user_id p).
  { intros q Hq Hid Hu. apply Bool.not_true_iff_false in Hclash. apply Hclash.
    apply existsb_exists. exists q. split.
    - apply filter_In. split; [exact Hq |]. apply negb_true_iff, Z.eqb_neq. exact Hid.
    - rewrite Hu, Z.eqb_refl. reflexivity. }
  destruct db as [us aps ss ps ars lms las ulas clk pool]; cbn in *.
  destruct (existsb (fun q => Z.eqb (prof_id q) (prof_id p)) ps) eqn:Hex.
  - apply existsb_exists in Hex as [q0 [Hq0 Hq0id]]. split.
    + apply in_map_iff. exists q0. split; [rewrite Hq0id; reflexivity | exact Hq0].
    + intros q Hq Hu. apply in_map_iff in Hq as [q1 [Hq1 Hin1]].
      destruct (Z.eqb_spec (prof_id q1) (prof_id p)) as [Heq | Hne]; [exact (eq_sym Hq1) |].
      subst q1. exfalso. exact (Hothers q Hin1 Hne Hu).
  - split; [apply in_or_app; right; left; reflexivity |].
    intros q Hq Hu. apply in_app_or in Hq as [Hq | [<- | []]]; [| reflexivity].
    exfalso. apply (Hothers q Hq); [| exact Hu].
    intros Hid. apply Bool.not_true_iff_false in Hex. apply Hex.
    apply existsb_exists. exists q. split; [exact Hq | rewrite Hid, Z.eqb_refl; reflexivity].
Qed.

(** C8. If the user's profile already has [onboarding_completed], then
    [complete_onboarding] raises [ValidationError "Onboarding already
    completed"] and changes nothing. When [complete_onboarding] succeeds,
    onboarding was not yet completed, and the user's only profile row
    afterwards (the one returned) has [onboarding_completed = true] and
    [identity_locked_until = now + 30 days]. *)
Theorem complete_onboarding_identity_lock (user_id : Z) (data : OnboardingRequest) (db : DB) :
  (forall p, filter (fun q => Z.eqb (prof_user_id q) user_id) (user_profiles db) = [p] ->
   onboarding_completed p = true ->
   ProfileService.complete_onboarding user_id data db
   = (inl (ValidationError "Onboarding already completed"), db)) /\
  (forall r db', ProfileService.complete_onboarding user_id data db = (inr r, db') ->
   (forall p, In p (user_profiles db) -> prof_user_id p = user_id ->
              onboarding_completed p = false) /\
   filter (fun q => Z.eqb (prof_user_id q) user_id) (user_profiles db') = [ob_profile r] /\
   onboarding_completed (ob_profile r) = true /\
   identity_locked_until (ob_profile r) = Some (clock db + days identity_lock_days)).
Proof.
  split.
  - intros p Hf Hc.
    unfold ProfileService.complete_onboarding, ProfileRepository.get_by_user_id, bind, query.
    rewrite Hf. cbn. rewrite Hc. reflexivity.
  - intros r db' H. unfold ProfileService.complete_onboarding in H.
    apply bind_ok in H as [ep [db1 [H1 H]]]. apply query_ok in H1 as [Hep ->].
    apply bind_ok in H as [u1 [db2 [H2 H]]]. apply when_ok in H2 as [Hnc ->].
    apply bind_ok in H as [en [db3 [H3 H]]]. apply query_ok in H3 as [_ ->].
    apply bind_ok in H as [u2 [db4 [H4 H]]]. apply when_ok in H4 as [_ ->].
    apply bind_ok in H as [ar [db5 [H5 H]]]. apply query_ok in H5 as [_ ->].
    apply bind_ok in H as [u3 [db6 [H6 H]]]. apply when_ok in H6 as [_ ->].
    apply bind_ok in H as [lm [db7 [H7 H]]]. apply query_ok in H7 as [_ ->].
    apply bind_ok in H as [u4 [db8 [H8 H]]]. apply when_ok in H8 as [_ ->].
    apply bind_ok in H as [u5 [db9 [H9 H]]].
    assert (db9 = db) as ->.
    { refine (read_only_mapM_ _ _ _ _ _ _ H9). intros i.
      apply read_only_bind; [apply read_only_query | intros; apply read_only_when]. }
    (* the profile row to mark *)
    apply bind_ok in H as [prof [db10 [H10 H]]].
    assert (Hprof : prof_user_id prof = user_id /\ clock db10 = clock db).
    { destruct ep as [p0|].
      - apply scalar_some, filter_singleton_in in Hep as [_ Hp0].
        apply Z.eqb_eq in Hp0.
        apply bind_ok in H10 as [p' [dbx [Hx H10]]].
        unfold ProfileRepository.update in Hx.
        pose proof (keeps_clock_flush_profile _ _ _ _ _ Hx) as Cx.
        apply flush_profile_ok in Hx as [-> _].
        pose proof (keeps_clock_flush_profile _ _ _ _ _ H10) as C10.
        apply flush_profile_ok in H10 as [-> _].
        cbn. split; [exact Hp0 | congruence].
      - unfold ProfileRepository.create in H10.
        apply bind_ok in H10 as [i [dbx [Hx H10]]].
        pose proof (keeps_clock_fresh_uuid _ _ _ Hx) as Cx.
        pose proof (keeps_clock_flush_profile _ _ _ _ _ H10) as C10.
        apply flush_profile_ok in H10 as [-> _].
        cbn. split; [reflexivity | congruence]. }
    destruct Hprof as [Hpu Hclk10].
    apply bind_ok in H as [u6 [db11 [H11 H]]].
    pose proof (keeps_clock_set_user_life_areas _ _ _ _ _ H11) as Hclk11.
    apply bind_ok in H as [u7 [db12 [H12 H]]].
    unfold ProfileRepository.mark_onboarding_complete in H12.
    apply bind_ok in H12 as [t [dbt [Ht H12]]]. apply query_ok in Ht as [Ht ->].
    injection Ht as <-.
    apply bind_ok in H12 as [u8 [dbm [Hm H12]]]. injection H12 as _ <-.
    apply flush_profile_ok in Hm as [_ [_ Honly]].
    apply bind_ok in H as [rel [db13 [H13 H]]]. apply query_ok in H13 as [Hrel ->].
    destruct rel as [p|]; [| discriminate].
    injection H as <- <-. cbn.
    apply scalar_some in Hrel. rewrite Hrel.
    apply filter_singleton_in in Hrel as [Hin Hpid]. apply Z.eqb_eq in Hpid.
    assert (Hp := Honly p Hin). cbn in Hp. rewrite Hpu in Hp. specialize (Hp Hpid).
    split; [| split; [reflexivity | rewrite Hp; cbn; split; [reflexivity | congruence]]].
    (* first-time completion *)
    intros q Hq Hqu.
    assert (Hqf : In q (filter (fun q => Z.eqb (prof_user_id q) user_id) (user_profiles db))).
    { apply filter_In. split; [exact Hq | apply Z.eqb_eq; exact Hqu]. }
    destruct ep as [p0|].
    + apply scalar_some in Hep. rewrite Hep in Hqf. destruct Hqf as [<- | []]. exact Hnc.
    + apply scalar_none in Hep. rewrite Hep in Hqf. destruct Hqf.
Qed.

Lemma complete_onboarding_identity_lock_witness :
  ProfileService.complete_onboarding 1 sample_onboarding (snd onboarding_run)
    = (inl (ValidationError "Onboarding already completed"), snd onboarding_run) /\
  identity_locked_until onboarded_profile = Some (clock db_onboarding + days identity_lock_days).
Proof.
  split.
  - apply (proj1 (complete_onboarding_identity_lock 1 sample_onboarding (snd onboarding_run))
             onboarded_profile); vm_compute; reflexivity.
  - apply (proj2 (proj2 (proj2
      (proj2 (complete_onboarding_identity_lock 1 sample_onboarding db_onboarding)
         (mkOnboardingResponse onboarded_profile
            "Onboarding completed successfully! Your identity is locked for 30 days.")
         (snd onboarding_run) ltac:(vm_compute; reflexivity))))).
Defined.

Lemma existsb_filter {A} (f : A -> bool) (l : list A) :
  existsb f l = match filter f l with [] => false | _ => true end.
Proof.
  induction l as [|a l IH]; [reflexivity |]. cbn. destruct (f a); [reflexivity | exact IH].
Qed.

Lemma as_str_ok (v : jvalue) (s : string) : as_str v = inr s -> v = JStr s.
Proof. destruct v; cbn; intros H; try discriminate. injection H as ->. reflexivity. Qed.

Lemma update_last_login_providers (u : User) db r db' :
  UserRepository.update_last_login u db = (r, db') -> auth_providers db' = auth_providers db.
Proof. unfold UserRepository.update_last_login, bind, now, query, modify. intros H. injection H as _ <-. destruct db; reflexivity. Qed.

Lemma create_tokens_and_session_providers env (u : User) dev ip db r db' :
  AuthService.create_tokens_and_session env u dev ip db = (r, db') ->
  auth_providers db' = auth_providers db.
Proof.
  unfold AuthService.create_tokens_and_session, UserRepository.create_session,
    bind, now, query, fresh_uuid, ret.
  destruct (existsb _ _); intros H; injection H as _ <-; destruct db; reflexivity.
Qed.

(** Everything [google_login] does after choosing the account. *)
Lemma google_login_tail_providers env (u : User) (is_new : bool) dev ip db r db' :
  (UserRepository.update_last_login u ;;;
   toks <- AuthService.create_tokens_and_session env u dev ip ;;
   ret (mkTokenResponse (fst toks) (snd toks) is_new)) db = (inr r, db') ->
  auth_providers db' = auth_providers db.
Proof.
  intros H.
  apply bind_ok in H as [x [db1 [H1 H]]]. apply update_last_login_providers in H1.
  apply bind_ok in H as [y [db2 [H2 H]]]. apply create_tokens_and_session_providers in H2.
  unfold ret in H. injection H as _ <-. congruence.
Qed.

(** ... and to [users]: it stamps the account's last login. *)
Lemma google_login_tail_users env (u : User) (is_new : bool) dev ip db r db' :
  (UserRepository.update_last_login u ;;;
   toks <- AuthService.create_tokens_and_session env u dev ip ;;
   ret (mkTokenResponse (fst toks) (snd toks) is_new)) db = (inr r, db') ->
  users db' = stamp_login (clock db) u (users db).
Proof.
  intros H.
  apply bind_ok in H as [[] [db1 [H1 H]]].
  unfold UserRepository.update_last_login, bind, now, query, modify in H1.
  injection H1 as <-.
  apply bind_ok in H as [toks [db2 [H2 H]]].
  unfold ret in H. injection H as _ <-.
  unfold AuthService.create_tokens_and_session, UserRepository.create_session,
    bind, now, query, fresh_uuid, ret in H2.
  destruct db; cbn in H2. destruct (existsb _ _); injection H2 as _ <-; reflexivity.
Qed.

(** C9 (counterexample). Account 1 is already linked to Google subject "g1".
    A [google_login] for its email with the verified subject "g2" succeeds
    and leaves the account with two [provider = "google"] rows. *)
Lemma google_login_adds_second_google_link :
  google_links 1 (auth_providers db_google_linked) = 1%nat /\
  (exists r, fst google_second_run = inr r) /\
  google_links 1 (auth_providers (snd google_second_run)) = 2%nat.
Proof.
  split; [vm_compute; reflexivity |].
  split; [eexists; vm_compute; reflexivity | vm_compute; reflexivity].
Qed.

(** C9. What a successful [google_login] does to [auth_providers].
    Let the verified token have email [e] and subject [s]. Suppose an
    account [u] has the email [e]. Then a google row for [u] is appended
    exactly when no row at all has the key ("google", [s]), whichever
    account holds it. The google rows [u] already has are never consulted.
    If no account has the email, the account is created (id drawn from
    [uuid4()], the email lower-cased) and gets one google row; its last
    login is then stamped. *)
Theorem google_login_google_links (env : Env) (tok : string) (dev ip : option string)
    (db : DB) (r : TokenResponse) (db' : DB) :
  AuthService.google_login env tok dev ip db = (inr r, db') ->
  exists gu e s,
    verify_google_token env tok = inr gu /\
    dict_get_null gu "email" = JStr e /\ dict_get_null gu "sub" = JStr s /\
    match filter (fun u => String.eqb (email u) (py_lower e)) (users db) with
    | [u] =>
        if existsb (google_key s) (auth_providers db)
        then auth_providers db' = auth_providers db
        else exists i d, auth_providers db' =
               auth_providers db ++ [mkAuthProvider i (uid u) "google" s d]
    | [] =>
        exists nu t i d,
          uid nu = uuid_pool db /\ email nu = py_lower e /\
          users db' = stamp_login t nu (users db ++ [nu]) /\
          auth_providers db' =
            auth_providers db ++ [mkAuthProvider i (uid nu) "google" s d]
    | _ => False
    end.
Proof.
  intros H. unfold AuthService.google_login in H.
  apply bind_ok in H as [gu [db1 [H1 H]]]. unfold lift in H1. apply query_ok in H1 as [Hgu ->].
  destruct (negb (py_truthy (dict_get_null gu "email")) ||
            negb (py_truthy (dict_get_null gu "sub"))); [discriminate |].
  apply bind_ok in H as [e [db2 [H2 H]]]. unfold lift in H2.
  apply query_ok in H2 as [He ->]. apply as_str_ok in He.
  apply bind_ok in H as [user [db3 [H3 H]]]. apply query_ok in H3 as [Hu ->].
  apply bind_ok in H as [s [db4 [H4 H]]]. unfold lift in H4.
  apply query_ok in H4 as [Hs ->]. apply as_str_ok in Hs.
  apply bind_ok in H as [[u is_new] [db5 [H5 H]]].
  pose proof (google_login_tail_users _ _ _ _ _ _ _ _ H) as Husers.
  apply google_login_tail_providers in H. rewrite H.
  exists gu, e, s. split; [exact Hgu |]. split; [exact He |]. split; [exact Hs |].
  destruct user as [u0|].
  - apply scalar_some in Hu. rewrite Hu.
    apply bind_ok in H5 as [ap [db6 [H6 H5]]]. apply query_ok in H6 as [Hap ->].
    rewrite existsb_filter. unfold google_key.
    destruct ap as [a|].
    + apply scalar_some in Hap. rewrite Hap.
      unfold ret in H5. injection H5 as _ Hdb. subst db5. reflexivity.
    + apply scalar_none in Hap. rewrite Hap.
      unfold UserRepository.create_auth_provider, bind, fresh_uuid, modify, ret in H5.
      injection H5 as _ Hdb. subst db5. do 2 eexists. destruct db; reflexivity.
  - apply scalar_none in Hu. rewrite Hu.
    unfold UserRepository.create, UserRepository.create_auth_provider,
      bind, fresh_uuid, modify, ret in H5.
    destruct (existsb _ _); [discriminate |].
    injection H5 as Hu5 _ Hdb. subst db5.
    exists u, (clock db). do 2 eexists.
    rewrite Husers, <- Hu5. split; [| split; [| split]]; try reflexivity;
      destruct db; reflexivity.
Qed.

Lemma google_login_google_links_witness :
  exists i d, auth_providers (snd google_second_run) =
    auth_providers db_google_linked ++ [mkAuthProvider i 1 "google" "g2" d].
Proof.
  destruct (google_login_google_links sample_env "g2" None None db_google_linked
              (match fst google_second_run with
               | inr r => r
               | inl _ => mkTokenResponse (Unparsable EmptyString) (Unparsable EmptyString) false
               end)
              (snd google_second_run) ltac:(vm_compute; reflexivity))
    as (gu & e & s & Hgu & He & Hs & Hm).
  vm_compute in Hgu. injection Hgu as <-.
  vm_compute in He. injection He as <-.
  vm_compute in Hs. injection Hs as <-.
  exact Hm.
Defined.

Lemma google_login_tail_ok env (u : User) (is_new : bool) dev ip db :
  existsb (fun r => token_eqb (session_token r) (create_refresh_token env (clock db) (uid u) None))
    (user_sessions db) = false ->
  exists db',
    (UserRepository.update_last_login u ;;;
     toks <- AuthService.create_tokens_and_session env u dev ip ;;
     ret (mkTokenResponse (fst toks) (snd toks) is_new)) db
    = (inr (mkTokenResponse (create_access_token env (clock db) (uid u) None None)
                            (create_refresh_token env (clock db) (uid u) None) is_new), db') /\
    users db' = stamp_login (clock db) u (users db).
Proof.
  intros H. destruct db as [us aps ss ps ars lms las ulas c pool]. cbn in H.
  unfold UserRepository.update_last_login, AuthService.create_tokens_and_session,
    UserRepository.create_session, bind, now, query, modify, fresh_uuid, ret.
  cbn. rewrite H. eexists. split; reflexivity.
Qed.

Lemma In_stamp_login t (u : User) l :
  In u l -> In (mkUser (uid u) (email u) (password_hash u) (email_verified u) (is_active u) (Some t))
              (stamp_login t u l).
Proof.
  intros Hin. unfold stamp_login. apply in_map_iff. exists u. split; [| exact Hin].
  rewrite Z.eqb_refl. reflexivity.
Qed.

(** [google_login] for an account found by email, whatever its [is_active]. *)
Lemma google_login_inactive_ok (env : Env) (tok : string) (dev ip : option string)
    (db : DB) (gu : dict) (e s : string) (u : User) :
  verify_google_token env tok = inr gu ->
  dict_get_null gu "email" = JStr e -> e <> EmptyString ->
  dict_get_null gu "sub" = JStr s -> s <> EmptyString ->
  filter (fun v => String.eqb (email v) (py_lower e)) (users db) = [u] ->
  is_active u = false ->
  (length (filter (google_key s) (auth_providers db)) <= 1)%nat ->
  existsb (fun r => token_eqb (session_token r) (create_refresh_token env (clock db) (uid u) None))
    (user_sessions db) = false ->
  exists r db', AuthService.google_login env tok dev ip db = (inr r, db') /\
    access_token r = create_access_token env (clock db) (uid u) None None /\
    refresh_token r = create_refresh_token env (clock db) (uid u) None /\
    In (mkUser (uid u) (email u) (password_hash u) (email_verified u) false (Some (clock db)))
       (users db').
Proof.
  intros Hgu He Hne Hs Hsne Hem Hact Hap Hcoll.
  assert (Hu : In u (users db)) by (apply (filter_singleton_in _ _ _ Hem)).
  unfold AuthService.google_login.
  rewrite (bind_inr _ _ db gu db) by (unfold lift, query; rewrite Hgu; reflexivity).
  rewrite He, Hs. cbn [py_truthy].
  apply String.eqb_neq in Hne, Hsne. rewrite Hne, Hsne. cbn [negb orb].
  rewrite (bind_inr _ _ db e db) by reflexivity.
  rewrite (bind_inr _ _ db (Some u) db)
    by (unfold UserRepository.get_by_email, query; rewrite Hem; reflexivity).
  rewrite (bind_inr _ _ db s db) by reflexivity.
  destruct (filter (google_key s) (auth_providers db)) as [|a [|b l]] eqn:Hf;
    [| | cbn in Hap; lia].
  - set (db1 := set_auth_providers (set_uuid_pool db (uuid_pool db + 1))
          (auth_providers db ++ [mkAuthProvider (uuid_pool db) (uid u) "google" s
                                   (AuthService.google_provider_data gu)])).
    rewrite (bind_inr _ _ db (u, false) db1).
    2:{ rewrite (bind_inr _ _ db None db) by
          (unfold UserRepository.get_auth_provider, query; unfold google_key in Hf; rewrite Hf; reflexivity).
        reflexivity. }
    cbv beta iota.
    destruct (google_login_tail_ok env u false dev ip db1) as [db' [Hrun Husers]].
    { destruct db; exact Hcoll. }
    rewrite Hrun. do 2 eexists. split; [reflexivity |]. cbn.
    split; [destruct db; reflexivity | split; [destruct db; reflexivity |]].
    rewrite Husers. rewrite <- Hact. destruct db; apply In_stamp_login; exact Hu.
  - rewrite (bind_inr _ _ db (u, false) db).
    2:{ rewrite (bind_inr _ _ db (Some a) db) by
          (unfold UserRepository.get_auth_provider, query; unfold google_key in Hf; rewrite Hf; reflexivity).
        reflexivity. }
    cbv beta iota.
    destruct (google_login_tail_ok env u false dev ip db Hcoll) as [db' [Hrun Husers]].
    rewrite Hrun. do 2 eexists. split; [reflexivity |]. cbn.
    split; [reflexivity | split; [reflexivity |]].
    rewrite Husers. rewrite <- Hact. apply In_stamp_login; exact Hu.
Qed.

(** [login], [refresh_tokens] and [get_current_user] on a deactivated account. *)
Lemma deactivated_account_rejected (env : Env) (db : DB) (e : string) (u : User) :
  filter (fun v => String.eqb (email v) (py_lower e)) (users db) = [u] ->
  filter (fun v => Z.eqb (uid v) (uid u)) (users db) = [u] ->
  is_active u = false ->
  (forall pw dev ip, exists ex, AuthService.login env e pw dev ip db = (inl ex, db)) /\
  (forall tok p dev ip, decode_token env (clock db) tok = Some p ->
     UUID_of (dict_get_null p "sub") = inr (uid u) ->
     exists msg, AuthService.refresh_tokens env tok dev ip db = (inl (InvalidTokenError msg), db)) /\
  (forall tok p, decode_token env (clock db) tok = Some p ->
     UUID_of (dict_get_null p "sub") = inr (uid u) ->
     exists msg, AuthService.get_current_user env tok db = (inl (InvalidTokenError msg), db)).
Proof.
  intros Hem Hid Hact. split; [| split].
  - intros pw dev ip. unfold AuthService.login.
    rewrite (bind_inr _ _ db (Some u) db)
      by (unfold UserRepository.get_by_email, query; rewrite Hem; reflexivity).
    assert (Hrest : forall ok, exists ex,
      (if negb ok then raise invalid_credentials
       else if negb (is_active u) then raise (InvalidCredentialsError "Account is deactivated")
       else UserRepository.update_last_login u ;;;
            toks <- AuthService.create_tokens_and_session env u dev ip ;;
            ret (mkTokenResponse (fst toks) (snd toks) false)) db = (inl ex, db)).
    { intros [|]; cbn; rewrite ?Hact; cbn; eexists; reflexivity. }
    destruct (password_hash u) as [h|].
    + destruct (String.eqb h EmptyString).
      * rewrite (bind_inr _ _ db false db) by reflexivity. apply Hrest.
      * destruct (verify_password env pw h) as [ex|ok] eqn:Hv.
        -- exists ex. apply bind_inl. reflexivity.
        -- rewrite (bind_inr _ _ db ok db) by reflexivity.
           apply Hrest.
    + rewrite (bind_inr _ _ db false db) by reflexivity. apply Hrest.
  - intros tok p dev ip Hdec Hsub.
    unfold AuthService.refresh_tokens, bind, now, query, lift, UserRepository.get_by_id; cbn.
    rewrite Hdec. destruct p as [|kv p]; [eexists; reflexivity |].
    destruct (get_ne_str (kv :: p) "type" "refresh"); [eexists; reflexivity |].
    rewrite (UUID_of_truthy _ _ Hsub), Hsub. cbn. rewrite Hid. cbn. rewrite Hact.
    eexists; reflexivity.
  - intros tok p Hdec Hsub.
    unfold AuthService.get_current_user, bind, now, query, lift, UserRepository.get_by_id; cbn.
    rewrite Hdec. destruct p as [|kv p]; [eexists; reflexivity |].
    destruct (get_ne_str (kv :: p) "type" "access"); [eexists; reflexivity |].
    rewrite (UUID_of_truthy _ _ Hsub), Hsub. cbn. rewrite Hid. cbn. rewrite Hact.
    eexists; reflexivity.
Qed.

(** C10. [google_login] has no [is_active] check. Take an account [u] with
    [is_active u = false] that is the only account with the verified email
    and the only one with its id. Suppose at most one (google, subject) row
    exists and no session already holds the refresh token to be minted now.
    Then [google_login] succeeds. It returns the access and refresh tokens
    for [u] and sets [u]'s [last_login_at] to now. For the same account,
    [login] always raises; [refresh_tokens] and [get_current_user] raise
    [InvalidTokenError] for every decodable token whose subject is [u]'s id.
    None of these three changes the state. *)
Theorem google_login_skips_active_check (env : Env) (tok : string) (dev ip : option string)
    (db : DB) (gu : dict) (e s : string) (u : User) :
  verify_google_token env tok = inr gu ->
  dict_get_null gu "email" = JStr e -> e <> EmptyString ->
  dict_get_null gu "sub" = JStr s -> s <> EmptyString ->
  filter (fun v => String.eqb (email v) (py_lower e)) (users db) = [u] ->
  filter (fun v => Z.eqb (uid v) (uid u)) (users db) = [u] ->
  is_active u = false ->
  (length (filter (google_key s) (auth_providers db)) <= 1)%nat ->
  existsb (fun r => token_eqb (session_token r) (create_refresh_token env (clock db) (uid u) None))
    (user_sessions db) = false ->
  (exists r db', AuthService.google_login env tok dev ip db = (inr r, db') /\
    access_token r = create_access_token env (clock db) (uid u) None None /\
    refresh_token r = create_refresh_token env (clock db) (uid u) None /\
    In (mkUser (uid u) (email u) (password_hash u) (email_verified u) false (Some (clock db)))
       (users db')) /\
  (forall pw dev' ip', exists ex, AuthService.login env e pw dev' ip' db = (inl ex, db)) /\
  (forall tok' p dev' ip', decode_token env (clock db) tok' = Some p ->
     UUID_of (dict_get_null p "sub") = inr (uid u) ->
     exists msg, AuthService.refresh_tokens env tok' dev' ip' db = (inl (InvalidTokenError msg), db)) /\
  (forall tok' p, decode_token env (clock db) tok' = Some p ->
     UUID_of (dict_get_null p "sub") = inr (uid u) ->
     exists msg, AuthService.get_current_user env tok' db = (inl (InvalidTokenError msg), db)).
Proof.
  intros Hgu He Hne Hs Hsne Hem Hid Hact Hap Hcoll. split.
  - exact (google_login_inactive_ok env tok dev ip db gu e s u Hgu He Hne Hs Hsne Hem Hact Hap Hcoll).
  - exact (deactivated_account_rejected env db e u Hem Hid Hact).
Qed.

Lemma google_login_skips_active_check_witness :
  (exists r db', AuthService.google_login sample_env "g1" None None db_deactivated = (inr r, db')) /\
  (exists ex, AuthService.login sample_env "a@x.com" "pw" None None db_deactivated
              = (inl ex, db_deactivated)).
Proof.
  destruct (google_login_skips_active_check sample_env "g1" None None db_deactivated
              google_user_g1 "a@x.com" "g1" deactivated_user
              ltac:(vm_compute; reflexivity) ltac:(vm_compute; reflexivity) ltac:(discriminate)
              ltac:(vm_compute; reflexivity) ltac:(discriminate)
              ltac:(vm_compute; reflexivity) ltac:(vm_compute; reflexivity) ltac:(reflexivity)
              ltac:(vm_compute; lia) ltac:(vm_compute; reflexivity))
    as [[r [db' [Hrun _]]] [Hlogin _]].
  split; [exists r, db'; exact Hrun | apply Hlogin].
Defined.

(** ** [validate_password] *)

Lemma flat_map_nonempty {A B} (f : A -> list B) (l : list A) :
  flat_map f l <> [] <-> exists x, In x l /\ f x <> [].
Proof.
  induction l as [|a l IH]; cbn.
  - split; [intros H; congruence | intros [x [[] _]]].
  - split.
    + intros H. destruct (f a) eqn:Hfa.
      * cbn in H. apply IH in H as [x [Hx Hfx]]. eauto.
      * exists a. split; [left; reflexivity | rewrite Hfa; discriminate].
    + intros [x [[<- | Hx] Hfx]].
      * destruct (f a); [congruence | discriminate].
      * intros Happ. apply app_eq_nil in Happ as [_ Hl]. apply IH; eauto.
Qed.

Lemma newline_not_special : ~ In newline special_chars.
Proof. vm_compute. intuition discriminate. Qed.

Lemma atom_run_dot_prefix (s : list ascii) :
  forall k, (k < atom_run AnyButNewline s)%nat ->
  exists c, nth_error s k = Some c /\ c <> newline.
Proof.
  induction s as [|c s IH]; cbn [atom_run atom_matches]; intros k Hk; [lia |].
  destruct (negb (Ascii.eqb c newline)) eqn:Hc; [| lia].
  destruct k as [|k].
  - exists c. split; [reflexivity |]. intros ->. rewrite Ascii.eqb_refl in Hc. discriminate.
  - apply IH. lia.
Qed.

Lemma atom_run_dot_stop (s : list ascii) :
  nth_error s (atom_run AnyButNewline s) = None \/
  nth_error s (atom_run AnyButNewline s) = Some newline.
Proof.
  induction s as [|c s IH]; cbn [atom_run atom_matches]; [left; reflexivity |].
  destruct (Ascii.eqb c newline) eqn:Hc; cbn [negb nth_error].
  - right. apply Ascii.eqb_eq in Hc. subst. reflexivity.
  - exact IH.
Qed.

Lemma atom_run_le (a : re_atom) (s : list ascii) : (atom_run a s <= length s)%nat.
Proof.
  induction s as [|c s IH]; cbn [atom_run length]; [lia |].
  destruct (atom_matches a c); lia.
Qed.

Lemma atom_run_dot_app (L rest : list ascii) :
  ~ In newline L -> (rest = [] \/ exists t, rest = newline :: t) ->
  atom_run AnyButNewline (L ++ rest) = length L.
Proof.
  intros HL Hrest. induction L as [|c L IH]; cbn [atom_run atom_matches app length].
  - destruct Hrest as [-> | [t ->]]; cbn [atom_run atom_matches]; [reflexivity |]. rewrite Ascii.eqb_refl. reflexivity.
  - destruct (Ascii.eqb c newline) eqn:Hc.
    + apply Ascii.eqb_eq in Hc. subst. exfalso. apply HL. left. reflexivity.
    + cbn [negb]. rewrite IH; [reflexivity |]. intros H. apply HL. right. exact H.
Qed.

Lemma in_map_add_seq (i k start len : nat) :
  In k (map (fun j => (i + j)%nat) (seq start len)) <-> (i + start <= k < i + start + len)%nat.
Proof.
  rewrite in_map_iff. split.
  - intros [j [<- Hj]]. apply in_seq in Hj. lia.
  - intros Hk. exists (k - i)%nat. split; [lia |]. apply in_seq. lia.
Qed.

(** The lookahead [(?=.*[SPECIALS])] at the start. *)
Lemma lookahead_special (s : list ascii) :
  re_ends (RSeq (RStar AnyButNewline) (RAtom (OneOf special_chars))) s 0 <> [] <->
  exists k c, (k < atom_run AnyButNewline s)%nat /\ nth_error s k = Some c /\ In c special_chars.
Proof.
  cbn [re_ends]. rewrite flat_map_nonempty. split.
  - intros [k [Hk Hne]]. apply in_map_add_seq in Hk. cbn [skipn] in Hk.
    destruct (nth_error s k) as [c|] eqn:Hnth; [| congruence].
    destruct (atom_matches (OneOf special_chars) c) eqn:Hm; [| congruence].
    cbn [atom_matches] in Hm. apply existsb_exists in Hm as [d [Hd Hcd]]. apply Ascii.eqb_eq in Hcd. subst d.
    exists k, c. split; [| split; [exact Hnth | exact Hd]].
    destruct (Nat.eq_dec k (atom_run AnyButNewline s)) as [-> | Hneq]; [| lia].
    exfalso. destruct (atom_run_dot_stop s) as [H | H]; rewrite H in Hnth; [discriminate |].
    injection Hnth as <-. exact (newline_not_special Hd).
  - intros [k [c [Hk [Hnth Hc]]]]. exists k. split.
    + apply in_map_add_seq. cbn [skipn]. lia.
    + rewrite Hnth. cbn [atom_matches]. replace (existsb (Ascii.eqb c) special_chars) with true; [discriminate |].
      symmetry. apply existsb_exists. exists c. split; [exact Hc | apply Ascii.eqb_refl].
Qed.

(** [.{8,}$] from the start. *)
Lemma atleast8_end (s : list ascii) :
  re_ends (RSeq (RAtLeast 8 AnyButNewline) REnd) s 0 <> [] <->
  (8 <= atom_run AnyButNewline s)%nat /\
  (atom_run AnyButNewline s = length s \/
   (S (atom_run AnyButNewline s) = length s /\
    nth_error s (atom_run AnyButNewline s) = Some newline)).
Proof.
  cbn [re_ends skipn]. rewrite flat_map_nonempty.
  set (r := atom_run AnyButNewline s).
  assert (Hle : (r <= length s)%nat) by apply atom_run_le.
  split.
  - intros [j [Hj Hne]]. apply in_map_add_seq in Hj.
    destruct (Nat.eqb j (length s) || (Nat.eqb (S j) (length s) &&
              Ascii.eqb (nth j s newline) newline)) eqn:He; [| congruence].
    split; [lia |].
    apply orb_true_iff in He as [He | He].
    + apply Nat.eqb_eq in He. left. lia.
    + apply andb_true_iff in He as [Hsj Hn]. apply Nat.eqb_eq in Hsj.
      apply Ascii.eqb_eq in Hn.
      destruct (Nat.eq_dec j r) as [-> | Hjr].
      * right. split; [exact Hsj |]. rewrite (nth_error_nth' s newline) by lia. congruence.
      * exfalso. destruct (atom_run_dot_prefix s j) as [c [Hc Hcn]]; [fold r; lia |].
        apply Hcn. rewrite (nth_error_nth' s newline) in Hc by lia. congruence.
  - intros [H8 Hend]. exists r. split; [apply in_map_add_seq; lia |].
    destruct Hend as [Heq | [Hsr Hn]].
    + rewrite <- Heq, Nat.eqb_refl. discriminate.
    + rewrite Hsr, Nat.eqb_refl. erewrite nth_error_nth by exact Hn. rewrite Ascii.eqb_refl.
      rewrite orb_true_r. discriminate.
Qed.

Lemma re_ends_begin_lookahead (A B : regex) (s : list ascii) :
  re_ends (RSeq RBegin (RSeq (RLookahead A) B)) s 0 =
  match re_ends A s 0 with [] => [] | _ => re_ends B s 0 ++ [] end ++ [].
Proof. cbn [re_ends Nat.eqb flat_map]. destruct (re_ends A s 0); reflexivity. Qed.

Lemma length_list_ascii_of_string (p : string) :
  length (list_ascii_of_string p) = String.length p.
Proof. induction p as [|c p IH]; cbn; [reflexivity | rewrite IH; reflexivity]. Qed.

Lemma validate_password_accepts_iff (password : string) :
  validate_password password = (true, None) <->
  exists line,
    (list_ascii_of_string password = line \/ list_ascii_of_string password = line ++ [newline]) /\
    ~ In newline line /\ (8 <= length line)%nat /\
    exists c, In c line /\ In c special_chars.
Proof.
  unfold validate_password, re_match, PASSWORD_PATTERN.
  rewrite re_ends_begin_lookahead, <- length_list_ascii_of_string.
  set (s := list_ascii_of_string password).
  pose proof (lookahead_special s) as HL. pose proof (atleast8_end s) as HE.
  set (r := atom_run AnyButNewline s) in *.
  split.
  - destruct (length s <? 8)%nat eqn:Hlen; [discriminate |].
    destruct (re_ends (RSeq (RStar AnyButNewline) (RAtom (OneOf special_chars))) s 0)
      as [|x xs] eqn:Hla; [discriminate |].
    rewrite !app_nil_r.
    destruct (re_ends (RSeq (RAtLeast 8 AnyButNewline) REnd) s 0)
      as [|y ys] eqn:Hy; [discriminate |]. intros _.
    assert (Hla' : exists k c, (k < r)%nat /\ nth_error s k = Some c /\ In c special_chars)
      by (apply HL; discriminate).
    assert (Hy' : (8 <= r)%nat /\ (r = length s \/ (S r = length s /\ nth_error s r = Some newline)))
      by (apply HE; discriminate).
    clear HL HE Hla Hy.
    destruct Hla' as [k [c [Hk [Hkc Hc]]]]. destruct Hy' as [H8 Hend].
    exists (firstn r s). split; [| split; [| split]].
    + rewrite <- (firstn_skipn r s) at 1 3.
      destruct Hend as [Heq | [Hsr Hn]].
      * left. rewrite skipn_all2 by lia. apply app_nil_r.
      * right. f_equal.
        assert (Hsk : length (skipn r s) = 1%nat) by (rewrite length_skipn; lia).
        destruct (skipn r s) as [|z [|z' zs]] eqn:Hsk'; cbn in Hsk; try lia.
        rewrite <- (firstn_skipn r s), nth_error_app2, Hsk' in Hn
          by (rewrite length_firstn; lia).
        rewrite length_firstn, Nat.min_l, Nat.sub_diag in Hn by lia. cbn in Hn.
        injection Hn as ->. reflexivity.
    + intros Hin. apply In_nth_error in Hin as [j Hj].
      assert (Hjr : (j < r)%nat).
      { assert (Hj' : (j < length (firstn r s))%nat) by (apply nth_error_Some; congruence).
        rewrite length_firstn in Hj'. lia. }
      rewrite nth_error_firstn in Hj. destruct (j <? r)%nat; [| discriminate].
      destruct (atom_run_dot_prefix s j Hjr) as [c' [Hc' Hn']]. congruence.
    + rewrite length_firstn. lia.
    + exists c. split; [| exact Hc]. apply nth_error_In with k.
      rewrite nth_error_firstn. replace (k <? r)%nat with true by (symmetry; apply Nat.ltb_lt; lia).
      exact Hkc.
  - intros [line [Hs [Hnl [H8 [c [Hc Hsp]]]]]].
    assert (Hr : r = length line).
    { unfold r. destruct Hs as [-> | ->].
      - rewrite <- (app_nil_r line) at 1. apply atom_run_dot_app; auto.
      - apply atom_run_dot_app; eauto. }
    assert (Hlen : (length s <? 8)%nat = false).
    { apply Nat.ltb_ge. destruct Hs as [-> | ->]; [| rewrite length_app]; lia. }
    rewrite Hlen.
    destruct (In_nth_error line c Hc) as [k Hk].
    assert (Hkl : (k < length line)%nat) by (apply nth_error_Some; congruence).
    assert (Hla : re_ends (RSeq (RStar AnyButNewline) (RAtom (OneOf special_chars))) s 0 <> []).
    { apply HL. exists k, c. split; [lia | split; [| exact Hsp]].
      destruct Hs as [-> | ->]; [exact Hk | rewrite nth_error_app1 by lia; exact Hk]. }
    assert (Hy : re_ends (RSeq (RAtLeast 8 AnyButNewline) REnd) s 0 <> []).
    { apply HE. split; [lia |]. destruct Hs as [-> | ->].
      - left. exact Hr.
      - right. rewrite length_app. cbn. split; [lia |].
        rewrite nth_error_app2 by lia. rewrite Hr, Nat.sub_diag. reflexivity. }
    destruct (re_ends (RSeq (RStar AnyButNewline) (RAtom (OneOf special_chars))) s 0);
      [congruence |].
    rewrite !app_nil_r.
    destruct (re_ends (RSeq (RAtLeast 8 AnyButNewline) REnd) s 0); [congruence |].
    reflexivity.
Qed.

(** ** [UUID(str(u)) == u] *)

Lemma hex_digit_spec (n : Z) :
  0 <= n < 16 -> In (hex_digit n) hex_chars /\ hex_value (hex_digit n) = Some n.
Proof.
  intros Hn. rewrite <- (Z2Nat.id n) by lia.
  assert (Hk : (Z.to_nat n < 16)%nat) by lia.
  generalize (Z.to_nat n) Hk. clear Hn Hk. intros k Hk.
  do 16 (destruct k as [|k];
         [vm_compute; intuition discriminate | apply Nat.succ_lt_mono in Hk]).
  lia.
Qed.

Lemma hex_nibble_range (u : Z) (k : nat) :
  0 <= Z.land (Z.shiftr u (4 * Z.of_nat k)) 15 < 16.
Proof.
  change 15 with (Z.ones 4). rewrite Z.land_ones by lia.
  apply Z.mod_pos_bound. lia.
Qed.

Lemma hex_digits_chars (k : nat) (u : Z) : forall c, In c (hex_digits k u) -> In c hex_chars.
Proof.
  induction k as [|k IH]; cbn; intros c Hc; [destruct Hc |].
  destruct Hc as [<- | Hc]; [apply hex_digit_spec, hex_nibble_range | apply IH; exact Hc].
Qed.

Lemma insert_hyphens_chars (i : nat) (l : list ascii) :
  forall c, In c (insert_hyphens i l) -> c = "-"%char \/ In c l.
Proof.
  revert i. induction l as [|d l IH]; cbn; intros i c Hc; [destruct Hc |].
  assert (Hrest : In c (d :: insert_hyphens (S i) l) -> c = "-"%char \/ d = c \/ In c l).
  { intros [<- | H]; [right; left; reflexivity |].
    destruct (IH (S i) c H); auto. }
  destruct (_ || _)%bool; [destruct Hc as [<- | Hc]; [left; reflexivity |] |]; apply Hrest in Hc;
    intuition.
Qed.

Lemma insert_hyphens_filter (i : nat) (l : list ascii) :
  filter not_hyphen (insert_hyphens i l) = filter not_hyphen l.
Proof.
  revert i. induction l as [|d l IH]; intros i; [reflexivity |]. cbn [insert_hyphens].
  destruct (_ || _)%bool; cbn [filter]; [cbn [not_hyphen Ascii.eqb negb] |]; rewrite IH; reflexivity.
Qed.

Lemma filter_all_true {A} (f : A -> bool) (l : list A) :
  (forall x, In x l -> f x = true) -> filter f l = l.
Proof.
  induction l as [|a l IH]; intros H; [reflexivity |]. cbn.
  rewrite (H a (or_introl eq_refl)), IH; [reflexivity |]. intros x Hx. apply H. right. exact Hx.
Qed.

Lemma hex_chars_not_hyphen (c : ascii) : In c hex_chars -> not_hyphen c = true.
Proof. intros H. repeat (destruct H as [<- | H]; [reflexivity |]). destruct H. Qed.

(** [s.replace(pat, rep)] leaves [s] alone when the first character of
    [pat] never occurs in it. *)
Lemma str_replace_fuel_absent (f : nat) (c0 : ascii) (p rep s : string) :
  (forall c, In c (list_ascii_of_string s) -> c <> c0) ->
  str_replace_fuel f (String c0 p) rep s = s.
Proof.
  revert s. induction f as [|f IH]; intros s Hs; [reflexivity |].
  destruct s as [|c s]; [reflexivity |]. cbn [str_replace_fuel prefix].
  destruct (ascii_dec c0 c) as [-> | _].
  - exfalso. apply (Hs c); [left; reflexivity | reflexivity].
  - rewrite IH; [reflexivity |]. intros d Hd. apply Hs. right. exact Hd.
Qed.

Lemma substring_0_length (s : string) : substring 0 (String.length s) s = s.
Proof. induction s as [|c s IH]; cbn; [reflexivity | rewrite IH; reflexivity]. Qed.

Lemma str_replace_fuel_hyphen (f : nat) (s : string) :
  (String.length s < f)%nat ->
  str_replace_fuel f "-" EmptyString s =
  string_of_list_ascii (filter not_hyphen (list_ascii_of_string s)).
Proof.
  revert f. induction s as [|c s IH]; intros f Hf; destruct f as [|f]; cbn in Hf; try lia;
    [reflexivity |].
  cbn [str_replace_fuel prefix list_ascii_of_string filter].
  unfold not_hyphen at 1.
  destruct (ascii_dec "-" c) as [<- | Hne].
  - replace (substring (String.length "-") (String.length (String "-" s) - String.length "-")
               (String "-" s)) with s
      by (cbn; rewrite Nat.sub_0_r, substring_0_length; reflexivity).
    rewrite (IH f) by lia. destruct s; reflexivity.
  - replace (Ascii.eqb c "-") with false
      by (symmetry; apply Ascii.eqb_neq; intros ->; apply Hne; reflexivity).
    cbn [negb string_of_list_ascii]. rewrite (IH f) by lia. reflexivity.
Qed.

Lemma drop_while_in_none (cs : string) (l : list ascii) :
  (forall c, In c l -> in_chars cs c = false) -> drop_while_in cs l = l.
Proof.
  destruct l as [|c l]; intros H; [reflexivity |]. cbn. rewrite (H c (or_introl eq_refl)).
  reflexivity.
Qed.

Lemma hex_to_Z_digits (k : nat) (u acc : Z) :
  hex_to_Z acc (hex_digits k u) = Some (acc * 16 ^ Z.of_nat k + u mod 16 ^ Z.of_nat k).
Proof.
  revert acc. induction k as [|k IH]; intros acc.
  - cbn. rewrite Z.mod_1_r. f_equal. lia.
  - cbn [hex_digits hex_to_Z].
    rewrite (proj2 (hex_digit_spec _ (hex_nibble_range u k))), IH. f_equal.
    change 15 with (Z.ones 4). rewrite Z.land_ones, Z.shiftr_div_pow2 by lia.
    replace (2 ^ (4 * Z.of_nat k)) with (16 ^ Z.of_nat k)
      by (rewrite Z.pow_mul_r by lia; reflexivity).
    replace (16 ^ Z.of_nat (S k)) with (16 ^ Z.of_nat k * 16)
      by (rewrite Nat2Z.inj_succ, Z.pow_succ_r by lia; ring).
    rewrite (Z.rem_mul_r u (16 ^ Z.of_nat k) 16) by (try apply Z.pow_nonzero; lia).
    change (2 ^ 4) with 16.
    ring.
Qed.

Lemma length_hex_digits (k : nat) (u : Z) : length (hex_digits k u) = k.
Proof. induction k as [|k IH]; cbn; [reflexivity | rewrite IH; reflexivity]. Qed.

Lemma hex_char_facts (c : ascii) :
  In c hex_chars ->
  int_isspace c = false /\ Ascii.eqb c "+" = false /\ Ascii.eqb c "-" = false /\
  Ascii.eqb c "x" = false /\ Ascii.eqb c "X" = false /\ Ascii.eqb c "_" = false /\
  is_hex_or_us c = true.
Proof.
  intros H. repeat (destruct H as [<- | H]; [vm_compute; repeat split; reflexivity |]).
  destruct H.
Qed.

Lemma span_hex_all (l : list ascii) :
  (forall c, In c l -> is_hex_or_us c = true) -> span_hex l = (l, []).
Proof.
  induction l as [|c l IH]; intros H; [reflexivity |]. cbn.
  rewrite (H c (or_introl eq_refl)), IH; [reflexivity |].
  intros d Hd. apply H. right. exact Hd.
Qed.

Lemma underscores_ok_none (l : list ascii) :
  (forall c, In c l -> Ascii.eqb c "_" = false) -> underscores_ok false l = true.
Proof.
  induction l as [|c l IH]; intros H; [reflexivity |]. cbn.
  rewrite (H c (or_introl eq_refl)). apply IH. intros d Hd. apply H. right. exact Hd.
Qed.

(** [int(s, 16)] of plain lowercase hex digits is their value. *)
Lemma py_int16_plain (l : list ascii) :
  l <> [] -> (forall c, In c l -> In c hex_chars) ->
  py_int16 (string_of_list_ascii l) = hex_to_Z 0 l.
Proof.
  intros Hne Hl. unfold py_int16. rewrite list_ascii_of_string_of_list_ascii.
  destruct l as [|c l]; [contradiction |].
  destruct (hex_char_facts c (Hl c (or_introl eq_refl))) as (Hs & Hp & Hm & _ & _ & Hu & _).
  cbn [skip_int_space]. rewrite Hs. cbn [take_sign]. rewrite Hp, Hm.
  assert (Hdp : drop_hex_prefix (c :: l) = c :: l).
  { destruct l as [|d l]; [reflexivity |]. cbn [drop_hex_prefix].
    destruct (hex_char_facts d (Hl d (or_intror (or_introl eq_refl))))
      as (_ & _ & _ & Hx & HX & _).
    rewrite Hx, HX, andb_false_r. reflexivity. }
  cbv beta iota. rewrite Hdp. cbv beta iota. rewrite Hu.
  rewrite span_hex_all by (intros d Hd; apply hex_char_facts, Hl, Hd).
  cbv beta iota.
  rewrite underscores_ok_none by (intros d Hd; apply hex_char_facts, Hl, Hd).
  cbn [forallb andb].
  rewrite filter_all_true
    by (intros d Hd; apply negb_true_iff, hex_char_facts, Hl, Hd).
  destruct (hex_to_Z 0 (c :: l)) as [z|]; cbn [option_map]; [rewrite Z.mul_1_l |];
    reflexivity.
Qed.

Lemma UUID_parse_hyphenated (l : list ascii) (u : Z) :
  0 <= u < 2 ^ 128 ->
  (forall c, In c l -> c = "-"%char \/ In c hex_chars) ->
  filter not_hyphen l = hex_digits 32 u ->
  UUID_parse (string_of_list_ascii l) = inr u.
Proof.
  intros Hu Hl Hf. unfold UUID_parse, str_replace.
  assert (Hu_ : forall c, In c (list_ascii_of_string (string_of_list_ascii l)) -> c <> "u"%char).
  { rewrite list_ascii_of_string_of_list_ascii. intros c Hc ->.
    destruct (Hl _ Hc) as [H | H]; [discriminate |].
    repeat (destruct H as [H | H]; [discriminate |]). destruct H. }
  rewrite (str_replace_fuel_absent _ "u" "rn:") by exact Hu_.
  rewrite (str_replace_fuel_absent _ "u" "uid:") by exact Hu_.
  unfold str_strip. rewrite list_ascii_of_string_of_list_ascii.
  assert (Hnb : forall c, In c l -> in_chars "{}" c = false).
  { intros c Hc. destruct (Hl _ Hc) as [-> | H]; [reflexivity |].
    repeat (destruct H as [<- | H]; [reflexivity |]). destruct H. }
  rewrite (drop_while_in_none _ l Hnb), (drop_while_in_none _ (rev l))
    by (intros c Hc; apply Hnb, in_rev; exact Hc).
  rewrite rev_involutive, str_replace_fuel_hyphen by lia.
  rewrite list_ascii_of_string_of_list_ascii, Hf.
  rewrite <- length_list_ascii_of_string, list_ascii_of_string_of_list_ascii, length_hex_digits.
  cbn [Nat.eqb negb].
  rewrite py_int16_plain
    by first [rewrite <- length_zero_iff_nil, length_hex_digits; discriminate
             | apply hex_digits_chars].
  rewrite hex_to_Z_digits.
  replace (0 * 16 ^ Z.of_nat 32 + u mod 16 ^ Z.of_nat 32) with u
    by (change (16 ^ Z.of_nat 32) with (2 ^ 128); rewrite Z.mod_small by lia; lia).
  replace ((0 <=? u) && (u <? 2 ^ 128)) with true
    by (symmetry; apply andb_true_iff; split; [apply Z.leb_le | apply Z.ltb_lt]; lia).
  reflexivity.
Qed.

Lemma UUID_parse_uuid_str (u : Z) :
  0 <= u < 2 ^ 128 -> UUID_parse (uuid_str u) = inr u.
Proof.
  intros Hu. unfold uuid_str. apply UUID_parse_hyphenated; [exact Hu | |].
  - intros c Hc. destruct (insert_hyphens_chars 0 _ c Hc) as [H | H]; [left | right];
      [exact H | apply (hex_digits_chars 32 u c H)].
  - rewrite insert_hyphens_filter.
    apply filter_all_true. intros c Hc. apply hex_chars_not_hyphen, (hex_digits_chars 32 u c Hc).
Qed.

(** ** Issued tokens, read back at any later time *)

(** [jwt.decode] of the claims the service signs: accepted exactly while the
    current second is not past the [exp] second. *)
Lemma decode_issued_at (env : Env) (t1 expire : Z) (sub typ : string) :
  decode_token env t1
    (jwt_encode env [("sub", JStr sub); ("exp", JDatetime expire); ("type", JStr typ)]%string
       (JWT_SECRET_KEY env) (JWT_ALGORITHM env))
  = if timegm t1 <=? timegm expire
    then Some [("sub", JStr sub); ("exp", JInt (timegm expire)); ("type", JStr typ)]%string
    else None.
Proof.
  unfold decode_token, jwt_decode, jwt_encode. cbn.
  rewrite String.eqb_refl, String.eqb_refl. cbn.
  unfold validate_claims. cbn.
  destruct (timegm t1 <=? timegm expire); reflexivity.
Qed.

Lemma UUID_of_uuid_str (u : Z) : 0 <= u < 2 ^ 128 -> UUID_of (JStr (uuid_str u)) = inr u.
Proof. intros Hu. cbn [UUID_of]. rewrite UUID_parse_uuid_str by exact Hu. reflexivity. Qed.

Lemma uuid_str_truthy (u : Z) : py_truthy (JStr (uuid_str u)) = true.
Proof. reflexivity. Qed.

(** X1: [validate_password] has three outcomes. A password shorter than 8
    characters gets the length message; a longer one gets either the
    special-character message or acceptance; and it is accepted exactly
    when its first line has at least 8 characters, one of them in the
    special class, and the line is followed by nothing or by one final
    newline. *)
Theorem validate_password_outcomes (password : string) :
  ((String.length password < 8)%nat ->
   validate_password password = (false, Some msg_too_short)) /\
  ((8 <= String.length password)%nat ->
   validate_password password = (false, Some msg_no_special) \/
   validate_password password = (true, None)) /\
  (validate_password password = (true, None) <->
   exists line,
     (list_ascii_of_string password = line \/
      list_ascii_of_string password = line ++ [newline]) /\
     ~ In newline line /\ (8 <= length line)%nat /\
     exists c, In c line /\ In c special_chars).
Proof.
  split; [| split].
  - intros H. unfold validate_password. apply Nat.ltb_lt in H. rewrite H. reflexivity.
  - intros H. unfold validate_password. apply Nat.ltb_ge in H. rewrite H.
    destruct (re_match PASSWORD_PATTERN password); [right | left]; reflexivity.
  - apply validate_password_accepts_iff.
Qed.

(** A password with a trailing newline is accepted, its first line being
    8 characters long with a special character. *)
Lemma validate_password_outcomes_witness :
  validate_password ("abcdefg!" ++ String newline EmptyString) = (true, None) /\
  exists line,
    (list_ascii_of_string ("abcdefg!" ++ String newline EmptyString) = line \/
     list_ascii_of_string ("abcdefg!" ++ String newline EmptyString) = line ++ [newline]) /\
    ~ In newline line /\ (8 <= length line)%nat /\
    exists c, In c line /\ In c special_chars.
Proof.
  assert (H : validate_password ("abcdefg!" ++ String newline EmptyString) = (true, None))
    by (vm_compute; reflexivity).
  split; [exact H |].
  exact (proj1 (proj2 (proj2 (validate_password_outcomes
                                ("abcdefg!" ++ String newline EmptyString)))) H).
Defined.

(** X2: [get_token_subject] on a token the service issued gives back
    [str(subject)] until the end of the second in which the token expires,
    and [None] afterwards, for access and refresh tokens alike (the [type]
    claim is not looked at). *)
Theorem get_token_subject_issued (env : Env) (subject t0 t1 : Z) :
  get_token_subject env t1 (create_access_token env t0 subject None None)
  = (if timegm t1 <=? timegm (t0 + minutes (ACCESS_TOKEN_EXPIRE_MINUTES env))
     then Some (JStr (uuid_str subject)) else None) /\
  get_token_subject env t1 (create_refresh_token env t0 subject None)
  = (if timegm t1 <=? timegm (t0 + days (REFRESH_TOKEN_EXPIRE_DAYS env))
     then Some (JStr (uuid_str subject)) else None).
Proof.
  unfold get_token_subject, create_access_token, create_refresh_token, expiry.
  split; rewrite decode_issued_at; destruct (_ <=? _); reflexivity.
Qed.

Lemma get_current_user_on_issued (env : Env) (u : User) (t0 : Z) (db : DB) :
  0 <= uid u < 2 ^ 128 ->
  filter (fun a => Z.eqb (uid a) (uid u)) (users db) = [u] ->
  timegm (clock db) <= timegm (t0 + minutes (ACCESS_TOKEN_EXPIRE_MINUTES env)) ->
  AuthService.get_current_user env (create_access_token env t0 (uid u) None None) db
  = (if is_active u then inr u else inl (InvalidTokenError "Account is deactivated"), db).
Proof.
  intros Hu Hf Ht.
  unfold AuthService.get_current_user, bind, now, query, lift, UserRepository.get_by_id.
  cbn beta iota.
  unfold create_access_token, expiry. rewrite decode_issued_at.
  apply Z.leb_le in Ht. rewrite Ht.
  generalize (UUID_of_uuid_str (uid u) Hu). generalize (uuid_str (uid u)). intros s Hs.
  assert (Ht' : py_truthy (JStr s) = true) by (apply (UUID_of_truthy _ (uid u)); exact Hs).
  cbn [dict_get_null dict_get get_ne_str String.eqb Ascii.eqb Bool.eqb andb negb
       option_map].
  rewrite Ht', Hs. cbn [negb query]. rewrite Hf. cbn.
  destruct (is_active u); reflexivity.
Qed.

(** X3: an access token issued for an account that is in the table is
    accepted by [get_current_user] until the end of its expiry second,
    whoever issued it and whenever: the result is the account when it is
    active and [InvalidTokenError "Account is deactivated"] otherwise,
    and the state is unchanged. *)
Theorem get_current_user_issued_token (env : Env) (u : User) (t0 : Z) (db : DB) :
  0 <= uid u < 2 ^ 128 ->
  filter (fun a => Z.eqb (uid a) (uid u)) (users db) = [u] ->
  timegm (clock db) <= timegm (t0 + minutes (ACCESS_TOKEN_EXPIRE_MINUTES env)) ->
  AuthService.get_current_user env (create_access_token env t0 (uid u) None None) db
  = (if is_active u then inr u else inl (InvalidTokenError "Account is deactivated"), db).
Proof. exact (get_current_user_on_issued env u t0 db). Qed.

Lemma get_current_user_issued_token_witness :
  AuthService.get_current_user sample_env
    (create_access_token sample_env t_sample 1 None None) db_accounts
  = (inr sample_user, db_accounts).
Proof.
  exact (get_current_user_issued_token sample_env sample_user t_sample db_accounts
           ltac:(cbn; lia) ltac:(vm_compute; reflexivity)
           ltac:(vm_compute; discriminate)).
Defined.

(** X4: a refresh token issued for an active account in the table is
    accepted by [refresh_tokens] until the end of its expiry second, as
    long as the new refresh token is not already a session token. The
    result is a fresh access and refresh token pair with
    [is_new_user = false]. A new session row is appended and the row of
    the presented token stays: refresh tokens are not rotated. *)
Theorem refresh_tokens_issued_token (env : Env) (u : User) (t0 : Z)
    (dev ip : option string) (db : DB) :
  0 <= uid u < 2 ^ 128 ->
  filter (fun a => Z.eqb (uid a) (uid u)) (users db) = [u] ->
  is_active u = true ->
  timegm (clock db) <= timegm (t0 + days (REFRESH_TOKEN_EXPIRE_DAYS env)) ->
  existsb (fun r => token_eqb (session_token r) (create_refresh_token env (clock db) (uid u) None))
    (user_sessions db) = false ->
  AuthService.refresh_tokens env (create_refresh_token env t0 (uid u) None) dev ip db
  = (inr (mkTokenResponse (create_access_token env (clock db) (uid u) None None)
                          (create_refresh_token env (clock db) (uid u) None) false),
     set_user_sessions (set_uuid_pool db (uuid_pool db + 1))
       (user_sessions db ++
        [mkSession (uuid_pool db) (uid u) (create_refresh_token env (clock db) (uid u) None)
           dev ip (clock db + days (REFRESH_TOKEN_EXPIRE_DAYS env)) (clock db)])).
Proof.
  intros Hu Hf Ha Ht Hsess.
  unfold AuthService.refresh_tokens, bind, now, query, lift, UserRepository.get_by_id.
  cbn beta iota.
  unfold create_refresh_token at 1. unfold expiry. rewrite decode_issued_at.
  apply Z.leb_le in Ht. rewrite Ht.
  generalize (UUID_of_uuid_str (uid u) Hu). generalize (uuid_str (uid u)). intros s Hs.
  assert (Ht' : py_truthy (JStr s) = true) by (apply (UUID_of_truthy _ (uid u)); exact Hs).
  cbn [dict_get_null dict_get get_ne_str String.eqb Ascii.eqb Bool.eqb andb negb
       option_map].
  rewrite Ht', Hs. cbn [negb query]. rewrite Hf. cbn. rewrite Ha.
  unfold AuthService.create_tokens_and_session, UserRepository.create_session,
    bind, now, query, fresh_uuid, ret.
  destruct db as [us aps ss ps ars lms las ulas c pool]. cbn in Hsess |- *.
  rewrite Hsess. reflexivity.
Qed.

Lemma refresh_tokens_issued_token_witness :
  AuthService.refresh_tokens sample_env (create_refresh_token sample_env t_sample 1 None)
    None None db_accounts
  = (inr (mkTokenResponse (create_access_token sample_env t_sample 1 None None)
                          (create_refresh_token sample_env t_sample 1 None) false),
     set_user_sessions (set_uuid_pool db_accounts 11)
       [mkSession 10 1 (create_refresh_token sample_env t_sample 1 None)
          None None (t_sample + days (REFRESH_TOKEN_EXPIRE_DAYS sample_env)) t_sample]).
Proof.
  exact (refresh_tokens_issued_token sample_env sample_user t_sample None None db_accounts
           ltac:(cbn; lia) ltac:(vm_compute; reflexivity)
           ltac:(reflexivity) ltac:(vm_compute; discriminate) ltac:(vm_compute; reflexivity)).
Defined.

(** ** Ending sessions does not touch the tokens *)

Lemma existsb_incl {A} (f : A -> bool) (l l' : list A) :
  incl l l' -> existsb f l' = false -> existsb f l = false.
Proof.
  intros Hi H. apply existsb_none. intros x Hx.
  destruct (f x) eqn:Hf; [| reflexivity].
  rewrite <- H. symmetry. apply existsb_exists. exists x. split; [apply Hi; exact Hx | exact Hf].
Qed.

(** [logout] and [logout_all] only ever drop session rows. *)
Lemma logout_drops_sessions (tok : Token) (db : DB) :
  exists l, snd (AuthService.logout tok db) = set_user_sessions db l /\ incl l (user_sessions db).
Proof.
  unfold AuthService.logout, UserRepository.get_session_by_token, bind, query.
  destruct (scalar_one_or_none _) as [e | [s|]].
  - exists (user_sessions db). split; [symmetry; apply set_user_sessions_same | apply incl_refl].
  - unfold UserRepository.delete_session, modify. cbn.
    eexists. split; [reflexivity |]. intros x Hx. apply filter_In in Hx. apply Hx.
  - exists (user_sessions db). split; [symmetry; apply set_user_sessions_same | apply incl_refl].
Qed.

Lemma logout_all_drops_sessions (user_id : Z) (db : DB) :
  exists l, snd (AuthService.logout_all user_id db) = set_user_sessions db l /\
            incl l (user_sessions db).
Proof.
  unfold AuthService.logout_all, UserRepository.delete_all_user_sessions, modify. cbn.
  eexists. split; [reflexivity |]. intros x Hx. apply filter_In in Hx. apply Hx.
Qed.

Lemma refresh_tokens_fewer_sessions (env : Env) (tok : Token) (dev ip : option string)
    (db : DB) (l : list UserSession) r db' :
  AuthService.refresh_tokens env tok dev ip db = (inr r, db') ->
  incl l (user_sessions db) ->
  fst (AuthService.refresh_tokens env tok dev ip (set_user_sessions db l)) = inr r.
Proof.
  intros H Hl. destruct db as [us aps ss ps ars lms las ulas c pool]. cbn in Hl.
  cbv [AuthService.refresh_tokens AuthService.create_tokens_and_session
    UserRepository.create_session UserRepository.get_by_id
    bind now query lift fresh_uuid ret raise
    set_user_sessions set_uuid_pool users user_sessions clock uuid_pool] in *.
  destruct (decode_token env c tok) as [p|]; [| discriminate].
  destruct p as [|kv p0]; [discriminate |]. remember (kv :: p0) as p eqn:Ep.
  destruct (get_ne_str p "type" "refresh"); [discriminate |].
  destruct (negb (py_truthy (dict_get_null p "sub"))); [discriminate |].
  destruct (UUID_of (dict_get_null p "sub")) as [e | v]; [discriminate |].
  destruct (scalar_one_or_none (filter (fun u => Z.eqb (uid u) v) us)) as [e | [usr|]];
    [discriminate | | discriminate].
  destruct (is_active usr); [| discriminate].
  match type of H with context [if existsb ?f ss then _ else _] =>
    destruct (existsb f ss) eqn:Hex; [discriminate |];
    rewrite (existsb_incl f l ss Hl Hex) end.
  injection H as <- _. reflexivity.
Qed.

Lemma get_current_user_sessions (env : Env) (tok : Token) (db : DB) (l : list UserSession) :
  AuthService.get_current_user env tok (set_user_sessions db l)
  = (fst (AuthService.get_current_user env tok db), set_user_sessions db l).
Proof.
  destruct db as [us aps ss ps ars lms las ulas c pool].
  cbv [AuthService.get_current_user UserRepository.get_by_id
    bind now query lift ret raise set_user_sessions users user_sessions clock].
  destruct (decode_token env c tok) as [p|]; [| reflexivity].
  destruct p as [|kv p0]; [reflexivity |]. remember (kv :: p0) as p eqn:Ep.
  destruct (get_ne_str p "type" "access"); [reflexivity |].
  destruct (negb (py_truthy (dict_get_null p "sub"))); [reflexivity |].
  destruct (UUID_of (dict_get_null p "sub")) as [e | v]; [reflexivity |].
  destruct (scalar_one_or_none (filter (fun u => Z.eqb (uid u) v) us)) as [e | [usr|]];
    [reflexivity | | reflexivity].
  destruct (negb (is_active usr)); reflexivity.
Qed.

(** X5: logging out does not revoke tokens. A refresh token that
    [refresh_tokens] accepts is still accepted, with the same new token
    pair, after [logout] of any token or [logout_all] of any account; and
    [get_current_user] gives the same answer for every token before and
    after. The session table is read only to refuse a duplicate session
    token. *)
Theorem logout_does_not_revoke (env : Env) (tok tok' : Token) (user_id : Z)
    (dev ip : option string) (db : DB) r db' :
  AuthService.refresh_tokens env tok dev ip db = (inr r, db') ->
  fst (AuthService.refresh_tokens env tok dev ip (snd (AuthService.logout tok' db))) = inr r /\
  fst (AuthService.refresh_tokens env tok dev ip (snd (AuthService.logout_all user_id db)))
  = inr r /\
  (forall tok2,
     fst (AuthService.get_current_user env tok2 (snd (AuthService.logout tok' db)))
     = fst (AuthService.get_current_user env tok2 db) /\
     fst (AuthService.get_current_user env tok2 (snd (AuthService.logout_all user_id db)))
     = fst (AuthService.get_current_user env tok2 db)).
Proof.
  intros H.
  destruct (logout_drops_sessions tok' db) as [l1 [E1 I1]].
  destruct (logout_all_drops_sessions user_id db) as [l2 [E2 I2]].
  rewrite E1, E2. split; [| split].
  - exact (refresh_tokens_fewer_sessions env tok dev ip db l1 r db' H I1).
  - exact (refresh_tokens_fewer_sessions env tok dev ip db l2 r db' H I2).
  - intros tok2. rewrite !get_current_user_sessions. split; reflexivity.
Qed.

(** ** The [Authorization] header dependency *)

Lemma get_current_user_state (env : Env) (tok : Token) (db : DB) :
  snd (AuthService.get_current_user env tok db) = db.
Proof.
  cbv [AuthService.get_current_user UserRepository.get_by_id bind now query lift ret raise].
  destruct (decode_token env (clock db) tok) as [p|]; [| reflexivity].
  destruct p as [|kv p0]; [reflexivity |]. remember (kv :: p0) as p eqn:Ep.
  destruct (get_ne_str p "type" "access"); [reflexivity |].
  destruct (negb (py_truthy (dict_get_null p "sub"))); [reflexivity |].
  destruct (UUID_of (dict_get_null p "sub")) as [e | v]; [reflexivity |].
  destruct (scalar_one_or_none (filter (fun u => Z.eqb (uid u) v) (users db)))
    as [e | [usr|]]; [reflexivity | | reflexivity].
  destruct (negb (is_active usr)); reflexivity.
Qed.

Lemma py_split_aux_word (cur w rest : list ascii) :
  (forall c, In c w -> py_isspace c = false) ->
  py_split_aux cur (w ++ rest) = py_split_aux (rev w ++ cur) rest.
Proof.
  revert cur. induction w as [|c w IH]; intros cur Hw; [reflexivity |].
  cbn [app py_split_aux]. rewrite (Hw c (or_introl eq_refl)), IH.
  - cbn. rewrite <- app_assoc. reflexivity.
  - intros d Hd. apply Hw. right. exact Hd.
Qed.

Lemma list_ascii_of_string_app (s t : string) :
  list_ascii_of_string (s ++ t) = list_ascii_of_string s ++ list_ascii_of_string t.
Proof. induction s as [|c s IH]; cbn; [reflexivity | rewrite IH; reflexivity]. Qed.

(** [f"{scheme} {token}".split()] is [[scheme, token]] for two words. *)
Lemma py_split_two_words (scheme token : string) :
  no_space scheme -> no_space token ->
  py_split (scheme ++ String " " token) = [scheme; token].
Proof.
  intros [Hs0 Hs] [Ht0 Ht]. unfold py_split.
  rewrite list_ascii_of_string_app. cbn [list_ascii_of_string].
  rewrite py_split_aux_word by exact Hs. rewrite app_nil_r.
  destruct scheme as [|c0 scheme]; [contradiction |].
  cbn [list_ascii_of_string rev]. cbn [py_split_aux].
  replace (py_isspace " ") with true by reflexivity.
  destruct (rev (list_ascii_of_string scheme) ++ [c0]) as [|x xs] eqn:Hr.
  - destruct (rev (list_ascii_of_string scheme)); discriminate.
  - rewrite <- Hr, rev_app_distr, rev_involutive. cbn [rev app].
    change (c0 :: list_ascii_of_string scheme) with (list_ascii_of_string (String c0 scheme)).
    rewrite string_of_list_ascii_of_string. f_equal.
    rewrite <- (app_nil_r (list_ascii_of_string token)).
    rewrite py_split_aux_word by exact Ht. rewrite app_nil_r.
    destruct token as [|d0 token]; [contradiction |].
    cbn [list_ascii_of_string rev py_split_aux].
    destruct (rev (list_ascii_of_string token) ++ [d0]) as [|y ys] eqn:Hr'.
    + destruct (rev (list_ascii_of_string token)); discriminate.
    + rewrite <- Hr', rev_app_distr, rev_involutive. cbn [rev app].
      change (d0 :: list_ascii_of_string token) with (list_ascii_of_string (String d0 token)).
      rewrite string_of_list_ascii_of_string. reflexivity.
Qed.

Lemma get_current_user_inr (env : Env) (tok : Token) (db : DB) (u : User) db' :
  AuthService.get_current_user env tok db = (inr u, db') ->
  In u (users db) /\ is_active u = true.
Proof.
  cbv [AuthService.get_current_user UserRepository.get_by_id bind now query lift ret raise].
  destruct (decode_token env (clock db) tok) as [p|]; [| discriminate].
  destruct p as [|kv p0]; [discriminate |]. remember (kv :: p0) as p eqn:Ep.
  destruct (get_ne_str p "type" "access"); [discriminate |].
  destruct (negb (py_truthy (dict_get_null p "sub"))); [discriminate |].
  destruct (UUID_of (dict_get_null p "sub")) as [e | v]; [discriminate |].
  destruct (scalar_one_or_none (filter (fun u => Z.eqb (uid u) v) (users db)))
    as [e | [usr|]] eqn:Hs; [discriminate | | discriminate].
  apply scalar_some in Hs.
  destruct (is_active usr) eqn:Ha; cbn; [| discriminate].
  intros H. injection H as <- _. split; [| exact Ha].
  assert (Hin : In usr (filter (fun u => Z.eqb (uid u) v) (users db)))
    by (rewrite Hs; left; reflexivity).
  apply filter_In in Hin. apply Hin.
Qed.

(** X6: the [get_current_user] dependency of the routes never changes the
    state; every [HTTPException] it raises has status 401; the
    [InvalidTokenError] and [UserNotFoundError] of the service never escape
    it unconverted; and the account it hands to a route is a row of the
    [users] table that is active. *)
Theorem deps_get_current_user_contract (token_of_string : string -> Token) (env : Env)
    (authorization : option string) (db : DB) :
  snd (deps_get_current_user token_of_string env authorization db) = db /\
  (forall status detail,
     fst (deps_get_current_user token_of_string env authorization db)
     = inl (HTTPException status detail) -> status = 401) /\
  (forall e,
     fst (deps_get_current_user token_of_string env authorization db) = inl (Unhandled e) ->
     (forall m, e <> InvalidTokenError m) /\ e <> UserNotFoundError) /\
  (forall u,
     fst (deps_get_current_user token_of_string env authorization db) = inr u ->
     In u (users db) /\ is_active u = true).
Proof.
  unfold deps_get_current_user.
  destruct authorization as [a|]; [| cbn; repeat split; try discriminate;
    intros ? ? H; injection H as <-; reflexivity].
  destruct (String.eqb a EmptyString);
    [cbn; repeat split; try discriminate; intros ? ? H; injection H as <-; reflexivity |].
  destruct (py_split a) as [|scheme [|token [|w ws]]];
    try (cbn; repeat split; try discriminate; intros ? ? H; injection H as <-; reflexivity).
  destruct (String.eqb (py_lower scheme) "bearer");
    [| cbn; repeat split; try discriminate; intros ? ? H; injection H as <-; reflexivity].
  pose proof (get_current_user_state env (token_of_string token) db) as Hst.
  pose proof (get_current_user_inr env (token_of_string token) db) as Hin.
  destruct (AuthService.get_current_user env (token_of_string token) db) as [[e|u] db'];
    cbn in Hst; subst db'.
  - destruct e; cbn; repeat split; try discriminate;
      try (intros ? ? H; injection H as <-; reflexivity);
      try (match goal with H : inl (Unhandled _) = inl (Unhandled _) |- _ =>
             injection H as <- end; first [intros m Hm; discriminate Hm | discriminate]).
  - destruct (Hin u db eq_refl) as [H1 H2].
    cbn; repeat split; try discriminate; intros;
      match goal with H : inr _ = inr _ |- _ => injection H as <- end; assumption.
Qed.

(** X7: a request whose [Authorization] header is [scheme token], with
    [scheme] any capitalisation of [bearer] and [token] an access token the
    service issued for an account in the table, reaches the route with that
    account while the token has not expired, if the account is active; an
    inactive account gets a 401 with [Account is deactivated]. *)
Theorem deps_accepts_issued_access_token (token_of_string : string -> Token) (env : Env)
    (scheme text : string) (u : User) (t0 : Z) (db : DB) :
  py_lower scheme = "bearer"%string -> no_space scheme -> no_space text ->
  token_of_string text = create_access_token env t0 (uid u) None None ->
  0 <= uid u < 2 ^ 128 ->
  filter (fun a => Z.eqb (uid a) (uid u)) (users db) = [u] ->
  timegm (clock db) <= timegm (t0 + minutes (ACCESS_TOKEN_EXPIRE_MINUTES env)) ->
  deps_get_current_user token_of_string env (Some (scheme ++ String " " text)%string) db
  = (if is_active u then inr u else inl (HTTPException 401 "Account is deactivated"), db).
Proof.
  intros Hl Hs Ht Htok Hu Hf Hexp.
  unfold deps_get_current_user.
  destruct Hs as [Hs0 Hs'].
  replace (String.eqb (scheme ++ String " " text) EmptyString) with false
    by (destruct scheme; [contradiction | reflexivity]).
  rewrite py_split_two_words by first [exact Ht | split; assumption].
  rewrite Hl, String.eqb_refl, Htok, (get_current_user_on_issued env u t0 db Hu Hf Hexp).
  destruct (is_active u); reflexivity.
Qed.



(** ** Logging in, twice, and without a password *)

Lemma filter_stamp_login (t : Z) (u : User) (l : list User) (k : string) :
  filter (fun v => String.eqb (email v) k) (stamp_login t u l)
  = stamp_login t u (filter (fun v => String.eqb (email v) k) l).
Proof.
  unfold stamp_login in *. induction l as [|v l IH]; [reflexivity |].
  simpl. destruct (Z.eqb (uid v) (uid u)) eqn:E1; destruct (String.eqb (email v) k) eqn:E2;
    simpl; rewrite ?E1, ?E2; simpl; rewrite ?E1, IH; reflexivity.
Qed.

Lemma encode_issued_claims (sub typ : string) (expire : Z) :
  fold_left encode_time_claim ["exp"; "iat"; "nbf"]%string
    [("sub", JStr sub); ("exp", JDatetime expire); ("type", JStr typ)]%string
  = [("sub", JStr sub); ("exp", JInt (timegm expire)); ("type", JStr typ)]%string.
Proof. reflexivity. Qed.

Lemma timegm_add_days (t d : Z) : timegm (t + days d) = timegm t + d * 86400.
Proof.
  unfold timegm, days, usec_per_sec.
  replace (t + d * 86400 * 1000000) with (t + (d * 86400) * 1000000) by ring.
  apply Z.div_add. lia.
Qed.

(** Two refresh tokens for the same account minted in the same second are
    the same token. *)
Lemma create_refresh_token_same_second (env : Env) (t t' subject : Z) :
  timegm t = timegm t' ->
  create_refresh_token env t subject None = create_refresh_token env t' subject None.
Proof.
  intros Ht. unfold create_refresh_token, expiry, jwt_encode.
  rewrite !encode_issued_claims, !timegm_add_days, Ht. reflexivity.
Qed.

(** What a successful [login] found and did. *)
Lemma login_ok (env : Env) (e pw : string) (dev ip : option string) (db : DB) r db' :
  AuthService.login env e pw dev ip db = (inr r, db') ->
  exists u h,
    filter (fun v => String.eqb (email v) (py_lower e)) (users db) = [u] /\
    password_hash u = Some h /\ String.eqb h EmptyString = false /\
    verify_password env pw h = inr true /\ is_active u = true /\
    users db' = stamp_login (clock db) u (users db) /\
    In (create_refresh_token env (clock db) (uid u) None) (map session_token (user_sessions db')).
Proof.
  intros H. unfold AuthService.login in H.
  apply bind_ok in H as [uo [db1 [H1 H]]].
  unfold UserRepository.get_by_email in H1. apply query_ok in H1 as [H1 ->].
  destruct uo as [u|]; [| discriminate]. apply scalar_some in H1.
  destruct (password_hash u) as [h|] eqn:Hph; [| discriminate].
  destruct (String.eqb h EmptyString) eqn:Hh; [discriminate |].
  apply bind_ok in H as [ok [db2 [H2 H]]].
  unfold lift in H2. apply query_ok in H2 as [H2 ->].
  destruct ok; [| discriminate]. cbn [negb] in H.
  destruct (is_active u) eqn:Ha; [| discriminate]. cbn [negb] in H.
  apply bind_ok in H as [[] [db3 [H3 H]]].
  apply bind_ok in H as [toks [db4 [H4 H]]].
  unfold ret in H. injection H as _ <-.
  unfold UserRepository.update_last_login, bind, now, query, modify in H3.
  injection H3 as <-.
  unfold AuthService.create_tokens_and_session, UserRepository.create_session,
    bind, now, query, fresh_uuid, ret in H4.
  destruct db as [us aps ss ps ars lms las ulas c pool]. cbn in H4.
  destruct (existsb _ ss) eqn:Hex; [discriminate |].
  injection H4 as _ <-.
  exists u, h. cbn. repeat split; auto.
  rewrite map_app. apply in_or_app. right. left. reflexivity.
Qed.

(** X9: two password logins to the same account within the same second
    cannot both succeed: the second mints the same refresh token as the
    first (the claims hold the expiry in whole seconds, and no [jti] or
    [iat]), and the INSERT of its session row fails with [IntegrityError],
    whatever device or address it comes from. *)
Theorem login_twice_same_second (env : Env) (e pw : string) (dev ip dev' ip' : option string)
    (db : DB) r db' (t : Z) :
  AuthService.login env e pw dev ip db = (inr r, db') ->
  timegm t = timegm (clock db) ->
  fst (AuthService.login env e pw dev' ip' (set_clock db' t)) = inl IntegrityError.
Proof.
  intros H Ht.
  destruct (login_ok env e pw dev ip db r db' H)
    as [u [h [Hf [Hph [Hh [Hv [Ha [Hus Hin]]]]]]]].
  set (u' := mkUser (uid u) (email u) (password_hash u) (email_verified u) (is_active u)
               (Some (clock db))).
  assert (Hf' : filter (fun v => String.eqb (email v) (py_lower e)) (users (set_clock db' t))
                = [u']).
  { cbn. rewrite Hus, filter_stamp_login, Hf. cbn. rewrite Z.eqb_refl. reflexivity. }
  unfold AuthService.login.
  rewrite (bind_inr _ _ (set_clock db' t) (Some u') (set_clock db' t))
    by (unfold UserRepository.get_by_email, query; rewrite Hf'; reflexivity).
  cbn iota beta. unfold u' at 1. cbn [password_hash]. rewrite Hph, Hh.
  rewrite (bind_inr _ _ (set_clock db' t) true (set_clock db' t))
    by (unfold lift, query; rewrite Hv; reflexivity).
  unfold u'. cbn [negb is_active]. rewrite Ha. cbn [negb].
  unfold UserRepository.update_last_login, AuthService.create_tokens_and_session,
    UserRepository.create_session, bind, now, query, modify, fresh_uuid, ret.
  cbn [uid clock set_clock set_users set_uuid_pool user_sessions].
  rewrite (create_refresh_token_same_second env t (clock db) (uid u) Ht).
  replace (existsb _ (user_sessions db')) with true; [reflexivity |].
  symmetry. apply existsb_exists. apply in_map_iff in Hin as [s [Hs Hin]].
  exists s. split; [exact Hin |]. apply token_eqb_spec. exact Hs.
Qed.

(** What a successful [google_login] that created the account did to the
    [users] table. *)
Lemma google_login_new_account (env : Env) (tok : string) (dev ip : option string)
    (db : DB) r db' (gu : dict) (es : string) :
  AuthService.google_login env tok dev ip db = (inr r, db') ->
  is_new_user r = true ->
  verify_google_token env tok = inr gu ->
  dict_get_null gu "email" = JStr es ->
  exists nu t,
    filter (fun v => String.eqb (email v) (py_lower es)) (users db) = [] /\
    email nu = py_lower es /\ password_hash nu = None /\
    users db' = stamp_login t nu (users db ++ [nu]).
Proof.
  intros H Hnew Hgu Hes. unfold AuthService.google_login in H.
  apply bind_ok in H as [gu' [db1 [H1 H]]].
  unfold lift in H1. apply query_ok in H1 as [H1 ->]. rewrite Hgu in H1.
  injection H1 as <-. rewrite Hes in H.
  destruct (negb (py_truthy (JStr es)) || negb (py_truthy (dict_get_null gu "sub")));
    [discriminate |].
  apply bind_ok in H as [es' [db2 [H2 H]]].
  unfold lift in H2. apply query_ok in H2 as [H2 ->]. injection H2 as <-.
  apply bind_ok in H as [uo [db3 [H3 H]]].
  unfold UserRepository.get_by_email in H3. apply query_ok in H3 as [H3 ->].
  apply bind_ok in H as [gid [db4 [H4 H]]].
  unfold lift in H4. apply query_ok in H4 as [_ ->].
  apply bind_ok in H as [[u isn] [db5 [H5 H]]].
  apply bind_ok in H as [[] [db6 [H6 H]]].
  apply bind_ok in H as [toks [db7 [H7 H]]].
  unfold ret in H. injection H as <- <-. cbn in Hnew. subst isn.
  unfold UserRepository.update_last_login, bind, now, query, modify in H6.
  injection H6 as <-.
  unfold AuthService.create_tokens_and_session, UserRepository.create_session,
    bind, now, query, fresh_uuid, ret in H7.
  assert (Hus7 : users db7 = stamp_login (clock db5) u (users db5)).
  { destruct db5; cbn in H7. destruct (existsb _ _); injection H7 as _ <-; reflexivity. }
  destruct uo as [u0|].
  - apply bind_ok in H5 as [ap [db8 [H8 H5]]].
    destruct ap; [unfold ret in H5; discriminate H5 |].
    apply bind_ok in H5 as [ap [db9 [_ H5]]]. unfold ret in H5. discriminate H5.
  - apply scalar_none in H3.
    apply bind_ok in H5 as [nu [db8 [H8 H5]]].
    apply bind_ok in H5 as [ap [db9 [H9 H5]]].
    unfold ret in H5. injection H5 as Hnu Hdb. subst u db5.
    cbv beta iota zeta delta [UserRepository.create bind fresh_uuid] in H8.
    destruct (existsb _ _); [discriminate |].
    injection H8 as <- <-.
    unfold UserRepository.create_auth_provider, bind, fresh_uuid, modify, ret in H9.
    injection H9 as _ <-.
    eexists _, _. split; [exact H3 |]. split; [| split].
    3: (rewrite Hus7; reflexivity).
    all: reflexivity.
Qed.

(** X10: an account that [google_login] creates has no password, so
    [login] with its email (in any capitalisation) and any password
    always fails with [InvalidCredentialsError "Invalid email or
    password"] and changes nothing. *)
Theorem google_account_no_password_login (env : Env) (tok : string) (dev ip : option string)
    (db : DB) r db' (gu : dict) (es e' pw : string) (dev' ip' : option string) :
  AuthService.google_login env tok dev ip db = (inr r, db') ->
  is_new_user r = true ->
  verify_google_token env tok = inr gu ->
  dict_get_null gu "email" = JStr es ->
  py_lower e' = py_lower es ->
  AuthService.login env e' pw dev' ip' db' = (inl invalid_credentials, db').
Proof.
  intros H Hnew Hgu Hes Hl.
  destruct (google_login_new_account env tok dev ip db r db' gu es H Hnew Hgu Hes)
    as [nu [t [Hnone [Hem [Hph Hus]]]]].
  unfold AuthService.login.
  rewrite (bind_inr _ _ db' (Some (mkUser (uid nu) (email nu) (password_hash nu)
                                      (email_verified nu) (is_active nu) (Some t))) db').
  - cbn iota beta. cbn [password_hash]. rewrite Hph. reflexivity.
  - unfold UserRepository.get_by_email, query. rewrite Hus, filter_stamp_login, Hl.
    rewrite filter_app, Hnone. cbn [app filter].
    replace (String.eqb (email nu) (py_lower es)) with true
      by (rewrite Hem; symmetry; apply String.eqb_refl).
    unfold stamp_login. cbn [map]. rewrite Z.eqb_refl. reflexivity.
Qed.

(** ** Life-area selections *)

(** The rows [set_user_life_areas] builds: one per id, in order, for the
    account, with priorities from [prio] on; each draws one [uuid4()]. *)
Lemma new_life_areas_ok (user_id prio : Z) (ids : list Z) (db : DB) :
  exists rows,
    ProfileRepository.new_life_areas user_id prio ids db
    = (inr rows, set_uuid_pool db (uuid_pool db + Z.of_nat (length ids))) /\
    Forall (fun a => ula_user_id a = user_id) rows /\
    map (fun a => (ula_life_area_id a, priority a)) rows
    = combine ids (map (fun k => prio + Z.of_nat k) (seq 0 (length ids))) /\
    map ula_life_area_id rows = ids /\
    Forall (fun a => prio <= priority a) rows /\
    ProfileRepository.sort_by_priority rows = rows.
Proof.
  revert prio db. induction ids as [|i ids IH]; intros prio db.
  - exists []. split; [| cbn; repeat split; constructor].
    cbn [ProfileRepository.new_life_areas]. unfold ret.
    destruct db; cbn. rewrite Z.add_0_r. reflexivity.
  - destruct (IH (prio + 1) (set_uuid_pool db (uuid_pool db + 1)))
      as [rest [Hr [Hu [Hm [Hl [Hp Hs]]]]]].
    exists (mkUserLifeArea (uuid_pool db) user_id i prio (clock db) :: rest).
    split; [| split; [| split; [| split; [| split]]]].
    + cbn [ProfileRepository.new_life_areas].
      cbv beta iota zeta delta [bind fresh_uuid now query ret].
      replace (clock (set_uuid_pool db (uuid_pool db + 1))) with (clock db)
        by (destruct db; reflexivity).
      rewrite Hr. f_equal. cbn [length]. rewrite Nat2Z.inj_succ.
      destruct db; unfold set_uuid_pool; cbn [uuid_pool]. f_equal. lia.
    + constructor; [reflexivity | exact Hu].
    + cbn [map combine length seq]. rewrite Hm. f_equal.
      * cbn. f_equal. lia.
      * f_equal. rewrite <- seq_shift, map_map. apply map_ext. intros k. lia.
    + cbn [map ula_life_area_id]. rewrite Hl. reflexivity.
    + constructor; [cbn; lia |].
      eapply Forall_impl; [| exact Hp]. intros a Ha. cbv beta in Ha |- *. lia.
    + unfold ProfileRepository.sort_by_priority in *. cbn [fold_right]. rewrite Hs.
      destruct rest as [|b rest]; [reflexivity |].
      apply Forall_inv in Hp.
      cbn [ProfileRepository.insert_by_priority priority].
      destruct (Z.leb_spec prio (priority b)); [reflexivity | lia].
Qed.

Lemma In_insert_by_priority (x a : UserLifeArea) (l : list UserLifeArea) :
  In x (ProfileRepository.insert_by_priority a l) <-> In x (a :: l).
Proof.
  induction l as [|b l IH]; [reflexivity |].
  cbn [ProfileRepository.insert_by_priority]. destruct (_ <=? _); [reflexivity |].
  cbn [In] in *. tauto.
Qed.

Lemma In_sort_by_priority (x : UserLifeArea) (l : list UserLifeArea) :
  In x (ProfileRepository.sort_by_priority l) <-> In x l.
Proof.
  induction l as [|a l IH]; [reflexivity |].
  unfold ProfileRepository.sort_by_priority in *. cbn [fold_right].
  pose proof (In_insert_by_priority x a (fold_right ProfileRepository.insert_by_priority [] l)).
  cbn [In] in *. tauto.
Qed.

Lemma existsb_sort_by_priority (f : UserLifeArea -> bool) (l : list UserLifeArea) :
  existsb f (ProfileRepository.sort_by_priority l) = existsb f l.
Proof.
  destruct (existsb f l) eqn:E.
  - apply existsb_exists in E as [x [Hx Hf]]. apply existsb_exists.
    exists x. split; [apply In_sort_by_priority; exact Hx | exact Hf].
  - apply not_true_iff_false. intros H.
    apply existsb_exists in H as [x [Hx Hf]]. apply (proj1 (In_sort_by_priority x l)) in Hx.
    assert (existsb f l = true) by (apply existsb_exists; exists x; split; assumption). congruence.
Qed.

Lemma filter_Forall_true {A} (f : A -> bool) (P : A -> Prop) (l : list A) :
  Forall P l -> (forall x, P x -> f x = true) -> filter f l = l.
Proof.
  intros HF Hf. induction HF as [|x l Hx HF IH]; [reflexivity |].
  cbn. rewrite (Hf x Hx), IH. reflexivity.
Qed.

Lemma filter_Forall_false {A} (f : A -> bool) (P : A -> Prop) (l : list A) :
  Forall P l -> (forall x, P x -> f x = false) -> filter f l = [].
Proof.
  intros HF Hf. induction HF as [|x l Hx HF IH]; [reflexivity |].
  cbn. rewrite (Hf x Hx), IH. reflexivity.
Qed.

(** Deleting the rows [get_user_life_areas] found, by primary key, leaves
    exactly the other accounts' rows when primary keys are unique. *)
Lemma delete_existing_life_areas (user_id : Z) (l : list UserLifeArea) :
  NoDup (map ula_id l) ->
  filter (fun a => negb (existsb (fun x => Z.eqb (ula_id x) (ula_id a))
                                 (ProfileRepository.sort_by_priority
                                    (filter (fun a => Z.eqb (ula_user_id a) user_id) l)))) l
  = filter (fun a => negb (Z.eqb (ula_user_id a) user_id)) l.
Proof.
  intros Hnd. apply filter_ext_in. intros a Ha. rewrite existsb_sort_by_priority.
  destruct (Z.eqb (ula_user_id a) user_id) eqn:Hu.
  - cbn. apply negb_false_iff, existsb_exists. exists a. split.
    + apply filter_In. split; assumption.
    + apply Z.eqb_refl.
  - cbn. apply negb_true_iff, existsb_none. intros x Hx.
    apply filter_In in Hx as [Hx Hxu]. apply Z.eqb_neq. intros Hid.
    assert (x = a) by exact (NoDup_map_inj ula_id l x a Hnd Hx Ha Hid). subst x.
    congruence.
Qed.

(** X11: for an existing account and ids of existing life areas (the two
    foreign keys of [user_life_areas]), [set_user_life_areas] replaces the
    account's selection: it succeeds, returns the new rows, and afterwards
    [get_user_life_areas] (ordered by priority) returns exactly those rows:
    one per given id, in the given order, with priorities 1, 2, 3, ...; the
    rows of other accounts are unchanged (primary keys being unique). *)
Theorem set_user_life_areas_replaces (user_id : Z) (ids : list Z) (db : DB) :
  NoDup (map ula_id (user_life_areas db)) ->
  In user_id (map uid (users db)) ->
  Forall (fun i => In i (life_areas db)) ids ->
  exists rows db',
    ProfileRepository.set_user_life_areas user_id ids db = (inr rows, db') /\
    ProfileRepository.get_user_life_areas user_id db' = (inr rows, db') /\
    map (fun a => (ula_life_area_id a, priority a)) rows
    = combine ids (map (fun k => 1 + Z.of_nat k) (seq 0 (length ids))) /\
    filter (fun a => negb (Z.eqb (ula_user_id a) user_id)) (user_life_areas db')
    = filter (fun a => negb (Z.eqb (ula_user_id a) user_id)) (user_life_areas db).
Proof.
  intros Hnd Hu Hids.
  destruct (new_life_areas_ok user_id 1 ids db) as [rows [Hrun [Hur [Hm [Hlid [_ Hsort]]]]]].
  set (db1 := set_uuid_pool db (uuid_pool db + Z.of_nat (length ids))) in Hrun.
  assert (Hfk : forallb (ProfileRepository.life_area_fk_ok db1) rows = true).
  { apply forallb_forall. intros a Ha.
    pose proof (proj1 (Forall_forall _ _) Hur a Ha) as Hua.
    unfold ProfileRepository.life_area_fk_ok. rewrite Hua.
    replace (users db1) with (users db) by (unfold db1; destruct db; reflexivity).
    replace (life_areas db1) with (life_areas db) by (unfold db1; destruct db; reflexivity).
    apply andb_true_intro. split; apply existsb_exists.
    - exists user_id. split; [exact Hu | apply Z.eqb_refl].
    - exists (ula_life_area_id a). split; [| apply Z.eqb_refl].
      apply (proj1 (Forall_forall _ _) Hids). rewrite <- Hlid. apply in_map. exact Ha. }
  set (kept := filter (fun a => negb (Z.eqb (ula_user_id a) user_id)) (user_life_areas db)).
  exists rows, (set_user_life_areas_table db1 (kept ++ rows)).
  split; [| split; [| split]].
  - unfold ProfileRepository.set_user_life_areas, ProfileRepository.get_user_life_areas,
      bind, query.
    rewrite Hrun, Hfk.
    replace (user_life_areas db1) with (user_life_areas db) by (unfold db1; destruct db; reflexivity).
    unfold kept. rewrite <- (delete_existing_life_areas user_id _ Hnd). reflexivity.
  - unfold ProfileRepository.get_user_life_areas, query. f_equal. f_equal.
    cbn [user_life_areas set_user_life_areas_table]. rewrite filter_app.
    rewrite (filter_Forall_false _ (fun a => negb (Z.eqb (ula_user_id a) user_id) = true) kept).
    + rewrite (filter_Forall_true _ (fun a => ula_user_id a = user_id) _ Hur).
      * exact Hsort.
      * intros x ->. apply Z.eqb_refl.
    + apply Forall_forall. intros x Hx. apply filter_In in Hx. apply Hx.
    + intros x Hx. apply negb_true_iff in Hx. exact Hx.
  - exact Hm.
  - cbn [user_life_areas set_user_life_areas_table]. rewrite filter_app.
    rewrite (filter_Forall_false _ (fun a => ula_user_id a = user_id) rows Hur).
    + rewrite app_nil_r. unfold kept.
      apply (filter_Forall_true _ (fun a => negb (Z.eqb (ula_user_id a) user_id) = true)).
      * apply Forall_forall. intros x Hx. apply filter_In in Hx. apply Hx.
      * intros x Hx. exact Hx.
    + intros x ->. cbn. rewrite Z.eqb_refl. reflexivity.
Qed.

(** ** Profile creation and update *)

Lemma filter_nil_false {A} (f : A -> bool) (l : list A) (x : A) :
  filter f l = [] -> In x l -> f x = false.
Proof.
  intros H Hx. destruct (f x) eqn:Hf; [| reflexivity].
  assert (Hin : In x (filter f l)) by (apply filter_In; auto).
  rewrite H in Hin. destruct Hin.
Qed.

(** The checks of [create_profile] before the insert: a free name, a known
    archetype and a known life mode. *)
Lemma create_profile_checks (user_id : Z) (data : ProfileCreateRequest) (db : DB) :
  filter (fun q => String.eqb (player_name q) (pc_player_name data)) (user_profiles db) = [] ->
  filter (Z.eqb (pc_archetype_id data)) (archetypes db) = [pc_archetype_id data] ->
  filter (Z.eqb (pc_life_mode_id data)) (life_modes db) = [pc_life_mode_id data] ->
  ProfileService2.create_profile user_id data db
  = ProfileRepository.create user_id (pc_player_name data)
      (Some (pc_archetype_id data)) (Some (pc_life_mode_id data))
      (pc_avatar_url data) (pc_bio data) (pc_timezone data) db.
Proof.
  intros Hn Ha Hl.
  cbv [ProfileService2.create_profile ProfileRepository.get_by_player_name
       ProfileRepository.get_archetype_by_id ProfileRepository.get_life_mode_by_id
       bind query when ret raise].
  rewrite Hn. cbv beta iota zeta delta [scalar_one_or_none].
  rewrite Ha. cbv beta iota zeta delta [scalar_one_or_none].
  rewrite Hl. reflexivity.
Qed.

Lemma filter_single_In (a : Z) (l : list Z) :
  filter (Z.eqb a) l = [a] -> In a l.
Proof.
  intros H. assert (Hin : In a (filter (Z.eqb a) l)) by (rewrite H; left; reflexivity).
  apply filter_In in Hin. apply Hin.
Qed.

(** The foreign keys of a new profile hold when its account, archetype and
    life mode exist. *)
Lemma profile_fk_ok_new (db : DB) (p : UserProfile) :
  In (prof_user_id p) (map uid (users db)) ->
  (forall a, archetype_id p = Some a -> In a (archetypes db)) ->
  (forall m, life_mode_id p = Some m -> In m (life_modes db)) ->
  ProfileRepository.profile_fk_ok db None p = true.
Proof.
  intros Hu Ha Hm.
  unfold ProfileRepository.profile_fk_ok, ProfileRepository.fk_ok. cbn [option_map orb].
  repeat (apply andb_true_intro; split).
  - apply existsb_exists. exists (prof_user_id p). split; [exact Hu | apply Z.eqb_refl].
  - destruct (archetype_id p) as [a|]; [| reflexivity].
    apply existsb_exists. exists a. split; [apply Ha; reflexivity | apply Z.eqb_refl].
  - destruct (life_mode_id p) as [m|]; [| reflexivity].
    apply existsb_exists. exists m. split; [apply Hm; reflexivity | apply Z.eqb_refl].
Qed.

(** An update that keeps a profile's account, archetype and life mode
    writes no foreign key: the flush does not check them. *)
Lemma profile_fk_ok_same_keys (db : DB) (p p' : UserProfile) :
  prof_user_id p' = prof_user_id p -> archetype_id p' = archetype_id p ->
  life_mode_id p' = life_mode_id p ->
  ProfileRepository.profile_fk_ok db (Some p) p' = true.
Proof.
  intros Hu Ha Hm. unfold ProfileRepository.profile_fk_ok, ProfileRepository.fk_ok.
  cbn [option_map]. rewrite Hu, Ha, Hm.
  destruct (archetype_id p), (life_mode_id p); cbn [orb andb]; rewrite ?Z.eqb_refl; reflexivity.
Qed.

(** X12: [create_profile] with a free player name, a known archetype and
    life mode, for an existing account (the foreign key of [user_id]) that
    has no profile yet, inserts one new row
    at level 1 with 0 XP, no identity lock and onboarding not completed,
    holding the requested fields, and returns it. *)
Theorem create_profile_creates (user_id : Z) (data : ProfileCreateRequest) (db : DB) :
  filter (fun q => String.eqb (player_name q) (pc_player_name data)) (user_profiles db) = [] ->
  filter (Z.eqb (pc_archetype_id data)) (archetypes db) = [pc_archetype_id data] ->
  filter (Z.eqb (pc_life_mode_id data)) (life_modes db) = [pc_life_mode_id data] ->
  filter (fun q => Z.eqb (prof_user_id q) user_id) (user_profiles db) = [] ->
  ~ In (uuid_pool db) (map prof_id (user_profiles db)) ->
  In user_id (map uid (users db)) ->
  ProfileService2.create_profile user_id data db
  = (inr (mkProfile (uuid_pool db) user_id (pc_player_name data)
            (Some (pc_archetype_id data)) (Some (pc_life_mode_id data))
            (pc_avatar_url data) (pc_bio data) (pc_timezone data) 1 0 None false),
     set_user_profiles (set_uuid_pool db (uuid_pool db + 1))
       (user_profiles db ++
        [mkProfile (uuid_pool db) user_id (pc_player_name data)
           (Some (pc_archetype_id data)) (Some (pc_life_mode_id data))
           (pc_avatar_url data) (pc_bio data) (pc_timezone data) 1 0 None false])).
Proof.
  intros Hn Ha Hl Hu Hid Hus. rewrite (create_profile_checks user_id data db Hn Ha Hl).
  cbv [ProfileRepository.create ProfileRepository.flush_profile bind fresh_uuid].
  cbn [prof_id prof_user_id player_name user_profiles set_uuid_pool].
  rewrite profile_fk_ok_new; cycle 1.
  { cbn [prof_user_id users set_uuid_pool]. exact Hus. }
  { intros a E. cbn [archetype_id] in E. injection E as <-.
    cbn [archetypes set_uuid_pool]. apply filter_single_In. exact Ha. }
  { intros m E. cbn [life_mode_id] in E. injection E as <-.
    cbn [life_modes set_uuid_pool]. apply filter_single_In. exact Hl. }
  cbn [negb]. rewrite orb_false_r.
  rewrite existsb_none.
  - rewrite existsb_none; [reflexivity |].
    intros q Hq. apply Z.eqb_neq. intros E. apply Hid. rewrite <- E. apply in_map. exact Hq.
  - intros q Hq. apply filter_In in Hq as [Hq _].
    rewrite (filter_nil_false _ _ q Hu Hq), (filter_nil_false _ _ q Hn Hq). reflexivity.
Qed.

(** X13: [create_profile] does not look up the account's existing profile:
    when the account already has one, every check passes and the insert
    fails at the flush with [IntegrityError] (the UNIQUE [user_id]); only
    the drawn id is spent. *)
Theorem create_profile_second_profile (user_id : Z) (data : ProfileCreateRequest)
    (q : UserProfile) (db : DB) :
  filter (fun q => String.eqb (player_name q) (pc_player_name data)) (user_profiles db) = [] ->
  filter (Z.eqb (pc_archetype_id data)) (archetypes db) = [pc_archetype_id data] ->
  filter (Z.eqb (pc_life_mode_id data)) (life_modes db) = [pc_life_mode_id data] ->
  In q (user_profiles db) -> prof_user_id q = user_id -> prof_id q <> uuid_pool db ->
  ProfileService2.create_profile user_id data db
  = (inl IntegrityError, set_uuid_pool db (uuid_pool db + 1)).
Proof.
  intros Hn Ha Hl Hq Hqu Hqid. rewrite (create_profile_checks user_id data db Hn Ha Hl).
  cbv [ProfileRepository.create ProfileRepository.flush_profile bind fresh_uuid].
  cbn [prof_id prof_user_id player_name user_profiles set_uuid_pool].
  replace (existsb _ _) with true; [reflexivity |].
  symmetry. apply existsb_exists. exists q. split.
  - apply filter_In. split; [exact Hq |]. apply negb_true_iff, Z.eqb_neq. exact Hqid.
  - rewrite Hqu, Z.eqb_refl. reflexivity.
Qed.

(** X14: [update_profile] refuses a new player name that another profile
    holds: a non-empty name different from the current one, found by
    [get_by_player_name], raises [PlayerNameTakenError] and changes
    nothing. *)
Theorem update_profile_name_taken (user_id : Z) (data : ProfileUpdateRequest)
    (p q : UserProfile) (n : string) (db : DB) :
  filter (fun r => Z.eqb (prof_user_id r) user_id) (user_profiles db) = [p] ->
  pu_player_name data = Some n -> n <> EmptyString -> n <> player_name p ->
  filter (fun r => String.eqb (player_name r) n) (user_profiles db) = [q] ->
  ProfileService2.update_profile user_id data db = (inl (PExn PlayerNameTakenError), db).
Proof.
  intros Hp Hd Hne Hnp Hq.
  cbv [ProfileService2.update_profile ProfileService2.get_profile
       ProfileRepository.get_by_user_id ProfileRepository.get_by_player_name
       bindX liftX retX raiseX query].
  rewrite Hp, Hd. cbn [scalar_one_or_none].
  apply String.eqb_neq in Hne, Hnp. rewrite Hne, Hnp. cbn [negb andb].
  rewrite Hq. reflexivity.
Qed.

(** X15: [update_profile] with a new player name no profile holds succeeds
    and rewrites the account's row in place: the name becomes the given one
    (also the empty string, which skips the availability check), the
    avatar, bio and timezone change where given, and the id, the account,
    the archetype, the life mode, the level, the XP, the identity lock and
    the onboarding flag stay as they were; the identity lock is never
    consulted. *)
Theorem update_profile_renames (user_id : Z) (data : ProfileUpdateRequest)
    (p : UserProfile) (n : string) (db : DB) :
  filter (fun r => Z.eqb (prof_user_id r) user_id) (user_profiles db) = [p] ->
  pu_player_name data = Some n ->
  filter (fun r => String.eqb (player_name r) n) (user_profiles db) = [] ->
  exists p',
    ProfileService2.update_profile user_id data db
    = (inr p', set_user_profiles db
                 (map (fun r => if Z.eqb (prof_id r) (prof_id p) then p' else r)
                      (user_profiles db))) /\
    prof_id p' = prof_id p /\ prof_user_id p' = user_id /\ player_name p' = n /\
    avatar_url p' = if_not_none (option_map Some (pu_avatar_url data)) (avatar_url p) /\
    bio p' = if_not_none (option_map Some (pu_bio data)) (bio p) /\
    timezone p' = if_not_none (pu_timezone data) (timezone p) /\
    archetype_id p' = archetype_id p /\ life_mode_id p' = life_mode_id p /\
    level p' = level p /\ total_core_xp p' = total_core_xp p /\
    identity_locked_until p' = identity_locked_until p /\
    onboarding_completed p' = onboarding_completed p.
Proof.
  intros Hp Hd Hn.
  destruct (filter_singleton_in _ _ _ Hp) as [Hpin Hpu]. apply Z.eqb_eq in Hpu.
  assert (Hothers : existsb (fun q => Z.eqb (prof_user_id q) (prof_user_id p)
                                      || String.eqb (player_name q) n)
            (filter (fun q => negb (Z.eqb (prof_id q) (prof_id p))) (user_profiles db))
          = false).
  { apply existsb_none. intros r Hr. apply filter_In in Hr as [Hr Hrid].
    rewrite (filter_nil_false _ _ r Hn Hr), orb_false_r.
    apply Z.eqb_neq. intros Hru. apply negb_true_iff, Z.eqb_neq in Hrid. apply Hrid.
    assert (Hrf : In r (filter (fun r => Z.eqb (prof_user_id r) user_id) (user_profiles db))).
    { apply filter_In. split; [exact Hr |]. apply Z.eqb_eq. congruence. }
    rewrite Hp in Hrf. destruct Hrf as [<- | []]. reflexivity. }
  assert (Hself : existsb (fun q => Z.eqb (prof_id q) (prof_id p)) (user_profiles db) = true).
  { apply existsb_exists. exists p. split; [exact Hpin | apply Z.eqb_refl]. }
  eexists. split.
  - cbv [ProfileService2.update_profile ProfileService2.get_profile
         ProfileRepository.get_by_user_id ProfileRepository.get_by_player_name
         ProfileRepository.update ProfileRepository.flush_profile
         bindX liftX retX raiseX query].
    rewrite Hp. cbv beta iota zeta delta [scalar_one_or_none]. rewrite Hd.
    destruct (negb (String.eqb n EmptyString) && negb (String.eqb n (player_name p)));
      [rewrite Hn |]; cbv beta iota zeta delta [scalar_one_or_none];
      cbn [prof_id prof_user_id player_name if_not_none];
      rewrite Hothers, Hself, profile_fk_ok_same_keys; reflexivity.
  - cbn [prof_id prof_user_id player_name avatar_url bio timezone archetype_id
         life_mode_id level total_core_xp identity_locked_until onboarding_completed].
    rewrite ?Hd. cbn [if_not_none].
    destruct (pu_avatar_url data), (pu_bio data); cbn; repeat split; auto.
Qed.

(** ** Password login *)






(** ** Concrete instances *)

Local Open Scope string_scope.

Lemma no_space_check (s : string) :
  s <> EmptyString ->
  forallb (fun c => negb (py_isspace c)) (list_ascii_of_string s) = true -> no_space s.
Proof.
  intros Hne Hall. split; [exact Hne |]. intros c Hc.
  rewrite forallb_forall in Hall. apply negb_true_iff, Hall, Hc.
Qed.

Lemma logout_does_not_revoke_witness :
  user_sessions (snd (AuthService.logout registered_refresh_token db_registered_later)) = [] /\
  (fst (AuthService.refresh_tokens sample_env registered_refresh_token None None
          (snd (AuthService.logout registered_refresh_token db_registered_later)))
   = inr (result_or no_tokens refresh_later) /\
   fst (AuthService.refresh_tokens sample_env registered_refresh_token None None
          (snd (AuthService.logout_all 1 db_registered_later)))
   = inr (result_or no_tokens refresh_later) /\
   (forall tok2,
      fst (AuthService.get_current_user sample_env tok2
             (snd (AuthService.logout registered_refresh_token db_registered_later)))
      = fst (AuthService.get_current_user sample_env tok2 db_registered_later) /\
      fst (AuthService.get_current_user sample_env tok2
             (snd (AuthService.logout_all 1 db_registered_later)))
      = fst (AuthService.get_current_user sample_env tok2 db_registered_later))).
Proof.
  split; [vm_compute; reflexivity |].
  exact (logout_does_not_revoke sample_env registered_refresh_token registered_refresh_token 1
           None None db_registered_later (result_or no_tokens refresh_later)
           (snd refresh_later) ltac:(vm_compute; reflexivity)).
Defined.

Lemma deps_accepts_issued_access_token_witness :
  deps_get_current_user (fun _ => create_access_token sample_env t_sample 1 None None)
    sample_env (Some ("Bearer" ++ String " " "tok")%string) db_accounts
  = (inr sample_user, db_accounts).
Proof.
  exact (deps_accepts_issued_access_token
           (fun _ => create_access_token sample_env t_sample 1 None None) sample_env
           "Bearer" "tok" sample_user t_sample db_accounts
           ltac:(vm_compute; reflexivity)
           (no_space_check "Bearer" ltac:(discriminate) ltac:(vm_compute; reflexivity))
           (no_space_check "tok" ltac:(discriminate) ltac:(vm_compute; reflexivity))
           ltac:(reflexivity) ltac:(cbn; lia) ltac:(vm_compute; reflexivity)
           ltac:(vm_compute; discriminate)).
Defined.


Lemma login_twice_same_second_witness :
  fst (AuthService.login sample_env "a@x.com" "pw" None None
         (set_clock (snd login_run) (t_sample + 1))) = inl IntegrityError.
Proof.
  exact (login_twice_same_second sample_env "a@x.com" "pw" None None None None db_accounts
           (result_or no_tokens login_run) (snd login_run) (t_sample + 1)
           ltac:(vm_compute; reflexivity) ltac:(vm_compute; reflexivity)).
Defined.

Lemma google_account_no_password_login_witness :
  AuthService.login sample_env "A@X.com" "pw" None None (snd google_new_run)
  = (inl invalid_credentials, snd google_new_run).
Proof.
  exact (google_account_no_password_login sample_env "g9" None None empty_db
           (result_or no_tokens google_new_run) (snd google_new_run) google_user_g9
           "a@x.com" "A@X.com" "pw" None None
           ltac:(vm_compute; reflexivity) ltac:(vm_compute; reflexivity)
           ltac:(vm_compute; reflexivity) ltac:(vm_compute; reflexivity)
           ltac:(vm_compute; reflexivity)).
Defined.

Lemma set_user_life_areas_replaces_witness :
  exists rows db',
    ProfileRepository.set_user_life_areas 1 [302; 300] db_life_areas = (inr rows, db') /\
    ProfileRepository.get_user_life_areas 1 db' = (inr rows, db') /\
    map (fun a => (ula_life_area_id a, priority a)) rows
    = combine [302; 300] (map (fun k => 1 + Z.of_nat k) (seq 0 (length [302; 300]))) /\
    filter (fun a => negb (Z.eqb (ula_user_id a) 1)) (user_life_areas db')
    = filter (fun a => negb (Z.eqb (ula_user_id a) 1)) (user_life_areas db_life_areas).
Proof.
  exact (set_user_life_areas_replaces 1 [302; 300] db_life_areas
           ltac:(repeat constructor; cbn; lia)
           ltac:(cbn; tauto)
           ltac:(repeat constructor; cbn; tauto)).
Defined.

Lemma create_profile_creates_witness :
  ProfileService2.create_profile 1 (mkProfileCreateRequest "hero" 100 200 None None "UTC")
    db_onboarding
  = (inr (mkProfile 10 1 "hero" (Some 100) (Some 200) None None "UTC" 1 0 None false),
     set_user_profiles (set_uuid_pool db_onboarding 11)
       [mkProfile 10 1 "hero" (Some 100) (Some 200) None None "UTC" 1 0 None false]).
Proof.
  exact (create_profile_creates 1 (mkProfileCreateRequest "hero" 100 200 None None "UTC")
           db_onboarding
           ltac:(vm_compute; reflexivity) ltac:(vm_compute; reflexivity)
           ltac:(vm_compute; reflexivity) ltac:(vm_compute; reflexivity)
           ltac:(cbn; tauto) ltac:(left; reflexivity)).
Defined.

Lemma create_profile_second_profile_witness :
  ProfileService2.create_profile 1 (mkProfileCreateRequest "hero2" 100 200 None None "UTC")
    db_profiles
  = (inl IntegrityError, set_uuid_pool db_profiles 14).
Proof.
  exact (create_profile_second_profile 1
           (mkProfileCreateRequest "hero2" 100 200 None None "UTC") onboarded_profile db_profiles
           ltac:(vm_compute; reflexivity) ltac:(vm_compute; reflexivity)
           ltac:(vm_compute; reflexivity) ltac:(cbn; tauto) ltac:(reflexivity)
           ltac:(vm_compute; discriminate)).
Defined.

Lemma update_profile_name_taken_witness :
  ProfileService2.update_profile 1 (mkProfileUpdateRequest (Some "rival") None None None)
    db_profiles
  = (inl (PExn PlayerNameTakenError), db_profiles).
Proof.
  exact (update_profile_name_taken 1 (mkProfileUpdateRequest (Some "rival") None None None)
           onboarded_profile rival_profile "rival" db_profiles
           ltac:(vm_compute; reflexivity) ltac:(reflexivity) ltac:(discriminate)
           ltac:(vm_compute; discriminate) ltac:(vm_compute; reflexivity)).
Defined.

Lemma update_profile_renames_witness :
  exists p',
    ProfileService2.update_profile 1
      (mkProfileUpdateRequest (Some EmptyString) (Some "img") None (Some "Europe/Paris"))
      db_profiles
    = (inr p', set_user_profiles db_profiles
                 (map (fun r => if Z.eqb (prof_id r) (prof_id onboarded_profile) then p' else r)
                      (user_profiles db_profiles))) /\
    prof_id p' = prof_id onboarded_profile /\ prof_user_id p' = 1 /\
    player_name p' = EmptyString /\
    avatar_url p' = if_not_none (option_map Some (Some "img"%string))
                                (avatar_url onboarded_profile) /\
    bio p' = if_not_none (option_map Some None) (bio onboarded_profile) /\
    timezone p' = if_not_none (Some "Europe/Paris"%string) (timezone onboarded_profile) /\
    archetype_id p' = archetype_id onboarded_profile /\
    life_mode_id p' = life_mode_id onboarded_profile /\
    level p' = level onboarded_profile /\
    total_core_xp p' = total_core_xp onboarded_profile /\
    identity_locked_until p' = identity_locked_until onboarded_profile /\
    onboarding_completed p' = onboarding_completed onboarded_profile.
Proof.
  exact (update_profile_renames 1
           (mkProfileUpdateRequest (Some EmptyString) (Some "img") None (Some "Europe/Paris"))
           onboarded_profile EmptyString db_profiles
           ltac:(vm_compute; reflexivity) ltac:(reflexivity) ltac:(vm_compute; reflexivity)).
Defined.


